(** * lvmcache: a shallow embedding of lib/cache/lvmcache.c

    The C file keeps the whole cache in process-wide variables (five hash
    tables, three lists, a handful of flags) and in heap objects that point
    at each other (lvmcache_info <-> lvmcache_vginfo, the vginfo->next alias
    chain, device handles borrowed from the device cache).  The embedding
    keeps that shape:

    - every global is a field of the record [cache];
    - heap objects live in stores indexed by addresses ([ptr]); a C pointer
      is an address, NULL is [None];
    - a function that reads or writes the globals is a computation in the
      monad [M], a state monad over [cache] with one failure, [undefined],
      which stands for C undefined behaviour: dereferencing NULL or a freed
      object, using a hash table that was never created, or walking a
      vginfo->next chain that never ends;
    - allocation (dm_zalloc, dm_strdup, dm_hash_insert, label_create) is
      taken to succeed, and log_* calls are dropped.

    Names, constants and helpers that lvmcache.c takes from other files are
    the fields of the class [Host]. *)

From Stdlib Require Import ZArith String Ascii.
From stdpp Require Import gmap strings list fin_maps.

Local Open Scope Z_scope.

(** ** C strings *)

(** strcmp: only the sign of the result is specified; bytes compare as
    unsigned char. *)
Definition strcmp (a b : string) : Z :=
  match String.compare a b with
  | Lt => -1
  | Eq => 0
  | Gt => 1
  end.

(** strncmp(a, b, n): strcmp on the first n characters. *)
Definition strncmp (a b : string) (n : nat) : Z :=
  strcmp (String.substring 0 n a) (String.substring 0 n b).

(** dm_strncpy(dest, src, n) copies at most n - 1 characters and always
    terminates dest. *)
Definition dm_strncpy (src : string) (n : nat) : string :=
  String.substring 0 (n - 1) src.

(** strncpy(dest, src, n) copies at most n characters. *)
Definition strncpy (src : string) (n : nat) : string :=
  String.substring 0 n src.

(** ** Objects *)

Definition ptr := nat.

Definition CACHE_LOCKED : Z := 0x00000002.

Record format_type := {
  fmt_name : string;
  fmt_orphan_vg_name : string;
  fmt_cmd_hostname : string          (* fmt->cmd->hostname *)
}.

Record labeller := {
  labeller_id : nat;
  labeller_fmt : format_type
}.

Record label := {
  label_labeller : labeller
}.

(** struct device, as far as lvmcache.c looks into it. *)
Record device := {
  dev_dev : Z;                       (* dev_t *)
  dev_pvid : string;
  dev_flags : Z
}.

Record dev_types := {
  md_major : Z
}.

Record cmd_context := {
  cmd_is_clvmd : bool;
  cmd_dev_types : dev_types;
  cmd_full_filter : bool;            (* cmd->full_filter != NULL *)
  cmd_independent_metadata_areas : bool;
  cmd_unused_duplicate_devs : list ptr
}.

(** A metadata area is opaque here; only [mdas_empty_or_ignored] looks at
    the list. *)
Record metadata_area := {
  mda_ignored : bool
}.

(** One per device *)
Record lvmcache_info := {
  info_mdas : list metadata_area;
  info_vginfo : option ptr;          (* NULL == unknown *)
  info_label : label;
  info_fmt : format_type;
  info_dev : ptr;
  info_device_size : Z;              (* Bytes *)
  info_ext_version : Z;
  info_ext_flags : Z;
  info_status : Z
}.

(** One per VG.  [vginfo_infos] is the dm_list of members in list order. *)
Record lvmcache_vginfo := {
  vginfo_infos : list ptr;
  vginfo_fmt : option format_type;
  vginfo_vgname : string;            (* "" == orphan *)
  vginfo_status : Z;
  vginfo_vgid : string;
  vginfo_next : option ptr;          (* Another VG with same name? *)
  vginfo_creation_host : option string;
  vginfo_system_id : option string;
  vginfo_lock_type : option string;
  vginfo_mda_checksum : Z;
  vginfo_mda_size : Z;
  vginfo_seqno : Z;
  vginfo_independent_metadata_location : bool;
  vginfo_scan_summary_mismatch : bool
}.

(** struct volume_group, as far as the saved-VG code looks into it;
    [vg_addr] tells one parsed object from another. *)
Record volume_group := {
  vg_addr : nat;
  vg_name : string;
  vg_id : string;
  vg_seqno : Z;
  vg_saved_in_clvmd : bool
}.

Record saved_vg := {
  svg_vgid : string;
  saved_vg_committed : bool;
  saved_vg_old : option volume_group;
  saved_vg_new : option volume_group;
  saved_vg_to_free : list volume_group
}.

Record lvmcache_vgsummary := {
  vgs_vgname : option string;
  vgs_vgid : string;
  vgs_vgstatus : Z;
  vgs_creation_host : option string;
  vgs_lock_type : option string;
  vgs_system_id : option string;
  vgs_seqno : Z;
  vgs_mda_checksum : Z;
  vgs_mda_size : Z
}.

(** ** What lvmcache.c takes from the rest of LVM *)

Class Host := {
  ID_LEN : nat;
  VG_GLOBAL : string;
  VG_ORPHANS : string;
  FMT_TEXT_ORPHAN_VG_NAME : string;
  EXPORTED_VG : Z;
  DEV_USED_FOR_LV : Z;
  SECTOR_SHIFT : Z;
  MAJOR : Z -> Z;
  MINOR : Z -> Z;
  is_global_vg : option string -> bool;
  is_orphan_vg : option string -> bool;
  critical_section : bool;
  lvmetad_used : bool;
  mdas_empty_or_ignored : list metadata_area -> bool;
  dev_get_size : ptr -> option Z;
  dm_is_dm_major : Z -> bool;
  dm_device_has_mounted_fs : Z -> Z -> bool;
  dev_subsystem_part_major : dev_types -> device -> bool;
  (* export_vg_to_buffer, create_instance, config_tree_from_string and
     import_vg_from_config_tree in a row: the reparsed copy, or failure *)
  export_import_vg : volume_group -> option volume_group
}.

(** ** The globals *)

Record cache := {
  _pvid_hash : option (gmap string ptr);
  _vgid_hash : option (gmap string ptr);
  _vgname_hash : option (gmap string ptr);
  _lock_hash : option (gmap string unit);
  _saved_vg_hash : option (gmap string saved_vg);
  _vginfos : list ptr;
  _found_duplicate_devs : list ptr;
  _unused_duplicate_devs : list ptr;
  _scanning_in_progress : bool;
  _has_scanned : bool;
  _vgs_locked : Z;
  _vg_global_lock_held : bool;
  _found_duplicate_pvs : bool;
  _suppress_lock_ordering : bool;
  (* the heap *)
  info_heap : gmap ptr lvmcache_info;
  vginfo_heap : gmap ptr lvmcache_vginfo;
  dev_heap : gmap ptr device;
  next_ptr : ptr;
  (* the counter behind dev_size_seqno_inc() *)
  dev_size_seqno : Z
}.

(** ** Field assignment *)

(** [set_f a x] is the object x after the assignment x.f = a. *)

Definition set_pvid_hash (a : option (gmap string ptr)) (s : cache) : cache :=
  {| _pvid_hash := a; _vgid_hash := _vgid_hash s; _vgname_hash := _vgname_hash s;
     _lock_hash := _lock_hash s; _saved_vg_hash := _saved_vg_hash s; _vginfos := _vginfos s;
     _found_duplicate_devs := _found_duplicate_devs s;
     _unused_duplicate_devs := _unused_duplicate_devs s;
     _scanning_in_progress := _scanning_in_progress s; _has_scanned := _has_scanned s;
     _vgs_locked := _vgs_locked s; _vg_global_lock_held := _vg_global_lock_held s;
     _found_duplicate_pvs := _found_duplicate_pvs s;
     _suppress_lock_ordering := _suppress_lock_ordering s; info_heap := info_heap s;
     vginfo_heap := vginfo_heap s; dev_heap := dev_heap s; next_ptr := next_ptr s;
     dev_size_seqno := dev_size_seqno s |}.

Definition set_vgid_hash (a : option (gmap string ptr)) (s : cache) : cache :=
  {| _pvid_hash := _pvid_hash s; _vgid_hash := a; _vgname_hash := _vgname_hash s;
     _lock_hash := _lock_hash s; _saved_vg_hash := _saved_vg_hash s; _vginfos := _vginfos s;
     _found_duplicate_devs := _found_duplicate_devs s;
     _unused_duplicate_devs := _unused_duplicate_devs s;
     _scanning_in_progress := _scanning_in_progress s; _has_scanned := _has_scanned s;
     _vgs_locked := _vgs_locked s; _vg_global_lock_held := _vg_global_lock_held s;
     _found_duplicate_pvs := _found_duplicate_pvs s;
     _suppress_lock_ordering := _suppress_lock_ordering s; info_heap := info_heap s;
     vginfo_heap := vginfo_heap s; dev_heap := dev_heap s; next_ptr := next_ptr s;
     dev_size_seqno := dev_size_seqno s |}.

Definition set_vgname_hash (a : option (gmap string ptr)) (s : cache) : cache :=
  {| _pvid_hash := _pvid_hash s; _vgid_hash := _vgid_hash s; _vgname_hash := a;
     _lock_hash := _lock_hash s; _saved_vg_hash := _saved_vg_hash s; _vginfos := _vginfos s;
     _found_duplicate_devs := _found_duplicate_devs s;
     _unused_duplicate_devs := _unused_duplicate_devs s;
     _scanning_in_progress := _scanning_in_progress s; _has_scanned := _has_scanned s;
     _vgs_locked := _vgs_locked s; _vg_global_lock_held := _vg_global_lock_held s;
     _found_duplicate_pvs := _found_duplicate_pvs s;
     _suppress_lock_ordering := _suppress_lock_ordering s; info_heap := info_heap s;
     vginfo_heap := vginfo_heap s; dev_heap := dev_heap s; next_ptr := next_ptr s;
     dev_size_seqno := dev_size_seqno s |}.

Definition set_lock_hash (a : option (gmap string unit)) (s : cache) : cache :=
  {| _pvid_hash := _pvid_hash s; _vgid_hash := _vgid_hash s; _vgname_hash := _vgname_hash s;
     _lock_hash := a; _saved_vg_hash := _saved_vg_hash s; _vginfos := _vginfos s;
     _found_duplicate_devs := _found_duplicate_devs s;
     _unused_duplicate_devs := _unused_duplicate_devs s;
     _scanning_in_progress := _scanning_in_progress s; _has_scanned := _has_scanned s;
     _vgs_locked := _vgs_locked s; _vg_global_lock_held := _vg_global_lock_held s;
     _found_duplicate_pvs := _found_duplicate_pvs s;
     _suppress_lock_ordering := _suppress_lock_ordering s; info_heap := info_heap s;
     vginfo_heap := vginfo_heap s; dev_heap := dev_heap s; next_ptr := next_ptr s;
     dev_size_seqno := dev_size_seqno s |}.

Definition set_saved_vg_hash (a : option (gmap string saved_vg)) (s : cache) : cache :=
  {| _pvid_hash := _pvid_hash s; _vgid_hash := _vgid_hash s; _vgname_hash := _vgname_hash s;
     _lock_hash := _lock_hash s; _saved_vg_hash := a; _vginfos := _vginfos s;
     _found_duplicate_devs := _found_duplicate_devs s;
     _unused_duplicate_devs := _unused_duplicate_devs s;
     _scanning_in_progress := _scanning_in_progress s; _has_scanned := _has_scanned s;
     _vgs_locked := _vgs_locked s; _vg_global_lock_held := _vg_global_lock_held s;
     _found_duplicate_pvs := _found_duplicate_pvs s;
     _suppress_lock_ordering := _suppress_lock_ordering s; info_heap := info_heap s;
     vginfo_heap := vginfo_heap s; dev_heap := dev_heap s; next_ptr := next_ptr s;
     dev_size_seqno := dev_size_seqno s |}.

Definition set_vginfos (a : list ptr) (s : cache) : cache :=
  {| _pvid_hash := _pvid_hash s; _vgid_hash := _vgid_hash s; _vgname_hash := _vgname_hash s;
     _lock_hash := _lock_hash s; _saved_vg_hash := _saved_vg_hash s; _vginfos := a;
     _found_duplicate_devs := _found_duplicate_devs s;
     _unused_duplicate_devs := _unused_duplicate_devs s;
     _scanning_in_progress := _scanning_in_progress s; _has_scanned := _has_scanned s;
     _vgs_locked := _vgs_locked s; _vg_global_lock_held := _vg_global_lock_held s;
     _found_duplicate_pvs := _found_duplicate_pvs s;
     _suppress_lock_ordering := _suppress_lock_ordering s; info_heap := info_heap s;
     vginfo_heap := vginfo_heap s; dev_heap := dev_heap s; next_ptr := next_ptr s;
     dev_size_seqno := dev_size_seqno s |}.

Definition set_found_duplicate_devs (a : list ptr) (s : cache) : cache :=
  {| _pvid_hash := _pvid_hash s; _vgid_hash := _vgid_hash s; _vgname_hash := _vgname_hash s;
     _lock_hash := _lock_hash s; _saved_vg_hash := _saved_vg_hash s; _vginfos := _vginfos s;
     _found_duplicate_devs := a; _unused_duplicate_devs := _unused_duplicate_devs s;
     _scanning_in_progress := _scanning_in_progress s; _has_scanned := _has_scanned s;
     _vgs_locked := _vgs_locked s; _vg_global_lock_held := _vg_global_lock_held s;
     _found_duplicate_pvs := _found_duplicate_pvs s;
     _suppress_lock_ordering := _suppress_lock_ordering s; info_heap := info_heap s;
     vginfo_heap := vginfo_heap s; dev_heap := dev_heap s; next_ptr := next_ptr s;
     dev_size_seqno := dev_size_seqno s |}.

Definition set_unused_duplicate_devs (a : list ptr) (s : cache) : cache :=
  {| _pvid_hash := _pvid_hash s; _vgid_hash := _vgid_hash s; _vgname_hash := _vgname_hash s;
     _lock_hash := _lock_hash s; _saved_vg_hash := _saved_vg_hash s; _vginfos := _vginfos s;
     _found_duplicate_devs := _found_duplicate_devs s; _unused_duplicate_devs := a;
     _scanning_in_progress := _scanning_in_progress s; _has_scanned := _has_scanned s;
     _vgs_locked := _vgs_locked s; _vg_global_lock_held := _vg_global_lock_held s;
     _found_duplicate_pvs := _found_duplicate_pvs s;
     _suppress_lock_ordering := _suppress_lock_ordering s; info_heap := info_heap s;
     vginfo_heap := vginfo_heap s; dev_heap := dev_heap s; next_ptr := next_ptr s;
     dev_size_seqno := dev_size_seqno s |}.

Definition set_scanning_in_progress (a : bool) (s : cache) : cache :=
  {| _pvid_hash := _pvid_hash s; _vgid_hash := _vgid_hash s; _vgname_hash := _vgname_hash s;
     _lock_hash := _lock_hash s; _saved_vg_hash := _saved_vg_hash s; _vginfos := _vginfos s;
     _found_duplicate_devs := _found_duplicate_devs s;
     _unused_duplicate_devs := _unused_duplicate_devs s; _scanning_in_progress := a;
     _has_scanned := _has_scanned s; _vgs_locked := _vgs_locked s;
     _vg_global_lock_held := _vg_global_lock_held s;
     _found_duplicate_pvs := _found_duplicate_pvs s;
     _suppress_lock_ordering := _suppress_lock_ordering s; info_heap := info_heap s;
     vginfo_heap := vginfo_heap s; dev_heap := dev_heap s; next_ptr := next_ptr s;
     dev_size_seqno := dev_size_seqno s |}.

Definition set_vgs_locked (a : Z) (s : cache) : cache :=
  {| _pvid_hash := _pvid_hash s; _vgid_hash := _vgid_hash s; _vgname_hash := _vgname_hash s;
     _lock_hash := _lock_hash s; _saved_vg_hash := _saved_vg_hash s; _vginfos := _vginfos s;
     _found_duplicate_devs := _found_duplicate_devs s;
     _unused_duplicate_devs := _unused_duplicate_devs s;
     _scanning_in_progress := _scanning_in_progress s; _has_scanned := _has_scanned s;
     _vgs_locked := a; _vg_global_lock_held := _vg_global_lock_held s;
     _found_duplicate_pvs := _found_duplicate_pvs s;
     _suppress_lock_ordering := _suppress_lock_ordering s; info_heap := info_heap s;
     vginfo_heap := vginfo_heap s; dev_heap := dev_heap s; next_ptr := next_ptr s;
     dev_size_seqno := dev_size_seqno s |}.

Definition set_found_duplicate_pvs (a : bool) (s : cache) : cache :=
  {| _pvid_hash := _pvid_hash s; _vgid_hash := _vgid_hash s; _vgname_hash := _vgname_hash s;
     _lock_hash := _lock_hash s; _saved_vg_hash := _saved_vg_hash s; _vginfos := _vginfos s;
     _found_duplicate_devs := _found_duplicate_devs s;
     _unused_duplicate_devs := _unused_duplicate_devs s;
     _scanning_in_progress := _scanning_in_progress s; _has_scanned := _has_scanned s;
     _vgs_locked := _vgs_locked s; _vg_global_lock_held := _vg_global_lock_held s;
     _found_duplicate_pvs := a; _suppress_lock_ordering := _suppress_lock_ordering s;
     info_heap := info_heap s; vginfo_heap := vginfo_heap s; dev_heap := dev_heap s;
     next_ptr := next_ptr s; dev_size_seqno := dev_size_seqno s |}.

Definition set_suppress_lock_ordering (a : bool) (s : cache) : cache :=
  {| _pvid_hash := _pvid_hash s; _vgid_hash := _vgid_hash s; _vgname_hash := _vgname_hash s;
     _lock_hash := _lock_hash s; _saved_vg_hash := _saved_vg_hash s; _vginfos := _vginfos s;
     _found_duplicate_devs := _found_duplicate_devs s;
     _unused_duplicate_devs := _unused_duplicate_devs s;
     _scanning_in_progress := _scanning_in_progress s; _has_scanned := _has_scanned s;
     _vgs_locked := _vgs_locked s; _vg_global_lock_held := _vg_global_lock_held s;
     _found_duplicate_pvs := _found_duplicate_pvs s; _suppress_lock_ordering := a;
     info_heap := info_heap s; vginfo_heap := vginfo_heap s; dev_heap := dev_heap s;
     next_ptr := next_ptr s; dev_size_seqno := dev_size_seqno s |}.

Definition set_info_heap (a : gmap ptr lvmcache_info) (s : cache) : cache :=
  {| _pvid_hash := _pvid_hash s; _vgid_hash := _vgid_hash s; _vgname_hash := _vgname_hash s;
     _lock_hash := _lock_hash s; _saved_vg_hash := _saved_vg_hash s; _vginfos := _vginfos s;
     _found_duplicate_devs := _found_duplicate_devs s;
     _unused_duplicate_devs := _unused_duplicate_devs s;
     _scanning_in_progress := _scanning_in_progress s; _has_scanned := _has_scanned s;
     _vgs_locked := _vgs_locked s; _vg_global_lock_held := _vg_global_lock_held s;
     _found_duplicate_pvs := _found_duplicate_pvs s;
     _suppress_lock_ordering := _suppress_lock_ordering s; info_heap := a;
     vginfo_heap := vginfo_heap s; dev_heap := dev_heap s; next_ptr := next_ptr s;
     dev_size_seqno := dev_size_seqno s |}.

Definition set_vginfo_heap (a : gmap ptr lvmcache_vginfo) (s : cache) : cache :=
  {| _pvid_hash := _pvid_hash s; _vgid_hash := _vgid_hash s; _vgname_hash := _vgname_hash s;
     _lock_hash := _lock_hash s; _saved_vg_hash := _saved_vg_hash s; _vginfos := _vginfos s;
     _found_duplicate_devs := _found_duplicate_devs s;
     _unused_duplicate_devs := _unused_duplicate_devs s;
     _scanning_in_progress := _scanning_in_progress s; _has_scanned := _has_scanned s;
     _vgs_locked := _vgs_locked s; _vg_global_lock_held := _vg_global_lock_held s;
     _found_duplicate_pvs := _found_duplicate_pvs s;
     _suppress_lock_ordering := _suppress_lock_ordering s; info_heap := info_heap s;
     vginfo_heap := a; dev_heap := dev_heap s; next_ptr := next_ptr s;
     dev_size_seqno := dev_size_seqno s |}.

Definition set_dev_heap (a : gmap ptr device) (s : cache) : cache :=
  {| _pvid_hash := _pvid_hash s; _vgid_hash := _vgid_hash s; _vgname_hash := _vgname_hash s;
     _lock_hash := _lock_hash s; _saved_vg_hash := _saved_vg_hash s; _vginfos := _vginfos s;
     _found_duplicate_devs := _found_duplicate_devs s;
     _unused_duplicate_devs := _unused_duplicate_devs s;
     _scanning_in_progress := _scanning_in_progress s; _has_scanned := _has_scanned s;
     _vgs_locked := _vgs_locked s; _vg_global_lock_held := _vg_global_lock_held s;
     _found_duplicate_pvs := _found_duplicate_pvs s;
     _suppress_lock_ordering := _suppress_lock_ordering s; info_heap := info_heap s;
     vginfo_heap := vginfo_heap s; dev_heap := a; next_ptr := next_ptr s;
     dev_size_seqno := dev_size_seqno s |}.

Definition set_next_ptr (a : ptr) (s : cache) : cache :=
  {| _pvid_hash := _pvid_hash s; _vgid_hash := _vgid_hash s; _vgname_hash := _vgname_hash s;
     _lock_hash := _lock_hash s; _saved_vg_hash := _saved_vg_hash s; _vginfos := _vginfos s;
     _found_duplicate_devs := _found_duplicate_devs s;
     _unused_duplicate_devs := _unused_duplicate_devs s;
     _scanning_in_progress := _scanning_in_progress s; _has_scanned := _has_scanned s;
     _vgs_locked := _vgs_locked s; _vg_global_lock_held := _vg_global_lock_held s;
     _found_duplicate_pvs := _found_duplicate_pvs s;
     _suppress_lock_ordering := _suppress_lock_ordering s; info_heap := info_heap s;
     vginfo_heap := vginfo_heap s; dev_heap := dev_heap s; next_ptr := a;
     dev_size_seqno := dev_size_seqno s |}.

Definition set_dev_size_seqno (a : Z) (s : cache) : cache :=
  {| _pvid_hash := _pvid_hash s; _vgid_hash := _vgid_hash s; _vgname_hash := _vgname_hash s;
     _lock_hash := _lock_hash s; _saved_vg_hash := _saved_vg_hash s; _vginfos := _vginfos s;
     _found_duplicate_devs := _found_duplicate_devs s;
     _unused_duplicate_devs := _unused_duplicate_devs s;
     _scanning_in_progress := _scanning_in_progress s; _has_scanned := _has_scanned s;
     _vgs_locked := _vgs_locked s; _vg_global_lock_held := _vg_global_lock_held s;
     _found_duplicate_pvs := _found_duplicate_pvs s;
     _suppress_lock_ordering := _suppress_lock_ordering s; info_heap := info_heap s;
     vginfo_heap := vginfo_heap s; dev_heap := dev_heap s; next_ptr := next_ptr s;
     dev_size_seqno := a |}.

Definition set_info_vginfo (a : option ptr) (i : lvmcache_info) : lvmcache_info :=
  {| info_mdas := info_mdas i; info_vginfo := a; info_label := info_label i;
     info_fmt := info_fmt i; info_dev := info_dev i; info_device_size := info_device_size i;
     info_ext_version := info_ext_version i; info_ext_flags := info_ext_flags i;
     info_status := info_status i |}.

Definition set_info_label (a : label) (i : lvmcache_info) : lvmcache_info :=
  {| info_mdas := info_mdas i; info_vginfo := info_vginfo i; info_label := a;
     info_fmt := info_fmt i; info_dev := info_dev i; info_device_size := info_device_size i;
     info_ext_version := info_ext_version i; info_ext_flags := info_ext_flags i;
     info_status := info_status i |}.

Definition set_info_status (a : Z) (i : lvmcache_info) : lvmcache_info :=
  {| info_mdas := info_mdas i; info_vginfo := info_vginfo i; info_label := info_label i;
     info_fmt := info_fmt i; info_dev := info_dev i; info_device_size := info_device_size i;
     info_ext_version := info_ext_version i; info_ext_flags := info_ext_flags i;
     info_status := a |}.

Definition set_vginfo_infos (a : list ptr) (v : lvmcache_vginfo) : lvmcache_vginfo :=
  {| vginfo_infos := a; vginfo_fmt := vginfo_fmt v; vginfo_vgname := vginfo_vgname v;
     vginfo_status := vginfo_status v; vginfo_vgid := vginfo_vgid v;
     vginfo_next := vginfo_next v; vginfo_creation_host := vginfo_creation_host v;
     vginfo_system_id := vginfo_system_id v; vginfo_lock_type := vginfo_lock_type v;
     vginfo_mda_checksum := vginfo_mda_checksum v; vginfo_mda_size := vginfo_mda_size v;
     vginfo_seqno := vginfo_seqno v;
     vginfo_independent_metadata_location := vginfo_independent_metadata_location v;
     vginfo_scan_summary_mismatch := vginfo_scan_summary_mismatch v |}.

Definition set_vginfo_fmt (a : option format_type) (v : lvmcache_vginfo) : lvmcache_vginfo :=
  {| vginfo_infos := vginfo_infos v; vginfo_fmt := a; vginfo_vgname := vginfo_vgname v;
     vginfo_status := vginfo_status v; vginfo_vgid := vginfo_vgid v;
     vginfo_next := vginfo_next v; vginfo_creation_host := vginfo_creation_host v;
     vginfo_system_id := vginfo_system_id v; vginfo_lock_type := vginfo_lock_type v;
     vginfo_mda_checksum := vginfo_mda_checksum v; vginfo_mda_size := vginfo_mda_size v;
     vginfo_seqno := vginfo_seqno v;
     vginfo_independent_metadata_location := vginfo_independent_metadata_location v;
     vginfo_scan_summary_mismatch := vginfo_scan_summary_mismatch v |}.

Definition set_vginfo_status (a : Z) (v : lvmcache_vginfo) : lvmcache_vginfo :=
  {| vginfo_infos := vginfo_infos v; vginfo_fmt := vginfo_fmt v;
     vginfo_vgname := vginfo_vgname v; vginfo_status := a; vginfo_vgid := vginfo_vgid v;
     vginfo_next := vginfo_next v; vginfo_creation_host := vginfo_creation_host v;
     vginfo_system_id := vginfo_system_id v; vginfo_lock_type := vginfo_lock_type v;
     vginfo_mda_checksum := vginfo_mda_checksum v; vginfo_mda_size := vginfo_mda_size v;
     vginfo_seqno := vginfo_seqno v;
     vginfo_independent_metadata_location := vginfo_independent_metadata_location v;
     vginfo_scan_summary_mismatch := vginfo_scan_summary_mismatch v |}.

Definition set_vginfo_vgid (a : string) (v : lvmcache_vginfo) : lvmcache_vginfo :=
  {| vginfo_infos := vginfo_infos v; vginfo_fmt := vginfo_fmt v;
     vginfo_vgname := vginfo_vgname v; vginfo_status := vginfo_status v; vginfo_vgid := a;
     vginfo_next := vginfo_next v; vginfo_creation_host := vginfo_creation_host v;
     vginfo_system_id := vginfo_system_id v; vginfo_lock_type := vginfo_lock_type v;
     vginfo_mda_checksum := vginfo_mda_checksum v; vginfo_mda_size := vginfo_mda_size v;
     vginfo_seqno := vginfo_seqno v;
     vginfo_independent_metadata_location := vginfo_independent_metadata_location v;
     vginfo_scan_summary_mismatch := vginfo_scan_summary_mismatch v |}.

Definition set_vginfo_next (a : option ptr) (v : lvmcache_vginfo) : lvmcache_vginfo :=
  {| vginfo_infos := vginfo_infos v; vginfo_fmt := vginfo_fmt v;
     vginfo_vgname := vginfo_vgname v; vginfo_status := vginfo_status v;
     vginfo_vgid := vginfo_vgid v; vginfo_next := a;
     vginfo_creation_host := vginfo_creation_host v; vginfo_system_id := vginfo_system_id v;
     vginfo_lock_type := vginfo_lock_type v; vginfo_mda_checksum := vginfo_mda_checksum v;
     vginfo_mda_size := vginfo_mda_size v; vginfo_seqno := vginfo_seqno v;
     vginfo_independent_metadata_location := vginfo_independent_metadata_location v;
     vginfo_scan_summary_mismatch := vginfo_scan_summary_mismatch v |}.

Definition set_vginfo_creation_host (a : option string) (v : lvmcache_vginfo) : lvmcache_vginfo :=
  {| vginfo_infos := vginfo_infos v; vginfo_fmt := vginfo_fmt v;
     vginfo_vgname := vginfo_vgname v; vginfo_status := vginfo_status v;
     vginfo_vgid := vginfo_vgid v; vginfo_next := vginfo_next v; vginfo_creation_host := a;
     vginfo_system_id := vginfo_system_id v; vginfo_lock_type := vginfo_lock_type v;
     vginfo_mda_checksum := vginfo_mda_checksum v; vginfo_mda_size := vginfo_mda_size v;
     vginfo_seqno := vginfo_seqno v;
     vginfo_independent_metadata_location := vginfo_independent_metadata_location v;
     vginfo_scan_summary_mismatch := vginfo_scan_summary_mismatch v |}.

Definition set_vginfo_system_id (a : option string) (v : lvmcache_vginfo) : lvmcache_vginfo :=
  {| vginfo_infos := vginfo_infos v; vginfo_fmt := vginfo_fmt v;
     vginfo_vgname := vginfo_vgname v; vginfo_status := vginfo_status v;
     vginfo_vgid := vginfo_vgid v; vginfo_next := vginfo_next v;
     vginfo_creation_host := vginfo_creation_host v; vginfo_system_id := a;
     vginfo_lock_type := vginfo_lock_type v; vginfo_mda_checksum := vginfo_mda_checksum v;
     vginfo_mda_size := vginfo_mda_size v; vginfo_seqno := vginfo_seqno v;
     vginfo_independent_metadata_location := vginfo_independent_metadata_location v;
     vginfo_scan_summary_mismatch := vginfo_scan_summary_mismatch v |}.

Definition set_vginfo_lock_type (a : option string) (v : lvmcache_vginfo) : lvmcache_vginfo :=
  {| vginfo_infos := vginfo_infos v; vginfo_fmt := vginfo_fmt v;
     vginfo_vgname := vginfo_vgname v; vginfo_status := vginfo_status v;
     vginfo_vgid := vginfo_vgid v; vginfo_next := vginfo_next v;
     vginfo_creation_host := vginfo_creation_host v; vginfo_system_id := vginfo_system_id v;
     vginfo_lock_type := a; vginfo_mda_checksum := vginfo_mda_checksum v;
     vginfo_mda_size := vginfo_mda_size v; vginfo_seqno := vginfo_seqno v;
     vginfo_independent_metadata_location := vginfo_independent_metadata_location v;
     vginfo_scan_summary_mismatch := vginfo_scan_summary_mismatch v |}.

Definition set_vginfo_mda_checksum (a : Z) (v : lvmcache_vginfo) : lvmcache_vginfo :=
  {| vginfo_infos := vginfo_infos v; vginfo_fmt := vginfo_fmt v;
     vginfo_vgname := vginfo_vgname v; vginfo_status := vginfo_status v;
     vginfo_vgid := vginfo_vgid v; vginfo_next := vginfo_next v;
     vginfo_creation_host := vginfo_creation_host v; vginfo_system_id := vginfo_system_id v;
     vginfo_lock_type := vginfo_lock_type v; vginfo_mda_checksum := a;
     vginfo_mda_size := vginfo_mda_size v; vginfo_seqno := vginfo_seqno v;
     vginfo_independent_metadata_location := vginfo_independent_metadata_location v;
     vginfo_scan_summary_mismatch := vginfo_scan_summary_mismatch v |}.

Definition set_vginfo_mda_size (a : Z) (v : lvmcache_vginfo) : lvmcache_vginfo :=
  {| vginfo_infos := vginfo_infos v; vginfo_fmt := vginfo_fmt v;
     vginfo_vgname := vginfo_vgname v; vginfo_status := vginfo_status v;
     vginfo_vgid := vginfo_vgid v; vginfo_next := vginfo_next v;
     vginfo_creation_host := vginfo_creation_host v; vginfo_system_id := vginfo_system_id v;
     vginfo_lock_type := vginfo_lock_type v; vginfo_mda_checksum := vginfo_mda_checksum v;
     vginfo_mda_size := a; vginfo_seqno := vginfo_seqno v;
     vginfo_independent_metadata_location := vginfo_independent_metadata_location v;
     vginfo_scan_summary_mismatch := vginfo_scan_summary_mismatch v |}.

Definition set_vginfo_seqno (a : Z) (v : lvmcache_vginfo) : lvmcache_vginfo :=
  {| vginfo_infos := vginfo_infos v; vginfo_fmt := vginfo_fmt v;
     vginfo_vgname := vginfo_vgname v; vginfo_status := vginfo_status v;
     vginfo_vgid := vginfo_vgid v; vginfo_next := vginfo_next v;
     vginfo_creation_host := vginfo_creation_host v; vginfo_system_id := vginfo_system_id v;
     vginfo_lock_type := vginfo_lock_type v; vginfo_mda_checksum := vginfo_mda_checksum v;
     vginfo_mda_size := vginfo_mda_size v; vginfo_seqno := a;
     vginfo_independent_metadata_location := vginfo_independent_metadata_location v;
     vginfo_scan_summary_mismatch := vginfo_scan_summary_mismatch v |}.

Definition set_vginfo_scan_summary_mismatch (a : bool) (v : lvmcache_vginfo) : lvmcache_vginfo :=
  {| vginfo_infos := vginfo_infos v; vginfo_fmt := vginfo_fmt v;
     vginfo_vgname := vginfo_vgname v; vginfo_status := vginfo_status v;
     vginfo_vgid := vginfo_vgid v; vginfo_next := vginfo_next v;
     vginfo_creation_host := vginfo_creation_host v; vginfo_system_id := vginfo_system_id v;
     vginfo_lock_type := vginfo_lock_type v; vginfo_mda_checksum := vginfo_mda_checksum v;
     vginfo_mda_size := vginfo_mda_size v; vginfo_seqno := vginfo_seqno v;
     vginfo_independent_metadata_location := vginfo_independent_metadata_location v;
     vginfo_scan_summary_mismatch := a |}.

Definition set_dev_pvid (a : string) (d : device) : device :=
  {| dev_dev := dev_dev d; dev_pvid := a; dev_flags := dev_flags d |}.

Definition set_saved_vg_committed (a : bool) (g : saved_vg) : saved_vg :=
  {| svg_vgid := svg_vgid g; saved_vg_committed := a; saved_vg_old := saved_vg_old g;
     saved_vg_new := saved_vg_new g; saved_vg_to_free := saved_vg_to_free g |}.

Definition set_saved_vg_old (a : option volume_group) (g : saved_vg) : saved_vg :=
  {| svg_vgid := svg_vgid g; saved_vg_committed := saved_vg_committed g; saved_vg_old := a;
     saved_vg_new := saved_vg_new g; saved_vg_to_free := saved_vg_to_free g |}.

Definition set_saved_vg_new (a : option volume_group) (g : saved_vg) : saved_vg :=
  {| svg_vgid := svg_vgid g; saved_vg_committed := saved_vg_committed g;
     saved_vg_old := saved_vg_old g; saved_vg_new := a;
     saved_vg_to_free := saved_vg_to_free g |}.

Definition set_saved_vg_to_free (a : list volume_group) (g : saved_vg) : saved_vg :=
  {| svg_vgid := svg_vgid g; saved_vg_committed := saved_vg_committed g;
     saved_vg_old := saved_vg_old g; saved_vg_new := saved_vg_new g;
     saved_vg_to_free := a |}.

Definition set_vg_saved_in_clvmd (a : bool) (g : volume_group) : volume_group :=
  {| vg_addr := vg_addr g; vg_name := vg_name g; vg_id := vg_id g; vg_seqno := vg_seqno g;
     vg_saved_in_clvmd := a |}.

Definition set_has_scanned (a : bool) (s : cache) : cache :=
  {| _pvid_hash := _pvid_hash s; _vgid_hash := _vgid_hash s; _vgname_hash := _vgname_hash s;
     _lock_hash := _lock_hash s; _saved_vg_hash := _saved_vg_hash s; _vginfos := _vginfos s;
     _found_duplicate_devs := _found_duplicate_devs s;
     _unused_duplicate_devs := _unused_duplicate_devs s;
     _scanning_in_progress := _scanning_in_progress s; _has_scanned := a;
     _vgs_locked := _vgs_locked s; _vg_global_lock_held := _vg_global_lock_held s;
     _found_duplicate_pvs := _found_duplicate_pvs s;
     _suppress_lock_ordering := _suppress_lock_ordering s; info_heap := info_heap s;
     vginfo_heap := vginfo_heap s; dev_heap := dev_heap s; next_ptr := next_ptr s;
     dev_size_seqno := dev_size_seqno s |}.

Definition set_vg_global_lock_held (a : bool) (s : cache) : cache :=
  {| _pvid_hash := _pvid_hash s; _vgid_hash := _vgid_hash s; _vgname_hash := _vgname_hash s;
     _lock_hash := _lock_hash s; _saved_vg_hash := _saved_vg_hash s; _vginfos := _vginfos s;
     _found_duplicate_devs := _found_duplicate_devs s;
     _unused_duplicate_devs := _unused_duplicate_devs s;
     _scanning_in_progress := _scanning_in_progress s; _has_scanned := _has_scanned s;
     _vgs_locked := _vgs_locked s; _vg_global_lock_held := a;
     _found_duplicate_pvs := _found_duplicate_pvs s;
     _suppress_lock_ordering := _suppress_lock_ordering s; info_heap := info_heap s;
     vginfo_heap := vginfo_heap s; dev_heap := dev_heap s; next_ptr := next_ptr s;
     dev_size_seqno := dev_size_seqno s |}.

Definition set_info_fmt (a : format_type) (i : lvmcache_info) : lvmcache_info :=
  {| info_mdas := info_mdas i; info_vginfo := info_vginfo i; info_label := info_label i;
     info_fmt := a; info_dev := info_dev i; info_device_size := info_device_size i;
     info_ext_version := info_ext_version i; info_ext_flags := info_ext_flags i;
     info_status := info_status i |}.

Definition set_info_device_size (a : Z) (i : lvmcache_info) : lvmcache_info :=
  {| info_mdas := info_mdas i; info_vginfo := info_vginfo i; info_label := info_label i;
     info_fmt := info_fmt i; info_dev := info_dev i; info_device_size := a;
     info_ext_version := info_ext_version i; info_ext_flags := info_ext_flags i;
     info_status := info_status i |}.

Definition set_info_ext_version (a : Z) (i : lvmcache_info) : lvmcache_info :=
  {| info_mdas := info_mdas i; info_vginfo := info_vginfo i; info_label := info_label i;
     info_fmt := info_fmt i; info_dev := info_dev i; info_device_size := info_device_size i;
     info_ext_version := a; info_ext_flags := info_ext_flags i;
     info_status := info_status i |}.

Definition set_info_ext_flags (a : Z) (i : lvmcache_info) : lvmcache_info :=
  {| info_mdas := info_mdas i; info_vginfo := info_vginfo i; info_label := info_label i;
     info_fmt := info_fmt i; info_dev := info_dev i; info_device_size := info_device_size i;
     info_ext_version := info_ext_version i; info_ext_flags := a;
     info_status := info_status i |}.

Definition set_vginfo_independent_metadata_location (a : bool) (v : lvmcache_vginfo) : lvmcache_vginfo :=
  {| vginfo_infos := vginfo_infos v; vginfo_fmt := vginfo_fmt v;
     vginfo_vgname := vginfo_vgname v; vginfo_status := vginfo_status v;
     vginfo_vgid := vginfo_vgid v; vginfo_next := vginfo_next v;
     vginfo_creation_host := vginfo_creation_host v; vginfo_system_id := vginfo_system_id v;
     vginfo_lock_type := vginfo_lock_type v; vginfo_mda_checksum := vginfo_mda_checksum v;
     vginfo_mda_size := vginfo_mda_size v; vginfo_seqno := vginfo_seqno v;
     vginfo_independent_metadata_location := a;
     vginfo_scan_summary_mismatch := vginfo_scan_summary_mismatch v |}.

(** ** The monad of the cache *)

Definition M (A : Type) : Type := cache -> option (A * cache).

Definition ret {A} (a : A) : M A := fun s => Some (a, s).

Definition bind {A B} (m : M A) (k : A -> M B) : M B := fun s =>
  match m s with
  | Some (a, s') => k a s'
  | None => None
  end.

Declare Scope M_scope.
Delimit Scope M_scope with M.
Bind Scope M_scope with M.
Notation "x <- y ; z" := (bind y (fun x => z))
  (at level 20, y at level 100, z at level 200, only parsing) : M_scope.
Notation "x ;; z" := (bind x (fun _ => z))
  (at level 100, z at level 200, only parsing, right associativity) : M_scope.
Local Open Scope M_scope.

(** Undefined behaviour in C. *)
Definition undefined {A} : M A := fun _ => None.

Definition gets {A} (f : cache -> A) : M A := fun s => Some (f s, s).

Definition modify (f : cache -> cache) : M unit := fun s => Some (tt, f s).

(** Following a pointer that may be NULL. *)
Definition deref {A} (o : option A) : M A :=
  match o with
  | Some a => ret a
  | None => undefined
  end.

(** dm_list_iterate_items *)
Fixpoint dm_list_iterate_items {A} (l : list A) (body : A -> M unit) : M unit :=
  match l with
  | [] => ret tt
  | x :: l' => body x ;; dm_list_iterate_items l' body
  end.

(** *** Hash tables

    A table is named by the global that holds it; NULL tables make every
    dm_hash call undefined. *)

Record table (V : Type) := {
  tbl_get : cache -> option (gmap string V);
  tbl_set : option (gmap string V) -> cache -> cache
}.
Arguments tbl_get {V} _ _.
Arguments tbl_set {V} _ _ _.

Definition PVID_HASH : table ptr := {| tbl_get := _pvid_hash; tbl_set := set_pvid_hash |}.
Definition VGID_HASH : table ptr := {| tbl_get := _vgid_hash; tbl_set := set_vgid_hash |}.
Definition VGNAME_HASH : table ptr :=
  {| tbl_get := _vgname_hash; tbl_set := set_vgname_hash |}.
Definition LOCK_HASH : table unit := {| tbl_get := _lock_hash; tbl_set := set_lock_hash |}.
Definition SAVED_VG_HASH : table saved_vg :=
  {| tbl_get := _saved_vg_hash; tbl_set := set_saved_vg_hash |}.

Definition dm_hash_lookup {V} (t : table V) (key : string) : M (option V) :=
  h <- gets (tbl_get t);
  tbl <- deref h;
  ret (tbl !! key).

Definition dm_hash_insert {V} (t : table V) (key : string) (data : V) : M unit :=
  h <- gets (tbl_get t);
  tbl <- deref h;
  modify (tbl_set t (Some (<[key := data]> tbl))).

Definition dm_hash_remove {V} (t : table V) (key : string) : M unit :=
  h <- gets (tbl_get t);
  tbl <- deref h;
  modify (tbl_set t (Some (delete key tbl))).

(** *** The heap *)

Definition read_info (p : ptr) : M lvmcache_info :=
  h <- gets info_heap; deref (h !! p).

Definition update_info (p : ptr) (f : lvmcache_info -> lvmcache_info) : M unit :=
  i <- read_info p;
  modify (fun s => set_info_heap (<[p := f i]> (info_heap s)) s).

Definition read_vginfo (p : ptr) : M lvmcache_vginfo :=
  h <- gets vginfo_heap; deref (h !! p).

Definition update_vginfo (p : ptr) (f : lvmcache_vginfo -> lvmcache_vginfo) : M unit :=
  v <- read_vginfo p;
  modify (fun s => set_vginfo_heap (<[p := f v]> (vginfo_heap s)) s).

Definition read_dev (p : ptr) : M device :=
  h <- gets dev_heap; deref (h !! p).

Definition update_dev (p : ptr) (f : device -> device) : M unit :=
  d <- read_dev p;
  modify (fun s => set_dev_heap (<[p := f d]> (dev_heap s)) s).

(** dm_zalloc of an info or a vginfo: a fresh address. *)
Definition alloc_info (i : lvmcache_info) : M ptr :=
  p <- gets next_ptr;
  modify (fun s => set_next_ptr (S p) (set_info_heap (<[p := i]> (info_heap s)) s));;
  ret p.

Definition alloc_vginfo (v : lvmcache_vginfo) : M ptr :=
  p <- gets next_ptr;
  modify (fun s => set_next_ptr (S p) (set_vginfo_heap (<[p := v]> (vginfo_heap s)) s));;
  ret p.

(** dm_free *)
Definition free_info (p : ptr) : M unit :=
  read_info p;;
  modify (fun s => set_info_heap (delete p (info_heap s)) s).

Definition free_vginfo (p : ptr) : M unit :=
  read_vginfo p;;
  modify (fun s => set_vginfo_heap (delete p (vginfo_heap s)) s).

Section Lvmcache.
Context `{Host}.

(** ** Lookups *)

Definition lvmcache_vginfo_from_vgid (vgid : option string) : M (option ptr) :=
  h <- gets _vgid_hash;
  match h, vgid with
  | Some tbl, Some vgid =>
      (* vgid not necessarily NULL-terminated *)
      let id := dm_strncpy vgid (ID_LEN + 1) in
      ret (tbl !! id)
  | _, _ => ret None
  end.

(** The do ... while ((vginfo = vginfo->next)) of
    lvmcache_vginfo_from_vgname.  [fuel] bounds the walk: a chain of live
    vginfos that is longer than the heap is cyclic, and the C loop does not
    return on it. *)
Fixpoint vginfo_from_vgname_loop (fuel : nat) (vgid : string) (vginfo : ptr)
  : M (option ptr) :=
  match fuel with
  | O => undefined
  | S fuel' =>
      v <- read_vginfo vginfo;
      if decide (strncmp vgid (vginfo_vgid v) ID_LEN = 0) then ret (Some vginfo)
      else match vginfo_next v with
           | Some next => vginfo_from_vgname_loop fuel' vgid next
           | None => ret None
           end
  end.

(** If vgid supplied, require a match. *)
Definition lvmcache_vginfo_from_vgname (vgname vgid : option string) : M (option ptr) :=
  match vgname with
  | None => lvmcache_vginfo_from_vgid vgid
  | Some vgname =>
      h <- gets _vgname_hash;
      match h with
      | None => ret None
      | Some tbl =>
          match tbl !! vgname with
          | None => ret None
          | Some vginfo =>
              match vgid with
              | Some vgid =>
                  heap <- gets vginfo_heap;
                  vginfo_from_vgname_loop (size heap) vgid vginfo
              | None => ret (Some vginfo)
              end
          end
      end
  end.

(** ** Lock state in the cache entries *)

Definition _update_cache_info_lock_state (info : ptr) (locked : bool) : M unit :=
  update_info info (fun i =>
    if locked then set_info_status (Z.lor (info_status i) CACHE_LOCKED) i
    else set_info_status (Z.land (info_status i) (Z.lnot CACHE_LOCKED)) i).

Definition _update_cache_vginfo_lock_state (vginfo : ptr) (locked : bool) : M unit :=
  v <- read_vginfo vginfo;
  dm_list_iterate_items (vginfo_infos v)
    (fun info => _update_cache_info_lock_state info locked).

Definition _update_cache_lock_state (vgname : string) (locked : bool) : M unit :=
  vginfo <- lvmcache_vginfo_from_vgname (Some vgname) None;
  match vginfo with
  | None => ret tt
  | Some vginfo => _update_cache_vginfo_lock_state vginfo locked
  end.

(** ** Lock registry *)

(** Ensure vgname2 comes after vgname1 alphabetically.
    Orphan locks come last.  VG_GLOBAL comes first. *)
Definition _vgname_order_correct (vgname1 vgname2 : string) : bool :=
  if is_global_vg (Some vgname1) then true
  else if is_global_vg (Some vgname2) then false
  else if is_orphan_vg (Some vgname1) then false
  else if is_orphan_vg (Some vgname2) then true
  else if decide (strcmp vgname1 vgname2 < 0) then true
  else false.

Definition lvmcache_lock_ordering (enable : bool) : M unit :=
  modify (set_suppress_lock_ordering (negb enable)).

(** Ensure VG locks are acquired in alphabetical order.  The loop leaves
    with 0 at the first key that is out of order, so the result is whether
    all keys are in order; the data stored under a key is always (void * ) 1,
    hence never NULL. *)
Definition lvmcache_verify_lock_order (vgname : string) : M bool :=
  suppress <- gets _suppress_lock_ordering;
  if suppress then ret true
  else
    h <- gets _lock_hash;
    match h with
    | None => ret true
    | Some tbl =>
        ret (forallb (fun vgname2 => _vgname_order_correct vgname2 vgname)
                (map_to_list tbl).*1)
    end.

Definition lvmcache_lock_vgname (vgname : string) : M unit :=
  dm_hash_lookup LOCK_HASH vgname;;   (* nested locking is only logged *)
  dm_hash_insert LOCK_HASH vgname tt;;
  if decide (strcmp vgname VG_GLOBAL ≠ 0) then
    _update_cache_lock_state vgname true;;
    modify (fun s => set_vgs_locked (_vgs_locked s + 1) s)
  else ret tt.

Definition lvmcache_vgname_is_locked (vgname : string) : M bool :=
  h <- gets _lock_hash;
  match h with
  | None => ret false
  | Some tbl =>
      ret (bool_decide (is_Some
              (tbl !! (if is_orphan_vg (Some vgname) then VG_ORPHANS else vgname))))
  end.

Definition dev_size_seqno_inc : M unit :=
  modify (fun s => set_dev_size_seqno (dev_size_seqno s + 1) s).

Definition lvmcache_unlock_vgname (vgname : string) : M unit :=
  dm_hash_lookup LOCK_HASH vgname;;   (* unlocking an unlocked VG is only logged *)
  (if decide (strcmp vgname VG_GLOBAL ≠ 0) then _update_cache_lock_state vgname false
   else ret tt);;
  dm_hash_remove LOCK_HASH vgname;;
  (* FIXME Do this per-VG *)
  if decide (strcmp vgname VG_GLOBAL ≠ 0) then
    modify (fun s => set_vgs_locked (_vgs_locked s - 1) s);;
    n <- gets _vgs_locked;
    if decide (n = 0) then dev_size_seqno_inc   (* invalidate all cached dev sizes *)
    else ret tt
  else ret tt.

Definition lvmcache_vgs_locked : M Z := gets _vgs_locked.

(** ** Saved VGs (clvmd only)

    A struct saved_vg is reachable only through _saved_vg_hash, where it
    sits under its own vgid: that key serves as its address. *)

Definition read_svg (svg : string) : M saved_vg :=
  g <- dm_hash_lookup SAVED_VG_HASH svg; deref g.

Definition update_svg (svg : string) (f : saved_vg -> saved_vg) : M unit :=
  g <- read_svg svg;
  dm_hash_insert SAVED_VG_HASH svg (f g).

Definition _saved_vg_from_vgid (vgid : string) : M (option string) :=
  (* vgid not necessarily NULL-terminated *)
  let id := dm_strncpy vgid (ID_LEN + 1) in
  g <- dm_hash_lookup SAVED_VG_HASH id;
  match g with
  | None => ret None
  | Some _ => ret (Some id)
  end.

Definition _saved_vg_inval (svg : string) (inval_old inval_new : bool) : M unit :=
  g <- read_svg svg;
  (match inval_old, saved_vg_old g with
   | true, Some vg =>
       update_svg svg (fun g =>
         set_saved_vg_old None (set_saved_vg_to_free (saved_vg_to_free g ++ [vg]) g))
   | _, _ => ret tt
   end);;
  g <- read_svg svg;
  match inval_new, saved_vg_new g with
  | true, Some vg =>
      update_svg svg (fun g =>
        set_saved_vg_new None (set_saved_vg_to_free (saved_vg_to_free g ++ [vg]) g))
  | _, _ => ret tt
  end.

(** release_vg hands the objects back to their pools; what the buffer
    keeps of it is that the slots and the to-free list are emptied. *)
Definition _saved_vg_free (svg : string) (free_old free_new : bool) : M unit :=
  (if free_old then
     update_svg svg (fun g => set_saved_vg_old None (set_saved_vg_to_free [] g))
   else ret tt);;
  if free_new then update_svg svg (set_saved_vg_new None)
  else ret tt.

Definition _drop_metadata (vgname : string) (drop_precommitted : bool) : M unit :=
  vginfo <- lvmcache_vginfo_from_vgname (Some vgname) None;
  match vginfo with
  | None => ret tt
  | Some vginfo =>
      v <- read_vginfo vginfo;
      svg <- _saved_vg_from_vgid (vginfo_vgid v);
      match svg with
      | None => ret tt
      | Some svg =>
          if drop_precommitted then _saved_vg_free svg false true
          else _saved_vg_free svg true true
      end
  end.

Definition lvmcache_save_vg (vg : volume_group) (precommitted : bool) : M unit :=
  let new := precommitted in
  let old := negb precommitted in
  svg <- _saved_vg_from_vgid (vg_id vg);
  let store (svg : string) : M unit :=
    match export_import_vg vg with
    | None => _saved_vg_inval svg old new                      (* bad: *)
    | Some save_vg =>
        let save_vg := set_vg_saved_in_clvmd true save_vg in
        if old then update_svg svg (set_saved_vg_old (Some save_vg))
        else update_svg svg (set_saved_vg_new (Some save_vg))
    end in
  match svg with
  | None =>
      (* Nothing is saved yet for this vg *)
      let id := dm_strncpy (vg_id vg) (ID_LEN + 1) in
      dm_hash_insert SAVED_VG_HASH id
        {| svg_vgid := id; saved_vg_committed := false; saved_vg_old := None;
           saved_vg_new := None; saved_vg_to_free := [] |};;
      store id
  | Some svg =>
      g <- read_svg svg;
      (* Nothing to do if we've already saved this seqno *)
      if old && bool_decide (vg_seqno <$> saved_vg_old g = Some (vg_seqno vg)) then ret tt
      else if new && bool_decide (vg_seqno <$> saved_vg_new g = Some (vg_seqno vg))
      then ret tt
      else
        (* Invalidate the existing saved_vg that will be replaced *)
        _saved_vg_inval svg old new;;
        store svg
  end.

Definition lvmcache_get_saved_vg (vgid : string) (precommitted : bool)
  : M (option volume_group) :=
  let new := precommitted in
  let old := negb precommitted in
  svg <- _saved_vg_from_vgid vgid;
  match svg with
  | None => ret None
  | Some svg =>
      g <- read_svg svg;
      (* Once new is returned, then also return new if old is requested,
         i.e. new becomes both old and new once it's used. *)
      let vg := if new then saved_vg_new g
                else if old then saved_vg_old g
                else None in
      (match vg, saved_vg_old g with
       | Some vg, Some vg_old =>
           if new && bool_decide (vg_seqno vg_old < vg_seqno vg)
           then _saved_vg_inval svg true false
           else ret tt
       | _, _ => ret tt
       end);;
      ret vg
  end.

Definition lvmcache_get_saved_vg_latest (vgid : string) : M (option volume_group) :=
  svg <- _saved_vg_from_vgid vgid;
  match svg with
  | None => ret None
  | Some svg =>
      g <- read_svg svg;
      let new := saved_vg_committed g in
      let vg := if saved_vg_committed g then saved_vg_new g else saved_vg_old g in
      (match vg, saved_vg_old g with
       | Some vg, Some vg_old =>
           if new && bool_decide (vg_seqno vg_old < vg_seqno vg)
           then _saved_vg_inval svg true false
           else ret tt
       | _, _ => ret tt
       end);;
      ret vg
  end.

Definition lvmcache_drop_saved_vgid (vgid : string) : M unit :=
  svg <- _saved_vg_from_vgid vgid;
  match svg with
  | Some svg => _saved_vg_inval svg true true
  | None => ret tt
  end.

(** Remote node uses this to upgrade precommitted metadata to commited state
    when receives vg_commit notification. *)
Definition lvmcache_commit_metadata (vgname : string) : M unit :=
  vginfo <- lvmcache_vginfo_from_vgname (Some vgname) None;
  match vginfo with
  | None => ret tt
  | Some vginfo =>
      v <- read_vginfo vginfo;
      svg <- _saved_vg_from_vgid (vginfo_vgid v);
      match svg with
      | Some svg => update_svg svg (set_saved_vg_committed true)
      | None => ret tt
      end
  end.

Definition lvmcache_drop_metadata (vgname : string) (drop_precommitted : bool) : M unit :=
  h <- gets _saved_vg_hash;
  match h with
  | None => ret tt
  | Some _ =>
      locked <- lvmcache_vgname_is_locked VG_GLOBAL;
      if locked then ret tt
      else
        (* For VG_ORPHANS, we need to invalidate all labels on orphan PVs. *)
        if decide (strcmp vgname VG_ORPHANS = 0)
        then _drop_metadata FMT_TEXT_ORPHAN_VG_NAME false
        else _drop_metadata vgname drop_precommitted
  end.

(** ** Duplicate devices

    A struct device_list entry carries one device pointer; a list of
    entries is the list of those pointers, in list order.  One device may
    sit on a list more than once. *)

Definition lvmcache_found_duplicate_pvs : M bool := gets _found_duplicate_pvs.

Fixpoint _dev_in_device_list (dev : ptr) (head : list ptr) : bool :=
  match head with
  | [] => false
  | devl :: rest => if decide (devl = dev) then true else _dev_in_device_list dev rest
  end.

Definition lvmcache_dev_is_unchosen_duplicate (dev : ptr) : M bool :=
  l <- gets _unused_duplicate_devs; ret (_dev_in_device_list dev l).

(** The loop of lvmcache_remove_unchosen_duplicate: the first entry for dev
    leaves the list and the loop returns. *)
Fixpoint remove_unchosen (dev : ptr) (l : list ptr) : list ptr :=
  match l with
  | [] => []
  | devl :: rest => if decide (devl = dev) then rest else devl :: remove_unchosen dev rest
  end.

Definition lvmcache_remove_unchosen_duplicate (dev : ptr) : M unit :=
  modify (fun s => set_unused_duplicate_devs (remove_unchosen dev (_unused_duplicate_devs s)) s).

(** The head is one of the two global lists, named by its setter. *)
Definition _destroy_duplicate_device_list (head : list ptr -> cache -> cache) : M unit :=
  modify (head []).

(** valid_only is not looked at by the C function and is left out. *)
Definition lvmcache_info_from_pvid (pvid : option string) (dev : option ptr)
  : M (option ptr) :=
  h <- gets _pvid_hash;
  match h, pvid with
  | Some tbl, Some pvid =>
      let id := dm_strncpy pvid (ID_LEN + 1) in
      match tbl !! id with
      | None => ret None
      | Some info =>
          (* When handling duplicate PVs, more than one device can have
             this pvid. *)
          match dev with
          | None => ret (Some info)
          | Some dev =>
              i <- read_info info;
              if decide (info_dev i ≠ dev) then ret None else ret (Some info)
          end
      end
  | _, _ => ret None
  end.

Fixpoint pvid_in_device_list (pvid : string) (head : list ptr) : M bool :=
  match head with
  | [] => ret false
  | devl :: rest =>
      d <- read_dev devl;
      if decide (strncmp (dev_pvid d) pvid ID_LEN = 0) then ret true
      else pvid_in_device_list pvid rest
  end.

Definition lvmcache_pvid_in_unchosen_duplicates (pvid : string) : M bool :=
  l <- gets _unused_duplicate_devs; pvid_in_device_list pvid l.

(** ** Membership of an info in a vginfo

    The node info->list is linked into the infos list of info->vginfo and
    into no other list: _vginfo_attach_info and _vginfo_detach_info are the
    only writers of either, and _create_info leaves the node initialised and
    the pointer NULL.  So the node is not a field of its own here: it is
    linked iff info->vginfo is set, and unlinking it takes the info out of
    that vginfo's [vginfo_infos]. *)

Definition _vginfo_attach_info (vginfo : option ptr) (info : ptr) : M unit :=
  match vginfo with
  | None => ret tt
  | Some vginfo =>
      update_info info (set_info_vginfo (Some vginfo));;
      update_vginfo vginfo (fun v => set_vginfo_infos (vginfo_infos v ++ [info]) v)
  end.

Definition _vginfo_detach_info (info : ptr) : M unit :=
  i <- read_info info;
  (match info_vginfo i with
   | Some vginfo =>
       update_vginfo vginfo
         (fun v => set_vginfo_infos (filter (fun x => x ≠ info) (vginfo_infos v)) v)
   | None => ret tt
   end);;
  update_info info (set_info_vginfo None).

Definition lvmcache_vgname_from_vgid (vgid : option string) : M (option string) :=
  vginfo <- lvmcache_vginfo_from_vgid vgid;
  match vginfo with
  | Some vginfo => v <- read_vginfo vginfo; ret (Some (vginfo_vgname v))
  | None => ret None
  end.

Definition lvmcache_vgid_from_vgname (vgname : string) : M (option string) :=
  vginfo <- dm_hash_lookup VGNAME_HASH vgname;
  match vginfo with
  | None => ret None
  | Some vginfo =>
      v <- read_vginfo vginfo;
      match vginfo_next v with
      | None => ret (Some (vginfo_vgid v))
      | Some _ =>
          (* There are multiple VGs with this name to choose from. *)
          ret None
      end
  end.

(** ** Dropping entries *)

(** The while (vginfo2) loop of _free_vginfo; [fuel] as in
    [vginfo_from_vgname_loop]. *)
Fixpoint free_vginfo_unlink (fuel : nat) (vginfo : ptr) (vginfo2 : option ptr) : M unit :=
  match vginfo2 with
  | None => ret tt
  | Some p2 =>
      match fuel with
      | O => undefined
      | S fuel' =>
          v2 <- read_vginfo p2;
          if decide (vginfo_next v2 = Some vginfo) then
            v <- read_vginfo vginfo;
            update_vginfo p2 (set_vginfo_next (vginfo_next v))
          else free_vginfo_unlink fuel' vginfo (vginfo_next v2)
      end
  end.

Definition _free_vginfo (vginfo : ptr) : M bool :=
  v <- read_vginfo vginfo;
  primary_vginfo <- lvmcache_vginfo_from_vgname (Some (vginfo_vgname v)) None;
  (if decide (primary_vginfo = Some vginfo) then
     dm_hash_remove VGNAME_HASH (vginfo_vgname v);;
     match vginfo_next v with
     | Some next => dm_hash_insert VGNAME_HASH (vginfo_vgname v) next
     | None => ret tt
     end
   else
     heap <- gets vginfo_heap;
     free_vginfo_unlink (size heap) vginfo primary_vginfo);;
  h <- gets _vgid_hash;
  (if bool_decide (vginfo_vgid v ≠ EmptyString) && bool_decide (is_Some h) then
     found <- lvmcache_vginfo_from_vgid (Some (vginfo_vgid v));
     if decide (found = Some vginfo) then dm_hash_remove VGID_HASH (vginfo_vgid v)
     else ret tt
   else ret tt);;
  modify (fun s => set_vginfos (filter (fun x => x ≠ vginfo) (_vginfos s)) s);;
  free_vginfo vginfo;;
  ret true.

(** vginfo must be info->vginfo unless info is NULL *)
Definition _drop_vginfo (info : option ptr) (vginfo : option ptr) : M bool :=
  (match info with
   | Some info => _vginfo_detach_info info
   | None => ret tt
   end);;
  (* vginfo still referenced? *)
  match vginfo with
  | None => ret true
  | Some vginfo =>
      v <- read_vginfo vginfo;
      if is_orphan_vg (Some (vginfo_vgname v)) || negb (bool_decide (vginfo_infos v = []))
      then ret true
      else _free_vginfo vginfo
  end.

Definition lvmcache_del (info : ptr) : M unit :=
  i <- read_info info;
  d <- read_dev (info_dev i);
  h <- gets _pvid_hash;
  (if bool_decide (dev_pvid d ≠ EmptyString) && bool_decide (is_Some h)
   then dm_hash_remove PVID_HASH (dev_pvid d)
   else ret tt);;
  _drop_vginfo (Some info) (info_vginfo i);;
  (* destroy_label and label_destroy release the label with the info *)
  free_info info.

Definition lvmcache_del_dev (dev : ptr) : M unit :=
  d <- read_dev dev;
  info <- lvmcache_info_from_pvid (Some (dev_pvid d)) (Some dev);
  match info with
  | Some info => lvmcache_del info
  | None => ret tt
  end.

(** ** The update pipeline *)

(** vginfo must be info->vginfo unless info is NULL (orphans).  info is
    only named in log messages. *)
Definition _lvmcache_update_vgid (info : option ptr) (vginfo : option ptr)
    (vgid : option string) : M bool :=
  match vgid, vginfo with
  | Some vgid, Some vginfo =>
      v <- read_vginfo vginfo;
      if decide (strncmp (vginfo_vgid v) vgid ID_LEN = 0) then ret true
      else
        (if bool_decide (vginfo_vgid v ≠ EmptyString)
         then dm_hash_remove VGID_HASH (vginfo_vgid v)
         else ret tt);;
        update_vginfo vginfo (set_vginfo_vgid (dm_strncpy vgid (ID_LEN + 1)));;
        dm_hash_insert VGID_HASH (dm_strncpy vgid (ID_LEN + 1)) vginfo;;
        ret true
  | _, _ => ret true
  end.

(** The ordering checks of _insert_vginfo:
    If   Primary not exported, new exported => keep
    Else Primary exported, new not exported => change
    Else Primary has hostname for this machine => keep
    Else Primary has no hostname, new has one => change
    Else New has hostname for this machine => change
    Else Keep primary. *)
Definition use_new_vginfo (primary : lvmcache_vginfo) (vgstatus : Z)
    (creation_host : option string) : M bool :=
  let primary_exported := bool_decide (Z.land (vginfo_status primary) EXPORTED_VG ≠ 0) in
  let new_exported := bool_decide (Z.land vgstatus EXPORTED_VG ≠ 0) in
  if negb primary_exported && new_exported then ret false
  else if primary_exported && negb new_exported then ret true
  else
    match vginfo_creation_host primary with
    | Some primary_host =>
        fmt <- deref (vginfo_fmt primary);
        if decide (strcmp primary_host (fmt_cmd_hostname fmt) = 0) then ret false
        else
          match creation_host with
          | Some host => ret (bool_decide (strcmp host (fmt_cmd_hostname fmt) = 0))
          | None => ret false
          end
    | None =>
        match creation_host with
        | Some _ => ret true
        | None => ret false
        end
    end.

(** while (last_vginfo->next) last_vginfo = last_vginfo->next; *)
Fixpoint last_vginfo_loop (fuel : nat) (last_vginfo : ptr) : M ptr :=
  match fuel with
  | O => undefined
  | S fuel' =>
      v <- read_vginfo last_vginfo;
      match vginfo_next v with
      | Some next => last_vginfo_loop fuel' next
      | None => ret last_vginfo
      end
  end.

(** id_write_format into a 64-byte buffer does not fail; it reads vgid. *)
Definition _insert_vginfo (new_vginfo : ptr) (vgid : option string) (vgstatus : Z)
    (creation_host : option string) (primary_vginfo : option ptr) : M bool :=
  new <- read_vginfo new_vginfo;
  match primary_vginfo with
  | Some primary_vginfo =>
      (* Pre-existing VG takes precedence. Unexported VG takes precedence. *)
      deref vgid;;
      primary <- read_vginfo primary_vginfo;
      use_new <- use_new_vginfo primary vgstatus creation_host;
      if negb use_new then
        heap <- gets vginfo_heap;
        last_vginfo <- last_vginfo_loop (size heap) primary_vginfo;
        update_vginfo last_vginfo (set_vginfo_next (Some new_vginfo));;
        ret true
      else
        dm_hash_remove VGNAME_HASH (vginfo_vgname primary);;
        dm_hash_insert VGNAME_HASH (vginfo_vgname new) new_vginfo;;
        update_vginfo new_vginfo (set_vginfo_next (Some primary_vginfo));;
        ret true
  | None =>
      dm_hash_insert VGNAME_HASH (vginfo_vgname new) new_vginfo;;
      ret true
  end.

(** dm_zalloc(sizeof( *vginfo)) with vgname = dm_strdup(vgname) *)
Definition new_vginfo (vgname : string) : lvmcache_vginfo :=
  {| vginfo_infos := []; vginfo_fmt := None; vginfo_vgname := vgname; vginfo_status := 0;
     vginfo_vgid := EmptyString; vginfo_next := None; vginfo_creation_host := None;
     vginfo_system_id := None; vginfo_lock_type := None; vginfo_mda_checksum := 0;
     vginfo_mda_size := 0; vginfo_seqno := 0;
     vginfo_independent_metadata_location := false;
     vginfo_scan_summary_mismatch := false |}.

Definition _lvmcache_update_vgname (info : option ptr) (vgname vgid : option string)
    (vgstatus : Z) (creation_host : option string) (fmt : format_type) : M bool :=
  match vgname with
  | None => ret true
  | Some vgname =>
      same <- match info with
              | Some info =>
                  i <- read_info info;
                  match info_vginfo i with
                  | Some vginfo =>
                      v <- read_vginfo vginfo;
                      ret (bool_decide (strcmp (vginfo_vgname v) vgname = 0))
                  | None => ret false
                  end
              | None => ret false
              end;
      if same then ret true
      else
        (* Remove existing vginfo entry *)
        (match info with
         | Some info => i <- read_info info; _drop_vginfo (Some info) (info_vginfo i);; ret tt
         | None => ret tt
         end);;
        found <- lvmcache_vginfo_from_vgname (Some vgname) vgid;
        vginfo <- match found with
                  | Some vginfo => ret (Some vginfo)
                  | None =>
                      (* Create a vginfo struct for this VG and put the vginfo
                         into the hash table. *)
                      vginfo <- alloc_vginfo (new_vginfo vgname);
                      primary_vginfo <- lvmcache_vginfo_from_vgname (Some vgname) None;
                      ok <- _insert_vginfo vginfo vgid vgstatus creation_host primary_vginfo;
                      if ok then
                        (* Ensure orphans appear last on list_iterate *)
                        modify (fun s =>
                          if is_orphan_vg (Some vgname)
                          then set_vginfos (_vginfos s ++ [vginfo]) s
                          else set_vginfos (vginfo :: _vginfos s) s);;
                        ret (Some vginfo)
                      else free_vginfo vginfo;; ret None
                  end;
        match vginfo with
        | None => ret false
        | Some vginfo =>
            (match info with
             | Some info => _vginfo_attach_info (Some vginfo) info
             | None => _lvmcache_update_vgid None (Some vginfo) vgid;; ret tt   (* Orphans *)
             end);;
            locked <- lvmcache_vgname_is_locked vgname;
            _update_cache_vginfo_lock_state vginfo locked;;
            (* FIXME Check consistency of list! *)
            update_vginfo vginfo (set_vginfo_fmt (Some fmt));;
            ret true
        end
  end.

(** cached && !strcmp(s, cached) *)
Definition same_string (cached : option string) (s : string) : bool :=
  match cached with
  | Some c => bool_decide (strcmp s c = 0)
  | None => false
  end.

Definition _lvmcache_update_vgstatus (info : option ptr) (vgstatus : Z)
    (creation_host lock_type system_id : option string) : M bool :=
  match info with
  | None => ret true
  | Some info =>
      i <- read_info info;
      match info_vginfo i with
      | None => ret true
      | Some vginfo =>
          update_vginfo vginfo (set_vginfo_status vgstatus);;
          (match creation_host with
           | None => ret tt
           | Some creation_host =>
               v <- read_vginfo vginfo;
               if same_string (vginfo_creation_host v) creation_host then ret tt
               else update_vginfo vginfo (set_vginfo_creation_host (Some creation_host))
           end);;
          (* set_lock_type: *)
          (match lock_type with
           | None => ret tt
           | Some lock_type =>
               v <- read_vginfo vginfo;
               if same_string (vginfo_lock_type v) lock_type then ret tt
               else update_vginfo vginfo (set_vginfo_lock_type (Some lock_type))
           end);;
          (* set_system_id: *)
          (match system_id with
           | None => ret tt
           | Some system_id =>
               v <- read_vginfo vginfo;
               if same_string (vginfo_system_id v) system_id then ret tt
               else update_vginfo vginfo (set_vginfo_system_id (Some system_id))
           end);;
          ret true
      end
  end.

Definition lvmcache_add_orphan_vginfo (vgname : string) (fmt : format_type) : M bool :=
  _lvmcache_update_vgname None (Some vgname) (Some vgname) 0 (Some EmptyString) fmt.

(** If PV without mdas is already in a real VG, don't make it orphan: the
    condition of the first return 1 of lvmcache_update_vgname_and_id, with
    the && evaluated left to right. *)
Definition move_to_orphan_suppressed (i : lvmcache_info) (vgname : option string)
  : M bool :=
  if is_orphan_vg vgname then
    match info_vginfo i with
    | Some vginfo =>
        if mdas_empty_or_ignored (info_mdas i) then
          v <- read_vginfo vginfo;
          ret (negb (is_orphan_vg (Some (vginfo_vgname v))) && critical_section)
        else ret false
    | None => ret false
    end
  else ret false.

(** The seqno step: [false] stands for the early return 1 after the
    mismatch is recorded. *)
Definition update_seqno (vginfo : ptr) (vgsummary : lvmcache_vgsummary) : M bool :=
  v <- read_vginfo vginfo;
  if decide (vginfo_seqno v = 0) then
    update_vginfo vginfo (set_vginfo_seqno (vgs_seqno vgsummary));; ret true
  else if decide (vgs_seqno vgsummary ≠ vginfo_seqno v) then
    update_vginfo vginfo (set_vginfo_scan_summary_mismatch true);; ret false
  else ret true.

(** The mda_size / mda_checksum step, likewise. *)
Definition update_mda (vginfo : ptr) (vgsummary : lvmcache_vgsummary) : M bool :=
  v <- read_vginfo vginfo;
  if decide (vginfo_mda_size v = 0) then
    update_vginfo vginfo (fun v =>
      set_vginfo_mda_size (vgs_mda_size vgsummary)
        (set_vginfo_mda_checksum (vgs_mda_checksum vgsummary) v));;
    ret true
  else if bool_decide (vginfo_mda_size v ≠ vgs_mda_size vgsummary)
          || bool_decide (vginfo_mda_checksum v ≠ vgs_mda_checksum vgsummary) then
    update_vginfo vginfo (set_vginfo_scan_summary_mismatch true);; ret false
  else ret true.

Definition lvmcache_update_vgname_and_id (info : ptr) (vgsummary : lvmcache_vgsummary)
  : M bool :=
  i <- read_info info;
  let '(vgname, vgid) :=
    match vgs_vgname vgsummary, info_vginfo i with
    | None, None =>
        (* FIXME Remove this *)
        (Some (fmt_orphan_vg_name (info_fmt i)), fmt_orphan_vg_name (info_fmt i))
    | _, _ => (vgs_vgname vgsummary, vgs_vgid vgsummary)
    end in
  suppressed <- move_to_orphan_suppressed i vgname;
  if suppressed then ret true
  else
    ok <- _lvmcache_update_vgname (Some info) vgname (Some vgid) (vgs_vgstatus vgsummary)
            (vgs_creation_host vgsummary) (info_fmt i);
    if negb ok then ret false
    else
      i <- read_info info;
      ok <- _lvmcache_update_vgid (Some info) (info_vginfo i) (Some vgid);
      if negb ok then ret false
      else if bool_decide (vgs_seqno vgsummary = 0) && bool_decide (vgs_mda_size vgsummary = 0)
              && bool_decide (vgs_mda_checksum vgsummary = 0) then ret true
      else
        match info_vginfo i with
        | None => ret true
        | Some vginfo =>
            go_on <- update_seqno vginfo vgsummary;
            if negb go_on then ret true
            else
              go_on <- update_mda vginfo vgsummary;
              if negb go_on then ret true
              else
                (* If a dev has an unmatching checksum, ignore the other
                   info from it, keeping the info we already saved. *)
                _lvmcache_update_vgstatus (Some info) (vgs_vgstatus vgsummary)
                  (vgs_creation_host vgsummary) (vgs_lock_type vgsummary)
                  (vgs_system_id vgsummary)
        end.

(** ** Adding a device *)

(** label_create and dm_zalloc; lvmcache_del_mdas, _das and _bas leave the
    three area lists empty. *)
Definition _create_info (labeller : labeller) (dev : ptr) : M ptr :=
  alloc_info
    {| info_mdas := []; info_vginfo := None; info_label := {| label_labeller := labeller |};
       info_fmt := labeller_fmt labeller; info_dev := dev; info_device_size := 0;
       info_ext_version := 0; info_ext_flags := 0; info_status := 0 |}.

(** struct lvmcache_vgsummary vgsummary = { 0 } with vgstatus, vgname and
    vgid filled in; sizeof(vgsummary.vgid) is ID_LEN. *)
Definition add_vgsummary (vgname vgid : option string) (vgstatus : Z) : lvmcache_vgsummary :=
  {| vgs_vgname := vgname;
     vgs_vgid := match vgid with Some vgid => strncpy vgid ID_LEN | None => EmptyString end;
     vgs_vgstatus := vgstatus; vgs_creation_host := None; vgs_lock_type := None;
     vgs_system_id := None; vgs_seqno := 0; vgs_mda_checksum := 0; vgs_mda_size := 0 |}.

(** dev->pvid is char[ID_LEN + 1].  In the duplicate branch the call to
    lvmetad_set_disabled touches nothing of the cache and is left out. *)
Definition lvmcache_add (labeller : labeller) (pvid : string) (dev : ptr)
    (vgname vgid : option string) (vgstatus : Z) : M (option ptr) :=
  let pvid_s := dm_strncpy pvid (ID_LEN + 1) in
  (* Find existing info struct in _pvid_hash or create a new one. *)
  found <- lvmcache_info_from_pvid (Some pvid_s) None;
  found <- match found with
           | Some _ => ret found
           | None => d <- read_dev dev; lvmcache_info_from_pvid (Some (dev_pvid d)) None
           end;
  created <- match found with
             | Some info => ret (info, false)
             | None => info <- _create_info labeller dev; ret (info, true)
             end;
  let '(info, created) := created in
  i <- read_info info;
  if negb created && bool_decide (info_dev i ≠ dev) then
    modify (set_found_duplicate_pvs true);;
    update_dev dev (set_dev_pvid (strncpy pvid_s (ID_LEN + 1)));;
    (* Keep the existing PV/dev in lvmcache, and save the new duplicate in
       the list of duplicates. *)
    modify (fun s => set_found_duplicate_devs (_found_duplicate_devs s ++ [dev]) s);;
    ret None
  else
    (if negb created
        && bool_decide (labeller_id (label_labeller (info_label i)) ≠ labeller_id labeller)
     then update_info info (set_info_label {| label_labeller := labeller |})
     else ret tt);;
    (* Add or update the _pvid_hash mapping, pvid to info. *)
    info_lookup <- dm_hash_lookup PVID_HASH pvid_s;
    d <- read_dev (info_dev i);
    (if bool_decide (info_lookup = Some info) && bool_decide (strcmp (dev_pvid d) pvid_s = 0)
     then ret tt
     else
       (if bool_decide (dev_pvid d ≠ EmptyString)
        then dm_hash_remove PVID_HASH (dev_pvid d)
        else ret tt);;
       update_dev (info_dev i) (set_dev_pvid (strncpy pvid_s (ID_LEN + 1)));;
       dm_hash_insert PVID_HASH pvid_s info);;
    (* update_vginfo: *)
    ok <- lvmcache_update_vgname_and_id info (add_vgsummary vgname vgid vgstatus);
    if ok then ret (Some info)
    else
      (if created then
         dm_hash_remove PVID_HASH pvid_s;;
         update_dev (info_dev i) (set_dev_pvid EmptyString);;
         free_info info
       else ret tt);;
      ret None.

(** ** Choosing among duplicates *)

(** Treat some duplicate devs as if they were filtered out by filters.
    The entries that stay on the list, in list order; [info] is
    dereferenced without a NULL check, as in the C loop. *)
Fixpoint filter_duplicate_devs_loop (dt : dev_types) (l : list ptr) : M (list ptr) :=
  match l with
  | [] => ret []
  | devl :: rest =>
      d <- read_dev devl;
      info <- lvmcache_info_from_pvid (Some (dev_pvid d)) None;
      info <- deref info;
      i <- read_info info;
      info_dev <- read_dev (info_dev i);
      if decide (MAJOR (dev_dev info_dev) = md_major dt) then
        (* Ignoring md component duplicate *)
        filter_duplicate_devs_loop dt rest
      else
        rest' <- filter_duplicate_devs_loop dt rest;
        ret (devl :: rest')
  end.

Definition _filter_duplicate_devs (cmd : cmd_context) : M unit :=
  l <- gets _unused_duplicate_devs;
  l' <- filter_duplicate_devs_loop (cmd_dev_types cmd) l;
  modify (set_unused_duplicate_devs l').

(** The if / else if ladder that sets [change]. *)
Definition prefer_change (prev_unchosen1 prev_unchosen2 has_lv1 has_lv2
    same_size1 same_size2 has_fs1 has_fs2 is_dm1 is_dm2 in_subsys1 in_subsys2 : bool)
  : bool :=
  if prev_unchosen1 && negb prev_unchosen2 then true    (* change to 2 *)
  else if prev_unchosen2 && negb prev_unchosen1 then false
  else if has_lv1 && negb has_lv2 then false
  else if has_lv2 && negb has_lv1 then true
  else if same_size1 && negb same_size2 then false
  else if same_size2 && negb same_size1 then true
  else if has_fs1 && negb has_fs2 then false
  else if has_fs2 && negb has_fs1 then true
  else if is_dm1 && negb is_dm2 then false
  else if is_dm2 && negb is_dm1 then true
  else if in_subsys1 && negb in_subsys2 then false
  else if in_subsys2 && negb in_subsys1 then true
  else false.                                           (* device was seen first *)

(** One pass of the body of the loop over altdevs, up to [change]. *)
Definition compare_duplicates (cmd : cmd_context) (info : ptr) (dev1 dev2 : ptr) : M bool :=
  let dt := cmd_dev_types cmd in
  unused <- gets _unused_duplicate_devs;
  let prev_unchosen1 := _dev_in_device_list dev1 unused in
  let prev_unchosen2 := _dev_in_device_list dev2 unused in
  let '(prev_unchosen1, prev_unchosen2) :=
    if negb prev_unchosen1 && negb prev_unchosen2 then
      (* The cmd list saves the unchosen preference across lvmcache_destroy. *)
      (_dev_in_device_list dev1 (cmd_unused_duplicate_devs cmd),
       _dev_in_device_list dev2 (cmd_unused_duplicate_devs cmd))
    else (prev_unchosen1, prev_unchosen2) in
  d1 <- read_dev dev1;
  d2 <- read_dev dev2;
  let dev1_major := MAJOR (dev_dev d1) in
  let dev1_minor := MINOR (dev_dev d1) in
  let dev2_major := MAJOR (dev_dev d2) in
  let dev2_minor := MINOR (dev_dev d2) in
  let dev1_size := default 0 (dev_get_size dev1) in
  let dev2_size := default 0 (dev_get_size dev2) in
  let has_lv1 := bool_decide (Z.land (dev_flags d1) DEV_USED_FOR_LV ≠ 0) in
  let has_lv2 := bool_decide (Z.land (dev_flags d2) DEV_USED_FOR_LV ≠ 0) in
  let in_subsys1 := dev_subsystem_part_major dt d1 in
  let in_subsys2 := dev_subsystem_part_major dt d2 in
  let is_dm1 := dm_is_dm_major dev1_major in
  let is_dm2 := dm_is_dm_major dev2_major in
  let has_fs1 := dm_device_has_mounted_fs dev1_major dev1_minor in
  let has_fs2 := dm_device_has_mounted_fs dev2_major dev2_minor in
  i <- read_info info;
  let info_size := Z.shiftr (info_device_size i) SECTOR_SHIFT in
  let same_size1 := bool_decide (dev1_size = info_size) in
  let same_size2 := bool_decide (dev2_size = info_size) in
  ret (prefer_change prev_unchosen1 prev_unchosen2 has_lv1 has_lv2 same_size1 same_size2
         has_fs1 has_fs2 is_dm1 is_dm2 in_subsys1 in_subsys2).

(** dm_list_iterate_items(devl, &altdevs): [k] is the position of devl in
    altdevs, [alt] the position of the entry that holds dev1 once dev1 has
    changed. *)
Fixpoint choose_loop (cmd : cmd_context) (info : ptr) (altdevs : list ptr) (k : nat)
    (dev1 : ptr) (alt : nat) : M (ptr * nat) :=
  match altdevs with
  | [] => ret (dev1, alt)
  | dev2 :: rest =>
      if decide (dev1 = dev2) then
        (* This shouldn't happen *)
        choose_loop cmd info rest (S k) dev1 alt
      else
        change <- compare_duplicates cmd info dev1 dev2;
        if change then choose_loop cmd info rest (S k) dev2 k
        else choose_loop cmd info rest (S k) dev1 alt
  end.

(** The first loop after next: the entries of [l] with the pvid of alt
    move to altdevs, the others stay. *)
Fixpoint split_altdevs (pvid : string) (l : list ptr) : M (list ptr * list ptr) :=
  match l with
  | [] => ret ([], [])
  | devl :: rest =>
      d <- read_dev devl;
      r <- split_altdevs pvid rest;
      if decide (strcmp pvid (dev_pvid d) = 0) then ret (devl :: r.1, r.2)
      else ret (r.1, devl :: r.2)
  end.

(** From the label next: to the goto next.  Every round takes at least
    alt off _found_duplicate_devs, so [fuel] rounds are enough when fuel is
    the length of that list. *)
Fixpoint choose_preferred_devs_next (fuel : nat) (cmd : cmd_context)
    (new_unused del_cache_devs add_cache_devs : list ptr) : M (list ptr * list ptr) :=
  found <- gets _found_duplicate_devs;
  match found with
  | [] =>
      _destroy_duplicate_device_list set_unused_duplicate_devs;;
      modify (fun s => set_unused_duplicate_devs (_unused_duplicate_devs s ++ new_unused) s);;
      ret (del_cache_devs, add_cache_devs)
  | alt :: rest =>
      match fuel with
      | O => undefined
      | S fuel' =>
          alt_dev <- read_dev alt;
          r <- split_altdevs (dev_pvid alt_dev) rest;
          let altdevs := alt :: r.1 in
          modify (set_found_duplicate_devs r.2);;
          (* Find the device for the pvid that's currently in lvmcache. *)
          info <- lvmcache_info_from_pvid (Some (dev_pvid alt_dev)) None;
          match info with
          | None =>
              (* This shouldn't happen *)
              choose_preferred_devs_next fuel' cmd new_unused del_cache_devs add_cache_devs
          | Some info =>
              i <- read_info info;
              chosen <- choose_loop cmd info altdevs 0 (info_dev i) 0;
              let '(dev1, alt) := chosen in
              if decide (dev1 ≠ info_dev i) then
                (* Move the preferred device from altdevs to add_cache_devs.
                   Create a del_cache_devs entry for the current lvmcache
                   device to drop. *)
                preferred <- deref (altdevs !! alt);
                choose_preferred_devs_next fuel' cmd (new_unused ++ delete alt altdevs)
                  (del_cache_devs ++ [info_dev i]) (add_cache_devs ++ [preferred])
              else
                choose_preferred_devs_next fuel' cmd (new_unused ++ altdevs)
                  del_cache_devs add_cache_devs
          end
      end
  end.

Definition _choose_preferred_devs (cmd : cmd_context)
    (del_cache_devs add_cache_devs : list ptr) : M (list ptr * list ptr) :=
  found <- gets _found_duplicate_devs;
  choose_preferred_devs_next (length found) cmd [] del_cache_devs add_cache_devs.

Section Scan.

(** The scanning code of label.c, the filters and the formats' own scan
    call back into this file; they are taken as given. *)
Variable label_scan_setup_bcache : M bool.
Variable refresh_filters : cmd_context -> M bool.
Variable label_scan : cmd_context -> M unit.
Variable label_read : ptr -> M unit.
Variable scan_formats : cmd_context -> M bool.

Definition lvmcache_label_scan (cmd : cmd_context) : M bool :=
  if lvmetad_used then label_scan_setup_bcache
  else
    (* Avoid recursion when a PVID can't be found! *)
    scanning <- gets _scanning_in_progress;
    if scanning then ret false
    else
      modify (set_scanning_in_progress true);;
      r <- (if negb (cmd_full_filter cmd) then ret false
            else
              refresh_filters cmd;;
              _destroy_duplicate_device_list set_found_duplicate_devs;;
              label_scan cmd;;
              found <- gets _found_duplicate_devs;
              (if bool_decide (found ≠ []) then
                 r <- _choose_preferred_devs cmd [] [];
                 let '(del_cache_devs, add_cache_devs) := r in
                 dm_list_iterate_items del_cache_devs (fun dev =>
                   d <- read_dev dev;
                   info <- lvmcache_info_from_pvid (Some (dev_pvid d)) None;
                   match info with
                   | Some info => lvmcache_del info
                   | None => ret tt
                   end);;
                 dm_list_iterate_items add_cache_devs label_read;;
                 modify (fun s =>
                   set_unused_duplicate_devs (_unused_duplicate_devs s ++ del_cache_devs) s);;
                 _filter_duplicate_devs cmd
               else ret tt);;
              (* Perform any format-specific scanning e.g. text files *)
              if cmd_independent_metadata_areas cmd then scan_formats cmd else ret true);
      (* out: *)
      modify (set_scanning_in_progress false);;
      ret r.

End Scan.

(** ** Queries *)

Definition lvmcache_is_orphan (info : ptr) : M bool :=
  i <- read_info info;
  match info_vginfo i with
  | None => ret true   (* FIXME? *)
  | Some vginfo => v <- read_vginfo vginfo; ret (is_orphan_vg (Some (vginfo_vgname v)))
  end.

(** vginfo->vgname is never NULL in a vginfo of this file. *)
Definition lvmcache_vgid_is_cached (vgid : option string) : M bool :=
  if lvmetad_used then ret true
  else
    vginfo <- lvmcache_vginfo_from_vgid vgid;
    match vginfo with
    | None => ret false
    | Some vginfo =>
        v <- read_vginfo vginfo;
        if is_orphan_vg (Some (vginfo_vgname v)) then ret false else ret true
    end.

Definition lvmcache_set_independent_location (vgname : string) : M unit :=
  vginfo <- lvmcache_vginfo_from_vgname (Some vgname) None;
  match vginfo with
  | Some vginfo => update_vginfo vginfo (set_vginfo_independent_metadata_location true)
  | None => ret tt
  end.

(** The loop of lvmcache_lookup_mda over _vginfos: the summary filled in
    from the first vginfo that matches, or nothing. *)
Fixpoint lookup_mda_loop (vgsummary : lvmcache_vgsummary) (l : list ptr)
  : M (option lvmcache_vgsummary) :=
  match l with
  | [] => ret None
  | vginfo :: rest =>
      v <- read_vginfo vginfo;
      if bool_decide (vgs_mda_checksum vgsummary = vginfo_mda_checksum v)
         && bool_decide (vgs_mda_size vgsummary = vginfo_mda_size v)
         && negb (is_orphan_vg (Some (vginfo_vgname v)))
      then ret (Some {| vgs_vgname := Some (vginfo_vgname v);
                        vgs_vgid := strncpy (vginfo_vgid v) ID_LEN;
                        vgs_vgstatus := vginfo_status v;
                        vgs_creation_host := vginfo_creation_host v;
                        vgs_lock_type := vgs_lock_type vgsummary;
                        vgs_system_id := vgs_system_id vgsummary;
                        vgs_seqno := vginfo_seqno v;
                        vgs_mda_checksum := vgs_mda_checksum vgsummary;
                        vgs_mda_size := vgs_mda_size vgsummary |})
      else lookup_mda_loop vgsummary rest
  end.

(** The int result and the summary written through the pointer: [Some] is
    1 with the summary as written, [None] is 0 with the summary untouched. *)
Definition lvmcache_lookup_mda (vgsummary : lvmcache_vgsummary)
  : M (option lvmcache_vgsummary) :=
  if decide (vgs_mda_size vgsummary = 0) then ret None
  else
    (* FIXME Index the checksums *)
    l <- gets _vginfos; lookup_mda_loop vgsummary l.

Definition lvmcache_scan_mismatch (vgname vgid : option string) : M bool :=
  match vgname, vgid with
  | Some _, Some vgid =>
      vginfo <- lvmcache_vginfo_from_vgid (Some vgid);
      match vginfo with
      | Some vginfo => v <- read_vginfo vginfo; ret (vginfo_scan_summary_mismatch v)
      | None => ret true
      end
  | _, _ => ret true
  end.

(** ** Start *)

(** dm_hash_create is taken to succeed. *)
Definition lvmcache_init (cmd : cmd_context) : M bool :=
  modify (set_vgs_locked 0);;
  modify (set_vginfos []);;
  modify (set_found_duplicate_devs []);;
  modify (set_unused_duplicate_devs []);;
  modify (set_vgname_hash (Some ∅));;
  modify (set_vgid_hash (Some ∅));;
  modify (set_pvid_hash (Some ∅));;
  modify (set_lock_hash (Some ∅));;
  (if cmd_is_clvmd cmd then modify (set_saved_vg_hash (Some ∅)) else ret tt);;
  (* Reinitialising the cache clears the internal record of which locks
     are held.  The global lock can be held during this operation so its
     state must be restored afterwards. *)
  held <- gets _vg_global_lock_held;
  (if held then
     lvmcache_lock_vgname VG_GLOBAL;;
     modify (set_vg_global_lock_held false)
   else ret tt);;
  ret true.

End Lvmcache.

(** * A machine to run the cache on

    The constants and predicates of [Host] as LVM2 defines them
    (metadata-exported.h, metadata.c, device.h, uuid.h), on a machine whose
    device oracles are fixed: every device reports 2048 sectors, no file
    system is mounted, major 253 is device-mapper, and the md major is the
    one subsystem. *)

Local Open Scope string_scope.

Definition lvm2_host (critical : bool) : Host :=
  {| ID_LEN := 32;
     VG_GLOBAL := "#global";
     VG_ORPHANS := "#orphans";
     FMT_TEXT_ORPHAN_VG_NAME := "#orphans_lvm2";
     EXPORTED_VG := 0x00000002;
     DEV_USED_FOR_LV := 0x00000100;
     SECTOR_SHIFT := 9;
     MAJOR := fun dev => Z.shiftr (Z.land dev 0xfff00) 8;
     MINOR := fun dev => Z.lor (Z.land dev 0xff) (Z.land (Z.shiftr dev 12) 0xfff00);
     is_global_vg := fun vgname =>
       match vgname with
       | Some n => bool_decide (strcmp n "#global" = 0)
       | None => false
       end;
     is_orphan_vg := fun vgname =>
       match vgname with
       | Some n => bool_decide (strncmp n "#orphans" 8 = 0)
       | None => false
       end;
     critical_section := critical;
     lvmetad_used := false;
     mdas_empty_or_ignored := forallb mda_ignored;
     dev_get_size := fun _ => Some 2048;
     dm_is_dm_major := fun major => bool_decide (major = 253);
     dm_device_has_mounted_fs := fun _ _ => false;
     dev_subsystem_part_major := fun dt d =>
       bool_decide (Z.shiftr (Z.land (dev_dev d) 0xfff00) 8 = md_major dt);
     export_import_vg := fun vg =>
       Some {| vg_addr := S (vg_addr vg); vg_name := vg_name vg; vg_id := vg_id vg;
               vg_seqno := vg_seqno vg; vg_saved_in_clvmd := false |} |}.

Definition lvm2 : Host := lvm2_host false.
Definition lvm2_critical : Host := lvm2_host true.

(** The process before lvmcache_init, with the devices of the device
    cache. *)
Definition boot (devs : gmap ptr device) : cache :=
  {| _pvid_hash := None; _vgid_hash := None; _vgname_hash := None; _lock_hash := None;
     _saved_vg_hash := None; _vginfos := []; _found_duplicate_devs := [];
     _unused_duplicate_devs := []; _scanning_in_progress := false; _has_scanned := false;
     _vgs_locked := 0; _vg_global_lock_held := false; _found_duplicate_pvs := false;
     _suppress_lock_ordering := false; info_heap := ∅; vginfo_heap := ∅; dev_heap := devs;
     next_ptr := 0%nat; dev_size_seqno := 0 |}.

(** The state a computation leaves. *)
Definition after {A} (m : M A) (s : cache) : cache :=
  match m s with
  | Some (_, s') => s'
  | None => s
  end.

Definition text_format : format_type :=
  {| fmt_name := "lvm2"; fmt_orphan_vg_name := "#orphans_lvm2"; fmt_cmd_hostname := "node1" |}.

Definition text_labeller : labeller := {| labeller_id := 0; labeller_fmt := text_format |}.

Definition clvmd_cmd : cmd_context :=
  {| cmd_is_clvmd := true; cmd_dev_types := {| md_major := 9 |}; cmd_full_filter := true;
     cmd_independent_metadata_areas := false; cmd_unused_duplicate_devs := [] |}.

Definition blank_device (dev : Z) : device :=
  {| dev_dev := dev; dev_pvid := ""; dev_flags := 0 |}.

(** sda (8:0) at address 100, sdb (8:16) at 101, md0 (9:0) at 102, sdc
    (8:32) at 103. *)
Definition sda : ptr := 100%nat.
Definition sdb : ptr := 101%nat.
Definition md0 : ptr := 102%nat.
Definition sdc : ptr := 103%nat.

Definition machine : gmap ptr device :=
  <[sda := blank_device 0x800]> (<[sdb := blank_device 0x810]>
    (<[md0 := blank_device 0x900]> (<[sdc := blank_device 0x820]> ∅))).

(** The objects at an address of a state of the machine. *)
Definition info_at (s : cache) (p : ptr) : lvmcache_info :=
  default {| info_mdas := []; info_vginfo := None;
             info_label := {| label_labeller := text_labeller |}; info_fmt := text_format;
             info_dev := 0%nat; info_device_size := 0; info_ext_version := 0;
             info_ext_flags := 0; info_status := 0 |} (info_heap s !! p).

Definition vginfo_at (s : cache) (p : ptr) : lvmcache_vginfo :=
  default (new_vginfo "") (vginfo_heap s !! p).

(** * Notions used in the statements *)

(** precedes, in the words of the lock registry's contract: VG_GLOBAL
    sorts first, orphan names sort last, otherwise strict lexicographic
    order.  [_vgname_order_correct] is compared with it below. *)
Definition precedes `{Host} (vgname1 vgname2 : string) : Prop :=
  is_global_vg (Some vgname1) = true
  \/ (is_global_vg (Some vgname2) = false
      /\ is_orphan_vg (Some vgname1) = false
      /\ (is_orphan_vg (Some vgname2) = true \/ strcmp vgname1 vgname2 < 0)).

(** The CACHE_LOCKED bit as _update_cache_info_lock_state leaves it. *)
Definition lock_state (locked : bool) (i : lvmcache_info) : lvmcache_info :=
  if locked then set_info_status (Z.lor (info_status i) CACHE_LOCKED) i
  else set_info_status (Z.land (info_status i) (Z.lnot CACHE_LOCKED)) i.

(** The members of the VG that the name index holds for vgname. *)
Definition vg_members (vgname : string) (s : cache) : list ptr :=
  match _vgname_hash s with
  | Some names =>
      match names !! vgname with
      | Some vginfo =>
          match vginfo_heap s !! vginfo with
          | Some v => vginfo_infos v
          | None => []
          end
      | None => []
      end
  | None => []
  end.

(** The major number of the device that the pvid index holds for the
    pvid of dev: what _filter_duplicate_devs compares with md_major. *)
Definition cached_major `{Host} (s : cache) (dev : ptr) : option Z :=
  d ← dev_heap s !! dev;
  tbl ← _pvid_hash s;
  info ← tbl !! dm_strncpy (dev_pvid d) (ID_LEN + 1);
  i ← info_heap s !! info;
  cached ← dev_heap s !! info_dev i;
  Some (MAJOR (dev_dev cached)).

(** [linked h p l q]: in the heap h, following vginfo->next from p leads
    through the vginfos of l, in order, to q. *)
Fixpoint linked (h : gmap ptr lvmcache_vginfo) (p : ptr) (l : list ptr) (q : ptr) : Prop :=
  match l with
  | [] => (vginfo_next <$> h !! p) = Some (Some q)
  | p' :: l' => (vginfo_next <$> h !! p) = Some (Some p') /\ linked h p' l' q
  end.

(** What _free_vginfo leaves of a cache once the name chain is rewired:
    the vgid index loses the entry of vginfo if it points at vginfo,
    _vginfos loses vginfo, and the vginfo is gone from the heap. *)
Definition freed `{Host} (vginfo : ptr) (v : lvmcache_vginfo) (s : cache) : cache :=
  let s1 :=
    match _vgid_hash s with
    | Some ids =>
        if bool_decide (vginfo_vgid v ≠ EmptyString)
           && bool_decide (ids !! dm_strncpy (vginfo_vgid v) (ID_LEN + 1) = Some vginfo)
        then set_vgid_hash (Some (delete (vginfo_vgid v) ids)) s
        else s
    | None => s
    end in
  set_vginfo_heap (delete vginfo (vginfo_heap s1))
    (set_vginfos (filter (fun x => x ≠ vginfo) (_vginfos s1)) s1).




(** The pvid written on the device at an address. *)
Definition pvid_at (s : cache) (dev : ptr) : string :=
  match dev_heap s !! dev with
  | Some d => dev_pvid d
  | None => EmptyString
  end.













(** * Facts *)

(** ** Strings, bits and lists *)

Lemma compare_refl (a : string) : String.compare a a = Eq.
Proof.
  pose proof (String.compare_antisym a a) as E.
  destruct (String.compare a a); simpl in E; congruence.
Qed.

Lemma strcmp_eq (a b : string) : strcmp a b = 0 <-> a = b.
Proof.
  unfold strcmp. split.
  - destruct (String.compare a b) eqn:E; try discriminate.
    intros _. now apply String.compare_eq_iff.
  - intros ->. now rewrite compare_refl.
Qed.

Lemma forallb_false {A} (f : A -> bool) (l : list A) :
  forallb f l = false <-> exists x, x ∈ l /\ f x = false.
Proof.
  induction l as [|a l IH]; simpl.
  - split; [discriminate|]. intros (x & Hx & _). inversion Hx.
  - rewrite andb_false_iff, IH. split.
    + intros [Ha | (x & Hx & Hf)].
      * exists a. split; [left|done].
      * exists x. split; [now right|done].
    + intros (x & Hx & Hf). inversion Hx; subst; eauto.
Qed.

Lemma elem_of_keys {V} (tbl : gmap string V) (k : string) :
  k ∈ (map_to_list tbl).*1 <-> is_Some (tbl !! k).
Proof.
  rewrite list_elem_of_fmap. split.
  - intros ([k' v] & -> & Hin). apply elem_of_map_to_list in Hin. eauto.
  - intros [v Hv]. exists (k, v). split; [done|]. now apply elem_of_map_to_list.
Qed.

Lemma set_clear_bit (st : Z) :
  Z.land st CACHE_LOCKED = 0 -> Z.land (Z.lor st CACHE_LOCKED) (Z.lnot CACHE_LOCKED) = st.
Proof.
  intros E. apply Z.bits_inj'. intros n Hn.
  rewrite Z.land_spec, Z.lor_spec, Z.lnot_spec by done.
  assert (Hb : Z.testbit (Z.land st CACHE_LOCKED) n = false) by (rewrite E; apply Z.bits_0).
  rewrite Z.land_spec in Hb.
  destruct (Z.testbit st n), (Z.testbit CACHE_LOCKED n); simpl in *; congruence.
Qed.

Lemma lock_state_idem (b : bool) (i : lvmcache_info) :
  lock_state b (lock_state b i) = lock_state b i.
Proof.
  destruct i, b; unfold lock_state, set_info_status;
    cbn -[Z.land Z.lor Z.lnot CACHE_LOCKED]; f_equal.
  - rewrite <- Z.lor_assoc. now rewrite Z.lor_diag.
  - rewrite <- Z.land_assoc. now rewrite Z.land_diag.
Qed.

Lemma lock_state_round_trip (i : lvmcache_info) :
  Z.land (info_status i) CACHE_LOCKED = 0 -> lock_state false (lock_state true i) = i.
Proof.
  intros E. destruct i; unfold lock_state, set_info_status;
    cbn -[Z.land Z.lor Z.lnot CACHE_LOCKED] in *; f_equal. now apply set_clear_bit.
Qed.

Lemma lookup_foldl_alter {A} (f : A -> A) (l : list ptr) (h : gmap ptr A) (q : ptr) :
  (forall a, f (f a) = f a) ->
  foldl (fun h p => alter f p h) h l !! q
  = if decide (q ∈ l) then f <$> h !! q else h !! q.
Proof.
  intros Hf. revert h. induction l as [|p l IH]; intros h; cbn [foldl].
  - case_decide as Hin; [inversion Hin|done].
  - rewrite IH. destruct (decide (q = p)) as [->|Hne].
    + rewrite lookup_alter_eq.
      destruct (decide (p ∈ l)) as [Hl|Hl], (decide (p ∈ p :: l)) as [Hc|Hc]; try done.
      * destruct (h !! p); simpl; [|done]. now rewrite Hf.
      * exfalso. apply Hc. left.
      * exfalso. apply Hc. left.
    + rewrite lookup_alter_ne by done.
      destruct (decide (q ∈ l)) as [Hl|Hl], (decide (q ∈ p :: l)) as [Hc|Hc]; try done.
      * exfalso. apply Hc. now right.
      * exfalso. inversion Hc; subst; contradiction.
Qed.

(** ** Running a computation *)

Lemma bind_eq {A B} (m : M A) (k : A -> M B) (s s' : cache) (a : A) :
  m s = Some (a, s') -> bind m k s = k a s'.
Proof. intros E. unfold bind. now rewrite E. Qed.

Lemma dm_hash_lookup_eq {V} (t : table V) (key : string) (tbl : gmap string V) (s : cache) :
  tbl_get t s = Some tbl -> dm_hash_lookup t key s = Some (tbl !! key, s).
Proof. intros E. unfold dm_hash_lookup, bind, gets, deref. now rewrite E. Qed.

Lemma dm_hash_insert_eq {V} (t : table V) (key : string) (data : V)
    (tbl : gmap string V) (s : cache) :
  tbl_get t s = Some tbl ->
  dm_hash_insert t key data s = Some (tt, tbl_set t (Some (<[key := data]> tbl)) s).
Proof. intros E. unfold dm_hash_insert, bind, gets, deref. now rewrite E. Qed.

Lemma dm_hash_remove_eq {V} (t : table V) (key : string) (tbl : gmap string V) (s : cache) :
  tbl_get t s = Some tbl ->
  dm_hash_remove t key s = Some (tt, tbl_set t (Some (delete key tbl)) s).
Proof. intros E. unfold dm_hash_remove, bind, gets, deref. now rewrite E. Qed.

Lemma read_info_eq (p : ptr) (i : lvmcache_info) (s : cache) :
  info_heap s !! p = Some i -> read_info p s = Some (i, s).
Proof. intros E. unfold read_info, bind, gets, deref. now rewrite E. Qed.

Lemma read_vginfo_eq (p : ptr) (v : lvmcache_vginfo) (s : cache) :
  vginfo_heap s !! p = Some v -> read_vginfo p s = Some (v, s).
Proof. intros E. unfold read_vginfo, bind, gets, deref. now rewrite E. Qed.

Lemma read_dev_eq (p : ptr) (d : device) (s : cache) :
  dev_heap s !! p = Some d -> read_dev p s = Some (d, s).
Proof. intros E. unfold read_dev, bind, gets, deref. now rewrite E. Qed.

Lemma update_info_eq (p : ptr) (f : lvmcache_info -> lvmcache_info) (s : cache) :
  is_Some (info_heap s !! p) ->
  update_info p f s = Some (tt, set_info_heap (alter f p (info_heap s)) s).
Proof.
  intros [i Hi]. unfold update_info, read_info, bind, gets, deref, modify. simpl.
  rewrite Hi. simpl. do 3 f_equal.
  apply map_eq. intros q. destruct (decide (q = p)) as [->|Hne].
  - now rewrite lookup_insert_eq, lookup_alter_eq, Hi.
  - now rewrite lookup_insert_ne, lookup_alter_ne by done.
Qed.

Lemma update_vginfo_eq (p : ptr) (f : lvmcache_vginfo -> lvmcache_vginfo)
    (v : lvmcache_vginfo) (s : cache) :
  vginfo_heap s !! p = Some v ->
  update_vginfo p f s = Some (tt, set_vginfo_heap (<[p := f v]> (vginfo_heap s)) s).
Proof.
  intros Hv. unfold update_vginfo, read_vginfo, bind, gets, deref, modify. simpl.
  now rewrite Hv.
Qed.

Lemma update_dev_eq (p : ptr) (f : device -> device) (d : device) (s : cache) :
  dev_heap s !! p = Some d ->
  update_dev p f s = Some (tt, set_dev_heap (<[p := f d]> (dev_heap s)) s).
Proof.
  intros Hd. unfold update_dev, read_dev, bind, gets, deref, modify. simpl.
  now rewrite Hd.
Qed.

(** ** The lock registry *)

Section LockRegistry.
Context `{Host}.

Lemma _vgname_order_correct_precedes (vgname1 vgname2 : string) :
  _vgname_order_correct vgname1 vgname2 = true <-> precedes vgname1 vgname2.
Proof.
  unfold _vgname_order_correct, precedes.
  destruct (is_global_vg (Some vgname1)); [tauto|].
  destruct (is_global_vg (Some vgname2)).
  { split; [discriminate|]. intros [|[]]; discriminate. }
  destruct (is_orphan_vg (Some vgname1)).
  { split; [discriminate|]. intros [|(_ & ? & _)]; discriminate. }
  destruct (is_orphan_vg (Some vgname2)); [tauto|].
  destruct (decide (strcmp vgname1 vgname2 < 0)).
  - tauto.
  - split; [discriminate|]. intros [|(_ & _ & [|])]; try discriminate. contradiction.
Qed.

(** C4: with ordering checks not suppressed and a lock table in place,
    lvmcache_verify_lock_order(vgname) returns, leaves the cache as it is,
    and its result is 0 exactly when some name held in the lock table does
    not precede vgname, where VG_GLOBAL precedes everything, an orphan
    name precedes nothing but is preceded by every other name that is not
    VG_GLOBAL, and two ordinary names compare by strcmp. *)
Theorem lvmcache_verify_lock_order_fails_iff (vgname : string) (s : cache)
    (tbl : gmap string unit) :
  _suppress_lock_ordering s = false ->
  _lock_hash s = Some tbl ->
  exists ok : bool,
    lvmcache_verify_lock_order vgname s = Some (ok, s)
    /\ (ok = false <-> exists held, is_Some (tbl !! held) /\ ~ precedes held vgname).
Proof.
  intros Hs Hl. unfold lvmcache_verify_lock_order, bind, gets, ret. simpl.
  rewrite Hs, Hl. eexists; split; [reflexivity|].
  rewrite forallb_false. split.
  - intros (x & Hx & Hf). exists x. split; [now apply elem_of_keys|].
    rewrite <- _vgname_order_correct_precedes. congruence.
  - intros (x & Hx & Hf). exists x. split; [now apply elem_of_keys|].
    rewrite <- _vgname_order_correct_precedes in Hf. now destruct (_vgname_order_correct x vgname).
Qed.

Lemma update_cache_lock_iterate (locked : bool) (l : list ptr) (s : cache) :
  (forall p, p ∈ l -> is_Some (info_heap s !! p)) ->
  dm_list_iterate_items l (fun info => _update_cache_info_lock_state info locked) s
  = Some (tt, set_info_heap
                (foldl (fun h p => alter (lock_state locked) p h) (info_heap s) l) s).
Proof.
  revert s. induction l as [|p l IH]; intros s Hlive; simpl.
  - unfold ret. destruct s; reflexivity.
  - unfold bind, _update_cache_info_lock_state.
    rewrite update_info_eq by (apply Hlive; left).
    rewrite IH.
    + reflexivity.
    + intros q Hq. simpl. destruct (decide (q = p)) as [->|Hne].
      * rewrite lookup_alter_eq. destruct (Hlive p) as [i ->]; [left|]. simpl. eauto.
      * rewrite lookup_alter_ne by done. apply Hlive. now right.
Qed.

Lemma update_cache_lock_state_eq (vgname : string) (locked : bool) (s : cache) :
  (forall info, info ∈ vg_members vgname s -> is_Some (info_heap s !! info)) ->
  (forall names vginfo,
     _vgname_hash s = Some names -> names !! vgname = Some vginfo ->
     is_Some (vginfo_heap s !! vginfo)) ->
  _update_cache_lock_state vgname locked s
  = Some (tt, set_info_heap
                (foldl (fun h p => alter (lock_state locked) p h) (info_heap s)
                   (vg_members vgname s)) s).
Proof.
  intros Hlive Hw. unfold _update_cache_lock_state, lvmcache_vginfo_from_vgname.
  unfold vg_members in *.
  unfold bind at 1. unfold bind at 1. unfold gets at 1.
  destruct (_vgname_hash s) as [names|] eqn:En.
  - destruct (names !! vgname) as [vginfo|] eqn:Ev.
    + destruct (Hw names vginfo eq_refl Ev) as (v & Hv).
      rewrite Hv in *.
      unfold ret at 1. unfold _update_cache_vginfo_lock_state, read_vginfo.
      unfold bind at 1. unfold bind at 1. unfold gets, deref. rewrite Hv. unfold ret at 1.
      now apply update_cache_lock_iterate.
    + unfold ret. destruct s; reflexivity.
  - unfold ret. destruct s; reflexivity.
Qed.

(** C5, amended: when vgname is not held, the VG cached under that name
    (if any) is whole and none of its members carries CACHE_LOCKED, then
    lvmcache_lock_vgname(vgname); lvmcache_unlock_vgname(vgname) returns
    and leaves every part of the cache as it was (lock table, _vgs_locked,
    the status of every info), except that dev_size_seqno is one higher
    when vgname is not VG_GLOBAL and no other VG lock was held
    (_vgs_locked was 0); otherwise dev_size_seqno is unchanged too. *)
Theorem lock_unlock_round_trip (vgname : string) (s : cache) (tbl : gmap string unit) :
  _lock_hash s = Some tbl ->
  tbl !! vgname = None ->
  (forall names vginfo,
     _vgname_hash s = Some names -> names !! vgname = Some vginfo ->
     exists v, vginfo_heap s !! vginfo = Some v
       /\ forall info, info ∈ vginfo_infos v ->
            exists i, info_heap s !! info = Some i
              /\ Z.land (info_status i) CACHE_LOCKED = 0) ->
  (lvmcache_lock_vgname vgname;; lvmcache_unlock_vgname vgname) s
  = Some (tt, if bool_decide (vgname ≠ VG_GLOBAL) && bool_decide (_vgs_locked s = 0)
              then set_dev_size_seqno (dev_size_seqno s + 1) s
              else s).
Proof.
  intros Hl Hfree Hw.
  assert (Hm : forall info, info ∈ vg_members vgname s ->
            exists i, info_heap s !! info = Some i
              /\ Z.land (info_status i) CACHE_LOCKED = 0).
  { unfold vg_members. intros info.
    destruct (_vgname_hash s) as [names|]; [|intros X; inversion X].
    destruct (names !! vgname) as [vginfo|] eqn:Ev; [|intros X; inversion X].
    destruct (Hw names vginfo eq_refl Ev) as (v & -> & Hv). apply Hv. }
  assert (Hv : forall names vginfo,
            _vgname_hash s = Some names -> names !! vgname = Some vginfo ->
            is_Some (vginfo_heap s !! vginfo)).
  { intros names vginfo En Ev. destruct (Hw names vginfo En Ev) as (v & -> & _). eauto. }
  destruct (decide (strcmp vgname VG_GLOBAL ≠ 0)) as [Hng|Hg].
  - assert (Hne : vgname ≠ VG_GLOBAL) by (now rewrite <- strcmp_eq).
    rewrite (bool_decide_eq_true_2 _ Hne).
    set (s1 := set_lock_hash (Some (<[vgname:=tt]> tbl)) s).
    set (h1 := foldl (fun h p => alter (lock_state true) p h) (info_heap s)
                 (vg_members vgname s)).
    set (s2 := set_vgs_locked (_vgs_locked s + 1) (set_info_heap h1 s1)).
    assert (E1 : _update_cache_lock_state vgname true s1 = Some (tt, set_info_heap h1 s1)).
    { apply (update_cache_lock_state_eq vgname true s1).
      - intros info Hin. destruct (Hm info Hin) as (i & Hi & _). simpl. eauto.
      - apply Hv. }
    assert (E2 : _update_cache_lock_state vgname false s2
                 = Some (tt, set_info_heap (info_heap s) s2)).
    { rewrite (update_cache_lock_state_eq vgname false s2).
      - do 3 f_equal. apply map_eq. intros q.
        change (vg_members vgname s2) with (vg_members vgname s).
        change (info_heap s2) with h1. unfold h1.
        rewrite !lookup_foldl_alter by apply lock_state_idem.
        case_decide as Hq; [|done].
        destruct (Hm q Hq) as (i & -> & Hi).
        change (Some (lock_state false (lock_state true i)) = Some i).
        now rewrite lock_state_round_trip.
      - intros info Hin. change (info_heap s2) with h1. unfold h1.
        rewrite lookup_foldl_alter by apply lock_state_idem.
        destruct (Hm info Hin) as (i & -> & _). case_decide; simpl; eauto.
      - apply Hv. }
    assert (Elock : lvmcache_lock_vgname vgname s = Some (tt, s2)).
    { unfold lvmcache_lock_vgname.
      rewrite (bind_eq _ _ _ _ _ (dm_hash_lookup_eq LOCK_HASH vgname tbl s Hl)).
      rewrite (bind_eq _ _ _ _ _ (dm_hash_insert_eq LOCK_HASH vgname tt tbl s Hl)).
      rewrite decide_True by done.
      change (tbl_set LOCK_HASH (Some (<[vgname:=tt]> tbl)) s) with s1.
      now rewrite (bind_eq _ _ _ _ _ E1). }
    rewrite (bind_eq _ _ _ _ _ Elock).
    unfold lvmcache_unlock_vgname.
    assert (Hl2 : tbl_get LOCK_HASH s2 = Some (<[vgname:=tt]> tbl)) by reflexivity.
    rewrite (bind_eq _ _ _ _ _ (dm_hash_lookup_eq LOCK_HASH vgname _ s2 Hl2)).
    rewrite decide_True by done.
    rewrite (bind_eq _ _ _ _ _ E2).
    erewrite bind_eq by (now apply dm_hash_remove_eq).
    rewrite decide_True by done.
    unfold bind, modify, gets, ret, dev_size_seqno_inc.
    rewrite delete_insert_eq, delete_id by done.
    subst s2 s1. simpl.
    replace (_vgs_locked s + 1 - 1) with (_vgs_locked s) by lia.
    destruct (decide (_vgs_locked s = 0)) as [E0|E0].
    + rewrite bool_decide_eq_true_2 by done.
      destruct s; simpl in *. now subst.
    + rewrite bool_decide_eq_false_2 by done.
      destruct s; simpl in *. now subst.
  - assert (He : vgname = VG_GLOBAL) by (apply strcmp_eq; lia).
    rewrite (bool_decide_eq_false_2 (vgname ≠ VG_GLOBAL)) by (intros X; now apply X).
    unfold lvmcache_lock_vgname, lvmcache_unlock_vgname, dm_hash_lookup, dm_hash_insert,
      dm_hash_remove.
    rewrite !decide_False by done.
    unfold bind, gets, deref, modify, ret. simpl.
    repeat (progress (rewrite ?Hl; simpl)).
    rewrite delete_insert_eq, delete_id by done. destruct s; simpl in *. now subst.
Qed.

End LockRegistry.

(** *** On the machine *)

(** lvmcache_init and the orphan VG of the text format. *)
Definition started : cache :=
  after (@lvmcache_init lvm2 clvmd_cmd;;
         @lvmcache_add_orphan_vginfo lvm2 "#orphans_lvm2" text_format) (boot machine).

(** lock("b") alone, after lock("a"); lock("b") were taken and released. *)
Definition b_held : cache :=
  after (@lvmcache_lock_vgname lvm2 "a";; @lvmcache_lock_vgname lvm2 "b";;
         @lvmcache_unlock_vgname lvm2 "a";; @lvmcache_unlock_vgname lvm2 "b";;
         @lvmcache_lock_vgname lvm2 "b") started.

Definition a_held : cache := after (@lvmcache_lock_vgname lvm2 "a") started.

(** lock("a") then lock("b") passes the order check. *)
Lemma verify_lock_order_a_then_b :
  @lvmcache_verify_lock_order lvm2 "b" a_held = Some (true, a_held).
Proof. vm_compute. reflexivity. Qed.

(** With "b" held, the check of "a" fails. *)
Lemma verify_lock_order_b_then_a :
  @lvmcache_verify_lock_order lvm2 "a" b_held = Some (false, b_held).
Proof. vm_compute. reflexivity. Qed.

Lemma lvmcache_verify_lock_order_fails_iff_witness :
  exists ok : bool,
    @lvmcache_verify_lock_order lvm2 "a" b_held = Some (ok, b_held)
    /\ (ok = false <->
        exists held, is_Some (({["b" := tt]} : gmap string unit) !! held)
                     /\ ~ @precedes lvm2 held "a").
Proof.
  apply (@lvmcache_verify_lock_order_fails_iff lvm2 "a" b_held {["b" := tt]});
    vm_compute; reflexivity.
Defined.

Lemma lock_unlock_round_trip_witness :
  (@lvmcache_lock_vgname lvm2 "vg0";; @lvmcache_unlock_vgname lvm2 "vg0") started
  = Some (tt, set_dev_size_seqno 1 started).
Proof.
  apply (@lock_unlock_round_trip lvm2 "vg0" started ∅).
  - vm_compute. reflexivity.
  - vm_compute. reflexivity.
  - intros names vginfo Hn Hv. exfalso.
    assert (E : _vgname_hash started = Some {["#orphans_lvm2" := 0%nat]})
      by (vm_compute; reflexivity).
    rewrite E in Hn. injection Hn as <-.
    rewrite lookup_singleton_ne in Hv; discriminate.
Defined.

(** C5, as stated, fails: "b" is not VG_GLOBAL and is not held, yet with
    "a" held lock("b"); unlock("b") leaves dev_size_seqno where it was. *)
Lemma lock_unlock_no_bump_counterexample :
  "b" ≠ @VG_GLOBAL lvm2
  /\ (default ∅ (_lock_hash a_held)) !! "b" = None
  /\ (@lvmcache_lock_vgname lvm2 "b";; @lvmcache_unlock_vgname lvm2 "b") a_held
     = Some (tt, a_held).
Proof. split; [discriminate|]. split; vm_compute; reflexivity. Qed.

(** ** Saved VGs *)

Section SavedVG.
Context `{Host}.

(** C10: lvmcache_drop_metadata returns and changes nothing when
    _saved_vg_hash was never created, and when VG_GLOBAL is in the lock
    table (VG_GLOBAL being no orphan name, so that it is looked up under
    its own name). *)
Theorem lvmcache_drop_metadata_noop (vgname : string) (drop_precommitted : bool)
    (s : cache) :
  _saved_vg_hash s = None
  \/ (is_orphan_vg (Some VG_GLOBAL) = false
      /\ exists tbl, _lock_hash s = Some tbl /\ is_Some (tbl !! VG_GLOBAL)) ->
  lvmcache_drop_metadata vgname drop_precommitted s = Some (tt, s).
Proof.
  intros [Hnone | (Horph & tbl & Hlock & Hheld)]; unfold lvmcache_drop_metadata.
  - unfold bind, gets. now rewrite Hnone.
  - unfold lvmcache_vgname_is_locked, bind, gets, ret. simpl.
    destruct (_saved_vg_hash s); [|reflexivity].
    rewrite Hlock, Horph. simpl. now rewrite bool_decide_eq_true_2.
Qed.

(** C6, what the code does: with the new copy committed and newer than the
    old one, lvmcache_get_saved_vg_latest returns the new copy, empties the
    old slot and puts the old copy at the end of the to-free list.  After
    that lvmcache_get_saved_vg(vgid, 0) returns NULL, not the new copy;
    lvmcache_get_saved_vg(vgid, 1) returns the new copy.  Neither later
    call changes anything. *)
Theorem get_saved_vg_after_latest (vgid : string) (s : cache)
    (tbl : gmap string saved_vg) (g : saved_vg) (v_old v_new : volume_group) :
  _saved_vg_hash s = Some tbl ->
  tbl !! dm_strncpy vgid (ID_LEN + 1) = Some g ->
  saved_vg_committed g = true ->
  saved_vg_old g = Some v_old ->
  saved_vg_new g = Some v_new ->
  vg_seqno v_old < vg_seqno v_new ->
  let g' := set_saved_vg_old None (set_saved_vg_to_free (saved_vg_to_free g ++ [v_old]) g) in
  let s' := set_saved_vg_hash (Some (<[dm_strncpy vgid (ID_LEN + 1) := g']> tbl)) s in
  lvmcache_get_saved_vg_latest vgid s = Some (Some v_new, s')
  /\ lvmcache_get_saved_vg vgid false s' = Some (None, s')
  /\ lvmcache_get_saved_vg vgid true s' = Some (Some v_new, s').
Proof.
  intros Hh Hg Hc Ho Hn Hlt g' s'. split; [|split].
  - unfold lvmcache_get_saved_vg_latest, _saved_vg_from_vgid, _saved_vg_inval, update_svg,
      read_svg, dm_hash_lookup, dm_hash_insert.
    unfold bind, ret, gets, modify, deref, undefined; simpl.
    repeat (progress (rewrite ?Hh, ?Hg, ?Hc, ?Ho, ?Hn, ?lookup_insert_eq,
                        ?bool_decide_eq_true_2 by done; simpl)).
    reflexivity.
  - unfold lvmcache_get_saved_vg, _saved_vg_from_vgid, _saved_vg_inval, update_svg,
      read_svg, dm_hash_lookup, dm_hash_insert.
    unfold bind, ret, gets, modify, deref, undefined; simpl.
    repeat (progress (rewrite ?lookup_insert_eq; simpl)).
    reflexivity.
  - unfold lvmcache_get_saved_vg, _saved_vg_from_vgid, _saved_vg_inval, update_svg,
      read_svg, dm_hash_lookup, dm_hash_insert.
    unfold bind, ret, gets, modify, deref, undefined; simpl.
    repeat (progress (rewrite ?Hn, ?lookup_insert_eq; simpl)).
    reflexivity.
Qed.

End SavedVG.

(** *** On the machine *)

Definition vg0_seqno5 : volume_group :=
  {| vg_addr := 1; vg_name := "vg0"; vg_id := "G1"; vg_seqno := 5;
     vg_saved_in_clvmd := false |}.

Definition vg0_seqno6 : volume_group :=
  {| vg_addr := 3; vg_name := "vg0"; vg_id := "G1"; vg_seqno := 6;
     vg_saved_in_clvmd := false |}.

(** The copies that lvmcache_save_vg keeps of them. *)
Definition saved_seqno5 : volume_group :=
  {| vg_addr := 2; vg_name := "vg0"; vg_id := "G1"; vg_seqno := 5;
     vg_saved_in_clvmd := true |}.

Definition saved_seqno6 : volume_group :=
  {| vg_addr := 4; vg_name := "vg0"; vg_id := "G1"; vg_seqno := 6;
     vg_saved_in_clvmd := true |}.

(** vg0 with id G1 on sda; save(old, 0); save(new, 1); commit. *)
Definition suspended : cache :=
  after (@lvmcache_add lvm2 text_labeller "P1" sda (Some "vg0") (Some "G1") 0;;
         @lvmcache_save_vg lvm2 vg0_seqno5 false;;
         @lvmcache_save_vg lvm2 vg0_seqno6 true;;
         @lvmcache_commit_metadata lvm2 "vg0") started.

Definition svg_G1 : saved_vg :=
  {| svg_vgid := "G1"; saved_vg_committed := true; saved_vg_old := Some saved_seqno5;
     saved_vg_new := Some saved_seqno6; saved_vg_to_free := [] |}.

Definition global_held : cache := after (@lvmcache_lock_vgname lvm2 "#global") suspended.

Lemma lvmcache_drop_metadata_noop_witness :
  @lvmcache_drop_metadata lvm2 "vg0" false (boot machine) = Some (tt, boot machine)
  /\ @lvmcache_drop_metadata lvm2 "vg0" false global_held = Some (tt, global_held).
Proof.
  split.
  - apply (@lvmcache_drop_metadata_noop lvm2). left. reflexivity.
  - apply (@lvmcache_drop_metadata_noop lvm2). right. split; [reflexivity|].
    exists {["#global" := tt]}. split; [vm_compute; reflexivity|].
    exists tt. vm_compute. reflexivity.
Defined.

Lemma get_saved_vg_after_latest_witness :
  let s' := after (@lvmcache_get_saved_vg_latest lvm2 "G1") suspended in
  @lvmcache_get_saved_vg_latest lvm2 "G1" suspended = Some (Some saved_seqno6, s')
  /\ @lvmcache_get_saved_vg lvm2 "G1" false s' = Some (None, s')
  /\ @lvmcache_get_saved_vg lvm2 "G1" true s' = Some (Some saved_seqno6, s').
Proof.
  pose proof (@get_saved_vg_after_latest lvm2 "G1" suspended {["G1" := svg_G1]} svg_G1
                saved_seqno5 saved_seqno6) as W.
  vm_compute in W. vm_compute.
  apply W; solve [reflexivity].
Defined.

(** ** The update pipeline *)

Section Update.
Context `{Host}.

(** C9: an info without usable metadata areas that sits in a VG which is
    no orphan VG, a summary that names an orphan VG, and a critical section
    in progress: lvmcache_update_vgname_and_id returns 1 and the cache,
    with all its indexes and memberships, is as before. *)
Theorem update_suppressed_in_critical_section (info vginfo : ptr) (i : lvmcache_info)
    (v : lvmcache_vginfo) (vgsummary : lvmcache_vgsummary) (s : cache) :
  info_heap s !! info = Some i ->
  info_vginfo i = Some vginfo ->
  vginfo_heap s !! vginfo = Some v ->
  mdas_empty_or_ignored (info_mdas i) = true ->
  is_orphan_vg (Some (vginfo_vgname v)) = false ->
  is_orphan_vg (vgs_vgname vgsummary) = true ->
  critical_section = true ->
  lvmcache_update_vgname_and_id info vgsummary s = Some (true, s).
Proof.
  intros Hi Hvg Hv Hmda Hreal Horph Hcrit.
  unfold lvmcache_update_vgname_and_id.
  rewrite (bind_eq _ _ _ _ _ (read_info_eq _ _ _ Hi)).
  rewrite Hvg.
  assert (E : (match vgs_vgname vgsummary with
               | Some _ | _ => (vgs_vgname vgsummary, vgs_vgid vgsummary)
               end) = (vgs_vgname vgsummary, vgs_vgid vgsummary))
    by (now destruct (vgs_vgname vgsummary)).
  rewrite E. clear E.
  unfold move_to_orphan_suppressed. rewrite Horph, Hvg, Hmda.
  rewrite (bind_eq _ _ _ _ _ (bind_eq _ _ _ _ _ (read_vginfo_eq _ _ _ Hv))).
  unfold ret at 1. now rewrite Hreal, Hcrit.
Qed.



Lemma strncmp_sym (a b : string) (n : nat) : strncmp a b n = 0 -> strncmp b a n = 0.
Proof. unfold strncmp. rewrite !strcmp_eq. congruence. Qed.

Lemma lock_state_vginfo (b : bool) (i : lvmcache_info) :
  info_vginfo (lock_state b i) = info_vginfo i.
Proof. now destruct b. Qed.

(** _drop_vginfo on an info that is in no vginfo, or in one that is kept
    when the info leaves it, an orphan vginfo or one with another member:
    the info is detached and no vginfo is freed. *)
Lemma _drop_vginfo_kept (info : ptr) (i : lvmcache_info) (s : cache) :
  info_heap s !! info = Some i ->
  (info_vginfo i = None
   \/ exists o ov, info_vginfo i = Some o /\ vginfo_heap s !! o = Some ov
                   /\ (is_orphan_vg (Some (vginfo_vgname ov)) = true
                       \/ filter (fun x => x ≠ info) (vginfo_infos ov) ≠ [])) ->
  exists sd,
    _drop_vginfo (Some info) (info_vginfo i) s = Some (true, sd)
    /\ info_heap sd = <[info := set_info_vginfo None i]> (info_heap s)
    /\ (forall p, info_vginfo i ≠ Some p -> vginfo_heap sd !! p = vginfo_heap s !! p)
    /\ (forall o ov, info_vginfo i = Some o -> vginfo_heap s !! o = Some ov ->
          vginfo_heap sd !! o
          = Some (set_vginfo_infos (filter (fun x => x ≠ info) (vginfo_infos ov)) ov))
    /\ _vgname_hash sd = _vgname_hash s
    /\ _vgid_hash sd = _vgid_hash s
    /\ _lock_hash sd = _lock_hash s
    /\ _pvid_hash sd = _pvid_hash s
    /\ dev_heap sd = dev_heap s.
Proof.
  intros Hi [Hnone|(o & ov & Ho & Hov & Hkept)].
  - exists (set_info_heap (<[info := set_info_vginfo None i]> (info_heap s)) s).
    split; [|split; [reflexivity|split; [reflexivity|split; [|repeat split]]]].
    + rewrite Hnone.
      unfold _drop_vginfo, _vginfo_detach_info, update_info, read_info,
        bind, gets, deref, modify, ret. simpl.
      rewrite Hi. simpl. rewrite Hnone. simpl. now rewrite Hi.
    + intros o ov Ho. congruence.
  - exists (set_info_heap (<[info := set_info_vginfo None i]> (info_heap s))
              (set_vginfo_heap
                 (<[o := set_vginfo_infos (filter (fun x => x ≠ info) (vginfo_infos ov)) ov]>
                    (vginfo_heap s)) s)).
    split; [|split; [reflexivity|split; [|split; [|repeat split]]]].
    + rewrite Ho.
      unfold _drop_vginfo, _vginfo_detach_info, update_info, update_vginfo, read_info,
        read_vginfo, bind, gets, deref, modify, ret. simpl.
      rewrite Hi. simpl. rewrite Ho. simpl. rewrite Hov. simpl. rewrite Hi. simpl.
      rewrite lookup_insert_eq. simpl.
      destruct Hkept as [Horph|Hmembers]; [now rewrite Horph|].
      rewrite (bool_decide_eq_false_2 _ Hmembers). simpl. now rewrite orb_true_r.
    + intros p Hp. simpl. rewrite lookup_insert_ne; [reflexivity|].
      intros <-. now apply Hp.
    + intros o' ov' Ho' Hov'. assert (o' = o) by congruence. subst o'.
      assert (ov' = ov) by congruence. subst ov'. simpl. now rewrite lookup_insert_eq.
Qed.

(** _lvmcache_update_vgname on an info that is in no vginfo, or in one of
    another name that is kept when the info leaves it, when the name index
    holds, for the name, a vginfo with the given vgid: the info joins that
    vginfo. *)
Lemma _lvmcache_update_vgname_joins (info vginfo : ptr) (vgname vgid : string)
    (vgstatus : Z) (creation_host : option string) (i : lvmcache_info)
    (v : lvmcache_vginfo) (names : gmap string ptr) (s : cache) :
  info_heap s !! info = Some i ->
  (info_vginfo i = None
   \/ exists o ov, info_vginfo i = Some o /\ vginfo_heap s !! o = Some ov
                   /\ vginfo_vgname ov ≠ vgname
                   /\ (is_orphan_vg (Some (vginfo_vgname ov)) = true
                       \/ filter (fun x => x ≠ info) (vginfo_infos ov) ≠ [])) ->
  _vgname_hash s = Some names ->
  names !! vgname = Some vginfo ->
  vginfo_heap s !! vginfo = Some v ->
  vginfo_vgname v = vgname ->
  strncmp (vginfo_vgid v) vgid ID_LEN = 0 ->
  (forall m, m ∈ vginfo_infos v -> is_Some (info_heap s !! m)) ->
  exists s1 i1,
    _lvmcache_update_vgname (Some info) (Some vgname) (Some vgid) vgstatus creation_host
      (info_fmt i) s = Some (true, s1)
    /\ info_heap s1 !! info = Some i1
    /\ info_vginfo i1 = Some vginfo
    /\ vginfo_heap s1 !! vginfo
       = Some (set_vginfo_fmt (Some (info_fmt i))
                 (set_vginfo_infos (vginfo_infos v ++ [info]) v))
    /\ _vgid_hash s1 = _vgid_hash s
    /\ info_dev i1 = info_dev i
    /\ _pvid_hash s1 = _pvid_hash s
    /\ dev_heap s1 = dev_heap s.
Proof.
  intros Hi Hplace Hnames Hname Hv Hvn Hvid Hlive.
  assert (Hplace' : info_vginfo i = None
                    \/ exists o ov, info_vginfo i = Some o /\ vginfo_heap s !! o = Some ov
                         /\ (is_orphan_vg (Some (vginfo_vgname ov)) = true
                             \/ filter (fun x => x ≠ info) (vginfo_infos ov) ≠ [])).
  { destruct Hplace as [Hnone|(o & ov & Ho & Hov & _ & Hkept)]; [now left|right].
    now exists o, ov. }
  destruct (_drop_vginfo_kept info i s Hi Hplace')
    as (sd & Hdrop & Hih & Hvh & _ & Hnh & Hidh & Hlh & Hph & Hdh).
  assert (Hvd : vginfo_heap sd !! vginfo = Some v).
  { rewrite Hvh; [exact Hv|].
    destruct Hplace as [Hnone|(o & ov & Ho & Hov & Hne & _)]; [congruence|].
    rewrite Ho. intros [= ->]. congruence. }
  pose (b := match _lock_hash s with
              | Some tbl =>
                  bool_decide (is_Some
                    (tbl !! (if is_orphan_vg (Some vgname) then VG_ORPHANS else vgname)))
              | None => false
              end).
  pose (sa := set_info_heap (alter (set_info_vginfo (Some vginfo)) info (info_heap sd)) sd).
  pose (va := set_vginfo_infos (vginfo_infos v ++ [info]) v).
  pose (sb := set_vginfo_heap (<[vginfo := va]> (vginfo_heap sa)) sa).
  pose (sc := set_info_heap
                (foldl (fun h p => alter (lock_state b) p h) (info_heap sb)
                   (vginfo_infos v ++ [info])) sb).
  assert (Hid : is_Some (info_heap sd !! info))
    by (rewrite Hih, lookup_insert_eq; eauto).
  exists (set_vginfo_heap (<[vginfo := set_vginfo_fmt (Some (info_fmt i)) va]>
                             (vginfo_heap sc)) sc),
    (lock_state b (set_info_vginfo (Some vginfo) (set_info_vginfo None i))).
  split; [|split; [|split; [|split; [|split; [|split; [|split]]]]]].
  - unfold _lvmcache_update_vgname.
    (* the info is not yet in a vginfo of that name *)
    unfold bind at 1. rewrite (bind_eq _ _ _ _ _ (read_info_eq _ _ _ Hi)).
    assert (Hsame : (match info_vginfo i with
                     | Some vginfo0 =>
                         v0 <- read_vginfo vginfo0;
                         ret (bool_decide (strcmp (vginfo_vgname v0) vgname = 0))
                     | None => ret false
                     end) s = Some (false, s)).
    { destruct Hplace as [->|(o & ov & -> & Hov & Hne & _)]; [reflexivity|].
      rewrite (bind_eq _ _ _ _ _ (read_vginfo_eq _ _ _ Hov)). unfold ret. do 2 f_equal.
      apply bool_decide_eq_false_2. intros E. apply strcmp_eq in E. congruence. }
    rewrite Hsame. clear Hsame.
    (* it leaves the vginfo it was in *)
    unfold bind at 1.
    rewrite (bind_eq _ _ _ _ _ (read_info_eq _ _ _ Hi)).
    rewrite (bind_eq _ _ _ _ _ Hdrop). unfold ret at 1.
    (* the vginfo of that name and vgid *)
    assert (Hfound : lvmcache_vginfo_from_vgname (Some vgname) (Some vgid) sd
                     = Some (Some vginfo, sd)).
    { unfold lvmcache_vginfo_from_vgname. unfold bind at 1. unfold gets at 1.
      rewrite Hnh, Hnames, Hname. unfold bind at 1. unfold gets at 1.
      assert (Hsz : size (vginfo_heap sd) ≠ 0%nat)
        by (apply (map_size_ne_0_lookup_2 _ vginfo); eauto).
      destruct (size (vginfo_heap sd)) as [|n]; [contradiction|].
      cbn [vginfo_from_vgname_loop].
      rewrite (bind_eq _ _ _ _ _ (read_vginfo_eq _ _ _ Hvd)).
      now rewrite decide_True by (now apply strncmp_sym). }
    rewrite (bind_eq _ _ _ _ _ Hfound). clear Hfound.
    unfold ret at 1. unfold bind at 1.
    (* the info is attached *)
    unfold _vginfo_attach_info. unfold bind at 1.
    rewrite (bind_eq _ _ _ _ _ (update_info_eq _ _ _ Hid)). fold sa.
    rewrite (update_vginfo_eq vginfo _ v sa Hvd). fold va. fold sb. cbv iota beta.
    (* the lock state of the members *)
    assert (Hlocked : lvmcache_vgname_is_locked vgname sb = Some (b, sb)).
    { unfold lvmcache_vgname_is_locked, bind, gets, ret.
      change (_lock_hash sb) with (_lock_hash sd). rewrite Hlh. unfold b.
      now destruct (_lock_hash s). }
    rewrite (bind_eq _ _ _ _ _ Hlocked).
    assert (Hlock : _update_cache_vginfo_lock_state vginfo b sb = Some (tt, sc)).
    { unfold _update_cache_vginfo_lock_state.
      assert (Hvb : vginfo_heap sb !! vginfo = Some va)
        by (simpl; now rewrite lookup_insert_eq).
      rewrite (bind_eq _ _ _ _ _ (read_vginfo_eq _ _ _ Hvb)).
      apply update_cache_lock_iterate. intros m Hm. simpl.
      destruct (decide (m = info)) as [->|Hne].
      - rewrite lookup_alter_eq. destruct Hid as [x ->]. simpl. eauto.
      - rewrite lookup_alter_ne by done. rewrite Hih, lookup_insert_ne by done.
        apply elem_of_app in Hm as [Hm|Hm]; [now apply Hlive|].
        apply list_elem_of_singleton in Hm. contradiction. }
    rewrite (bind_eq _ _ _ _ _ Hlock). clear Hlock.
    assert (Hvc : vginfo_heap sc !! vginfo = Some va)
      by (simpl; now rewrite lookup_insert_eq).
    rewrite (bind_eq _ _ _ _ _ (update_vginfo_eq vginfo _ va sc Hvc)).
    reflexivity.
  - simpl. rewrite lookup_foldl_alter by apply lock_state_idem.
    rewrite decide_True by (apply elem_of_app; right; left).
    rewrite lookup_alter_eq, Hih, lookup_insert_eq. reflexivity.
  - now rewrite lock_state_vginfo.
  - simpl. now rewrite lookup_insert_eq.
  - exact Hidh.
  - now destruct b.
  - exact Hph.
  - exact Hdh.
Qed.


End Update.

(** *** On the machine *)

(** A summary as lvmcache_add makes it, with a witness added. *)
Definition summary (vgname vgid : string) (seqno mda_checksum mda_size : Z)
  : lvmcache_vgsummary :=
  {| vgs_vgname := Some vgname; vgs_vgid := vgid; vgs_vgstatus := 0;
     vgs_creation_host := None; vgs_lock_type := None; vgs_system_id := None;
     vgs_seqno := seqno; vgs_mda_checksum := mda_checksum; vgs_mda_size := mda_size |}.

(** sda holds P1 of vg0 (id G1): the info is at address 1, the vginfo of
    vg0 at 2, the orphan vginfo at 0. *)
Definition vg0_on_sda : cache :=
  after (@lvmcache_add lvm2 text_labeller "P1" sda (Some "vg0") (Some "G1") 0) started.

Lemma update_suppressed_in_critical_section_witness :
  @lvmcache_update_vgname_and_id lvm2_critical 1%nat
    (summary "#orphans_lvm2" "#orphans_lvm2" 0 0 0) vg0_on_sda
  = Some (true, vg0_on_sda).
Proof.
  eapply (@update_suppressed_in_critical_section lvm2_critical 1%nat 2%nat);
    reflexivity.
Defined.

(** vg0 got its witness (seqno 5) from sda; sdb, with P2, was added as an
    orphan: its info is at address 3. *)
Definition vg0_seqno5_sdb_orphan : cache :=
  after (@lvmcache_update_vgname_and_id lvm2 1%nat (summary "vg0" "G1" 5 0xAAAA 1024);;
         @lvmcache_add lvm2 text_labeller "P2" sdb (Some "#orphans_lvm2")
           (Some "#orphans_lvm2") 0) vg0_on_sda.


(** The disagreement on the machine, from start to finish. *)
Lemma scan_mismatch_after_disagreement :
  let s' := after (@lvmcache_update_vgname_and_id lvm2 3%nat
                     (summary "vg0" "G1" 6 0xAAAA 1024)) vg0_seqno5_sdb_orphan in
  @lvmcache_update_vgname_and_id lvm2 3%nat (summary "vg0" "G1" 6 0xAAAA 1024)
    vg0_seqno5_sdb_orphan = Some (true, s')
  /\ (vginfo_scan_summary_mismatch <$> vginfo_heap s' !! 2%nat) = Some true
  /\ (vginfo_infos <$> vginfo_heap s' !! 2%nat) = Some [1%nat; 3%nat]
  /\ @lvmcache_scan_mismatch lvm2 (Some "vg0") (Some "G1") s' = Some (true, s').
Proof. vm_compute. repeat split. Qed.



(** ** Duplicate devices *)

Lemma substring_idem (n : nat) (s : string) :
  String.substring 0 n (String.substring 0 n s) = String.substring 0 n s.
Proof.
  revert s. induction n as [|n IH]; intros s.
  - now destruct s.
  - destruct s as [|c s]; [reflexivity|]. simpl. now rewrite IH.
Qed.

Lemma dm_strncpy_idem (n : nat) (s : string) : dm_strncpy (dm_strncpy s n) n = dm_strncpy s n.
Proof. unfold dm_strncpy. apply substring_idem. Qed.

Section Duplicates.
Context `{Host}.

Lemma lvmcache_info_from_pvid_eq (pvid : string) (info : ptr) (tbl : gmap string ptr)
    (s : cache) :
  _pvid_hash s = Some tbl ->
  tbl !! dm_strncpy pvid (ID_LEN + 1) = Some info ->
  lvmcache_info_from_pvid (Some pvid) None s = Some (Some info, s).
Proof.
  intros Hh Hi. unfold lvmcache_info_from_pvid, bind, gets, ret. simpl.
  now rewrite Hh, Hi.
Qed.

(** C1, amended: the pvid index holds, for pvid, an info whose device is
    not dev.  Then lvmcache_add returns NULL; it sets _found_duplicate_pvs,
    writes the pvid into dev->pvid and appends dev, and only dev, to
    _found_duplicate_devs, and changes nothing else: the pvid index still
    gives the same info, with the same device.  After it
    lvmcache_found_duplicate_pvs returns 1. *)
Theorem lvmcache_add_duplicate (labeller : labeller) (pvid : string) (dev info : ptr)
    (vgname vgid : option string) (vgstatus : Z) (s : cache) (tbl : gmap string ptr)
    (i : lvmcache_info) (d : device) :
  _pvid_hash s = Some tbl ->
  tbl !! dm_strncpy pvid (ID_LEN + 1) = Some info ->
  info_heap s !! info = Some i ->
  info_dev i ≠ dev ->
  dev_heap s !! dev = Some d ->
  let pvid_s := dm_strncpy pvid (ID_LEN + 1) in
  let s' :=
    set_found_duplicate_devs (_found_duplicate_devs s ++ [dev])
      (set_dev_heap (<[dev := set_dev_pvid (strncpy pvid_s (ID_LEN + 1)) d]> (dev_heap s))
         (set_found_duplicate_pvs true s)) in
  lvmcache_add labeller pvid dev vgname vgid vgstatus s = Some (None, s')
  /\ lvmcache_found_duplicate_pvs s' = Some (true, s')
  /\ lvmcache_info_from_pvid (Some pvid) None s' = Some (Some info, s')
  /\ (info_dev <$> info_heap s' !! info) = Some (info_dev i).
Proof.
  intros Hh Hi Hinfo Hne Hd pvid_s s'. split; [|split; [|split]].
  - unfold lvmcache_add. fold pvid_s.
    assert (Hi' : tbl !! dm_strncpy pvid_s (ID_LEN + 1) = Some info)
      by (unfold pvid_s; now rewrite dm_strncpy_idem).
    rewrite (bind_eq _ _ _ _ _ (lvmcache_info_from_pvid_eq pvid_s info tbl s Hh Hi')).
    unfold ret at 1. unfold bind at 1. unfold ret at 1. unfold bind at 1.
    rewrite (bind_eq _ _ _ _ _ (read_info_eq _ _ _ Hinfo)).
    rewrite (bool_decide_eq_true_2 _ Hne). cbn [negb andb].
    unfold bind at 1. unfold modify at 1.
    erewrite bind_eq by (eapply update_dev_eq; exact Hd).
    reflexivity.
  - reflexivity.
  - now apply (lvmcache_info_from_pvid_eq pvid info tbl).
  - simpl. now rewrite Hinfo.
Qed.

Lemma filter_duplicate_devs_loop_eq (dt : dev_types) (l : list ptr) (s : cache) :
  (forall dev, dev ∈ l -> is_Some (cached_major s dev)) ->
  filter_duplicate_devs_loop dt l s
  = Some (filter (fun dev => cached_major s dev ≠ Some (md_major dt)) l, s).
Proof.
  induction l as [|dev l IH]; intros Hl; [reflexivity|].
  assert (IH' := IH (fun x Hx => Hl x (list_elem_of_further _ _ _ Hx))). clear IH.
  destruct (Hl dev (list_elem_of_here _ _)) as [m Hm].
  rewrite filter_cons. rewrite Hm.
  unfold cached_major in Hm.
  destruct (dev_heap s !! dev) as [d|] eqn:Hd; [|discriminate]. simpl in Hm.
  destruct (_pvid_hash s) as [tbl|] eqn:Hh; [|discriminate]. simpl in Hm.
  destruct (tbl !! dm_strncpy (dev_pvid d) (ID_LEN + 1)) as [info|] eqn:Hi; [|discriminate].
  simpl in Hm.
  destruct (info_heap s !! info) as [i|] eqn:Hinfo; [|discriminate]. simpl in Hm.
  destruct (dev_heap s !! info_dev i) as [cached|] eqn:Hc; [|discriminate]. simpl in Hm.
  injection Hm as <-.
  cbn [filter_duplicate_devs_loop].
  rewrite (bind_eq _ _ _ _ _ (read_dev_eq _ _ _ Hd)).
  rewrite (bind_eq _ _ _ _ _ (lvmcache_info_from_pvid_eq _ _ _ _ Hh Hi)).
  unfold deref at 1. unfold ret at 1. unfold bind at 1.
  rewrite (bind_eq _ _ _ _ _ (read_info_eq _ _ _ Hinfo)).
  rewrite (bind_eq _ _ _ _ _ (read_dev_eq _ _ _ Hc)).
  destruct (decide (MAJOR (dev_dev cached) = md_major dt)) as [E|E].
  - rewrite IH'. rewrite decide_False; [done|]. intros X. apply X. now rewrite E.
  - rewrite (bind_eq _ _ _ _ _ IH'). rewrite decide_True; [done|]. congruence.
Qed.

(** C7, amended: when every entry of _unused_duplicate_devs has its pvid
    in the pvid index, _filter_duplicate_devs returns, changes nothing but
    that list, and takes off it the entries for which the device cached
    for the entry's pvid has the md major; the entry's own major number is
    not looked at.  The other entries stay, in their order. *)
Theorem _filter_duplicate_devs_by_cached_major (cmd : cmd_context) (s : cache) :
  (forall dev, dev ∈ _unused_duplicate_devs s -> is_Some (cached_major s dev)) ->
  _filter_duplicate_devs cmd s
  = Some (tt, set_unused_duplicate_devs
                (filter (fun dev => cached_major s dev ≠ Some (md_major (cmd_dev_types cmd)))
                   (_unused_duplicate_devs s)) s).
Proof.
  intros Hl. unfold _filter_duplicate_devs.
  unfold gets at 1. unfold bind at 1.
  now rewrite (bind_eq _ _ _ _ _ (filter_duplicate_devs_loop_eq _ _ _ Hl)).
Qed.

End Duplicates.

(** *** On the machine *)

(** The info of sda in [vg0_on_sda]. *)
Definition sda_in_vg0 : lvmcache_info :=
  {| info_mdas := []; info_vginfo := Some 2%nat;
     info_label := {| label_labeller := text_labeller |}; info_fmt := text_format;
     info_dev := sda; info_device_size := 0; info_ext_version := 0; info_ext_flags := 0;
     info_status := 0 |}.

Lemma lvmcache_add_duplicate_witness :
  let s' :=
    set_found_duplicate_devs [sdb]
      (set_dev_heap
         (<[sdb := set_dev_pvid "P1" (blank_device 0x810)]> (dev_heap vg0_on_sda))
         (set_found_duplicate_pvs true vg0_on_sda)) in
  @lvmcache_add lvm2 text_labeller "P1" sdb (Some "vg0") (Some "G1") 0 vg0_on_sda
  = Some (None, s')
  /\ lvmcache_found_duplicate_pvs s' = Some (true, s')
  /\ @lvmcache_info_from_pvid lvm2 (Some "P1") None s' = Some (Some 1%nat, s')
  /\ (info_dev <$> info_heap s' !! 1%nat) = Some sda.
Proof.
  pose proof (@lvmcache_add_duplicate lvm2 text_labeller "P1" sdb 1%nat (Some "vg0")
                (Some "G1") 0 vg0_on_sda {["P1" := 1%nat]} sda_in_vg0
                (blank_device 0x810)) as W.
  vm_compute in W. vm_compute.
  apply W; solve [reflexivity | discriminate].
Defined.

(** C1, as stated, fails: P1 is cached on sda and is then found on sdb.
    The call returns NULL and the index keeps sda, but only sdb is put on
    _found_duplicate_devs: sda, the device already cached, is not. *)
Lemma found_duplicate_devs_counterexample :
  let s' := after (@lvmcache_add lvm2 text_labeller "P1" sdb (Some "vg0") (Some "G1") 0)
              vg0_on_sda in
  (info_dev <$> info_heap vg0_on_sda !! 1%nat) = Some sda
  /\ @lvmcache_info_from_pvid lvm2 (Some "P1") None vg0_on_sda = Some (Some 1%nat, vg0_on_sda)
  /\ @lvmcache_add lvm2 text_labeller "P1" sdb (Some "vg0") (Some "G1") 0 vg0_on_sda
     = Some (None, s')
  /\ _found_duplicate_devs s' = [sdb]
  /\ sda ∉ _found_duplicate_devs s'.
Proof.
  vm_compute. repeat split. intros Hin. inversion Hin as [|? ? ? Hin']; subst.
  inversion Hin'.
Qed.

(** md0 holds P1 of vg0 and sda, a component of md0, shows the same
    pvid: the chooser keeps md0 and puts sda on _unused_duplicate_devs. *)
Definition md0_with_component : cache :=
  after (@lvmcache_add lvm2 text_labeller "P1" md0 (Some "vg0") (Some "G1") 0;;
         @lvmcache_add lvm2 text_labeller "P1" sda (Some "vg0") (Some "G1") 0;;
         @_choose_preferred_devs lvm2 clvmd_cmd [] []) started.

(** The other way round: sda is in use by an LV, so the chooser keeps sda
    and puts md0 on _unused_duplicate_devs. *)
Definition sda_used_for_lv : gmap ptr device :=
  <[sda := {| dev_dev := 0x800; dev_pvid := ""; dev_flags := 0x100 |}]> machine.

Definition sda_with_md0_unused : cache :=
  after (@lvmcache_init lvm2 clvmd_cmd;;
         @lvmcache_add lvm2 text_labeller "P1" sda (Some "vg0") (Some "G1") 0;;
         @lvmcache_add lvm2 text_labeller "P1" md0 (Some "vg0") (Some "G1") 0;;
         @_choose_preferred_devs lvm2 clvmd_cmd [] []) (boot sda_used_for_lv).

Lemma _filter_duplicate_devs_by_cached_major_witness :
  @_filter_duplicate_devs lvm2 clvmd_cmd md0_with_component
  = Some (tt, set_unused_duplicate_devs [] md0_with_component).
Proof.
  assert (Hl : forall dev, dev ∈ _unused_duplicate_devs md0_with_component ->
                 is_Some (@cached_major lvm2 md0_with_component dev)).
  { assert (E : _unused_duplicate_devs md0_with_component = [sda])
      by (vm_compute; reflexivity).
    rewrite E. intros dev Hin. apply list_elem_of_singleton in Hin. subst dev.
    exists 9. vm_compute. reflexivity. }
  pose proof (@_filter_duplicate_devs_by_cached_major lvm2 clvmd_cmd md0_with_component Hl)
    as W.
  refine (eq_trans W _). vm_compute. reflexivity.
Defined.

(** C7, as stated, fails both ways.  sda has major 8, not the md major 9,
    and is dropped from the list, because md0 is cached for its pvid; md0
    has the md major and stays on the list, because sda is cached for its
    pvid. *)
Lemma filter_duplicate_devs_counterexample :
  (_unused_duplicate_devs md0_with_component = [sda]
   /\ (@MAJOR lvm2 ∘ dev_dev <$> dev_heap md0_with_component !! sda) = Some 8
   /\ @_filter_duplicate_devs lvm2 clvmd_cmd md0_with_component
      = Some (tt, set_unused_duplicate_devs [] md0_with_component))
  /\ (_unused_duplicate_devs sda_with_md0_unused = [md0]
      /\ (@MAJOR lvm2 ∘ dev_dev <$> dev_heap sda_with_md0_unused !! md0)
         = Some (md_major (cmd_dev_types clvmd_cmd))
      /\ @_filter_duplicate_devs lvm2 clvmd_cmd sda_with_md0_unused
         = Some (tt, sda_with_md0_unused)).
Proof. vm_compute. repeat split. Qed.

(** ** Choosing among duplicates *)









Section Choose.
Context `{Host}.













End Choose.

(** *** On the machine *)

(** P1 is cached on md0 (info 1) and was then found on sda. *)
Definition md0_and_sda : cache :=
  after (@lvmcache_add lvm2 text_labeller "P1" md0 (Some "vg0") (Some "G1") 0;;
         @lvmcache_add lvm2 text_labeller "P1" sda (Some "vg0") (Some "G1") 0) started.

(** On the machine md0 stays: it is in a subsystem, sda is not. *)
Lemma choose_loop_keeps_md0 :
  @choose_loop lvm2 clvmd_cmd 1%nat [sda] 0 md0 0 md0_and_sda
  = Some ((md0, 0%nat), md0_and_sda).
Proof. vm_compute. reflexivity. Qed.

(** A machine on which sdb is in use by an LV. *)
Definition sdb_used_for_lv : gmap ptr device :=
  <[sdb := {| dev_dev := 0x810; dev_pvid := ""; dev_flags := 0x100 |}]> machine.

(** There, P1 is cached on sda (info 1) and was then found on sdb. *)
Definition sda_then_sdb : cache :=
  after (@lvmcache_init lvm2 clvmd_cmd;;
         @lvmcache_add_orphan_vginfo lvm2 "#orphans_lvm2" text_format;;
         @lvmcache_add lvm2 text_labeller "P1" sda (Some "vg0") (Some "G1") 0;;
         @lvmcache_add lvm2 text_labeller "P1" sdb (Some "vg0") (Some "G1") 0)
    (boot sdb_used_for_lv).


(** What it comes to there: sdb, in use by an LV, takes the place of
    sda. *)
Lemma choose_preferred_devs_swaps :
  @_choose_preferred_devs lvm2 clvmd_cmd [] [] sda_then_sdb
  = Some (([sda], [sdb]),
          set_unused_duplicate_devs [] (set_found_duplicate_devs [] sda_then_sdb)).
Proof. vm_compute. reflexivity. Qed.




(** ** Dropping entries *)

Lemma length_le_size {A} (h : gmap ptr A) (l : list ptr) :
  NoDup l -> (forall x, x ∈ l -> is_Some (h !! x)) -> (length l <= size h)%nat.
Proof.
  intros Hnd Hlive.
  rewrite <- (size_dom (D := gset ptr)), <- (size_list_to_set (C := gset ptr) l) by done.
  apply subseteq_size. intros x Hx. apply elem_of_list_to_set in Hx.
  apply elem_of_dom. auto.
Qed.

Lemma linked_live (h : gmap ptr lvmcache_vginfo) (p : ptr) (l : list ptr) (q : ptr) :
  linked h p l q -> forall x, x ∈ p :: l -> is_Some (h !! x).
Proof.
  revert p. induction l as [|p' l IH]; intros p Hl x Hx.
  - apply list_elem_of_singleton in Hx. subst x. simpl in Hl.
    destruct (h !! p); [eauto|discriminate].
  - destruct Hl as [Hp Hl]. apply elem_of_cons in Hx as [->|Hx].
    + destruct (h !! p); [eauto|discriminate].
    + now apply (IH p').
Qed.

Lemma linked_insert (h : gmap ptr lvmcache_vginfo) (p : ptr) (l : list ptr) (q x : ptr)
    (y : lvmcache_vginfo) :
  linked h p l q -> x ∉ p :: l -> linked (<[x := y]> h) p l q.
Proof.
  revert p. induction l as [|p' l IH]; intros p Hl Hx.
  - simpl in *. rewrite lookup_insert_ne; [done|]. intros ->. apply Hx. left.
  - destruct Hl as [Hp Hl]. split.
    + rewrite lookup_insert_ne; [done|]. intros ->. apply Hx. left.
    + apply IH; [done|]. intros Hin. apply Hx. now right.
Qed.

Lemma last_elem_of (p : ptr) (l : list ptr) : default p (last l) ∈ p :: l.
Proof.
  destruct (last l) as [x|] eqn:E; simpl.
  - right. apply last_Some in E as [l' ->]. apply elem_of_app. right. left.
  - left.
Qed.

Section Drop.
Context `{Host}.

Lemma _vginfo_detach_info_eq (info vginfo : ptr) (i : lvmcache_info) (v : lvmcache_vginfo)
    (s : cache) :
  info_heap s !! info = Some i ->
  info_vginfo i = Some vginfo ->
  vginfo_heap s !! vginfo = Some v ->
  _vginfo_detach_info info s
  = Some (tt, set_info_heap (<[info := set_info_vginfo None i]> (info_heap s))
                (set_vginfo_heap
                   (<[vginfo := set_vginfo_infos
                                  (filter (fun x => x ≠ info) (vginfo_infos v)) v]>
                      (vginfo_heap s)) s)).
Proof.
  intros Hi Hvg Hv. unfold _vginfo_detach_info.
  rewrite (bind_eq _ _ _ _ _ (read_info_eq _ _ _ Hi)). rewrite Hvg.
  rewrite (bind_eq _ _ _ _ _ (update_vginfo_eq _ _ _ _ Hv)).
  unfold update_info, read_info, bind, gets, deref, modify. simpl. now rewrite Hi.
Qed.

Lemma free_vginfo_unlink_linked (fuel : nat) (vginfo p : ptr) (l : list ptr)
    (v pv : lvmcache_vginfo) (s : cache) :
  linked (vginfo_heap s) p l vginfo ->
  vginfo ∉ l ->
  vginfo_heap s !! vginfo = Some v ->
  vginfo_heap s !! default p (last l) = Some pv ->
  (length l < fuel)%nat ->
  free_vginfo_unlink fuel vginfo (Some p) s
  = Some (tt, set_vginfo_heap
                (<[default p (last l) := set_vginfo_next (vginfo_next v) pv]> (vginfo_heap s))
                s).
Proof.
  revert p fuel. induction l as [|p' l IH]; intros p fuel Hlink Hnot Hv Hpv Hfuel.
  - destruct fuel as [|fuel]; [simpl in Hfuel; lia|].
    simpl in Hlink, Hpv. cbn [free_vginfo_unlink].
    rewrite (bind_eq _ _ _ _ _ (read_vginfo_eq _ _ _ Hpv)).
    rewrite Hpv in Hlink. simpl in Hlink. injection Hlink as Hlink.
    rewrite decide_True by done.
    rewrite (bind_eq _ _ _ _ _ (read_vginfo_eq _ _ _ Hv)).
    now apply update_vginfo_eq.
  - destruct fuel as [|fuel]; [simpl in Hfuel; lia|].
    destruct Hlink as [Hp Hlink].
    destruct (vginfo_heap s !! p) as [vp|] eqn:Evp; [|discriminate].
    simpl in Hp. injection Hp as Hp.
    cbn [free_vginfo_unlink].
    rewrite (bind_eq _ _ _ _ _ (read_vginfo_eq _ _ _ Evp)).
    rewrite Hp.
    rewrite decide_False.
    2:{ intros [= ->]. apply Hnot. left. }
    assert (Hlast : default p (last (p' :: l)) = default p' (last l)).
    { rewrite last_cons. now destruct (last l). }
    rewrite Hlast in *.
    apply IH; try done.
    + intros Hin. apply Hnot. now right.
    + simpl in Hfuel. lia.
Qed.

Lemma _free_vginfo_tail (vginfo : ptr) (v : lvmcache_vginfo) (s : cache) :
  is_Some (vginfo_heap s !! vginfo) ->
  (h <- gets _vgid_hash;
   (if bool_decide (vginfo_vgid v ≠ EmptyString) && bool_decide (is_Some h) then
      found <- lvmcache_vginfo_from_vgid (Some (vginfo_vgid v));
      if decide (found = Some vginfo) then dm_hash_remove VGID_HASH (vginfo_vgid v)
      else ret tt
    else ret tt);;
   modify (fun s => set_vginfos (filter (fun x => x ≠ vginfo) (_vginfos s)) s);;
   free_vginfo vginfo;;
   ret true) s
  = Some (true, freed vginfo v s).
Proof.
  intros [v' Hv']. unfold freed.
  unfold lvmcache_vginfo_from_vgid, dm_hash_remove, free_vginfo, read_vginfo,
    bind, gets, deref, modify, ret. simpl.
  destruct (_vgid_hash s) as [ids|] eqn:Hids.
  - destruct (bool_decide (vginfo_vgid v ≠ EmptyString)); simpl.
    + rewrite Hids. simpl.
      destruct (decide (ids !! dm_strncpy (vginfo_vgid v) (ID_LEN + 1) = Some vginfo))
        as [E|E].
      * rewrite (bool_decide_eq_true_2 _ E). rewrite Hids. simpl. now rewrite Hv'.
      * rewrite (bool_decide_eq_false_2 _ E). simpl. now rewrite Hv'.
    + now rewrite Hv'.
  - rewrite andb_false_r. simpl. now rewrite Hv'.
Qed.

Lemma _free_vginfo_primary (vginfo : ptr) (v : lvmcache_vginfo) (s : cache)
    (names : gmap string ptr) :
  vginfo_heap s !! vginfo = Some v ->
  _vgname_hash s = Some names ->
  names !! vginfo_vgname v = Some vginfo ->
  _free_vginfo vginfo s
  = Some (true, freed vginfo v
                  (set_vgname_hash
                     (Some (match vginfo_next v with
                            | Some next => <[vginfo_vgname v := next]> names
                            | None => delete (vginfo_vgname v) names
                            end)) s)).
Proof.
  intros Hv Hn Hp. unfold _free_vginfo.
  rewrite (bind_eq _ _ _ _ _ (read_vginfo_eq _ _ _ Hv)).
  assert (E : lvmcache_vginfo_from_vgname (Some (vginfo_vgname v)) None s
              = Some (Some vginfo, s)).
  { unfold lvmcache_vginfo_from_vgname, bind, gets, ret. now rewrite Hn, Hp. }
  rewrite (bind_eq _ _ _ _ _ E). rewrite decide_True by done.
  set (names' := match vginfo_next v with
                 | Some next => <[vginfo_vgname v := next]> names
                 | None => delete (vginfo_vgname v) names
                 end).
  assert (E2 : (dm_hash_remove VGNAME_HASH (vginfo_vgname v);;
                match vginfo_next v with
                | Some next => dm_hash_insert VGNAME_HASH (vginfo_vgname v) next
                | None => ret tt
                end) s = Some (tt, set_vgname_hash (Some names') s)).
  { unfold dm_hash_remove, dm_hash_insert, bind, gets, deref, modify, ret. simpl.
    rewrite Hn. simpl. unfold names'. destruct (vginfo_next v); simpl.
    - now rewrite insert_delete_eq.
    - reflexivity. }
  rewrite (bind_eq _ _ _ _ _ E2).
  apply _free_vginfo_tail. simpl. eauto.
Qed.

Lemma _free_vginfo_absent (vginfo : ptr) (v : lvmcache_vginfo) (s : cache)
    (names : gmap string ptr) :
  vginfo_heap s !! vginfo = Some v ->
  _vgname_hash s = Some names ->
  names !! vginfo_vgname v = None ->
  _free_vginfo vginfo s = Some (true, freed vginfo v s).
Proof.
  intros Hv Hn Hp. unfold _free_vginfo.
  rewrite (bind_eq _ _ _ _ _ (read_vginfo_eq _ _ _ Hv)).
  assert (E : lvmcache_vginfo_from_vgname (Some (vginfo_vgname v)) None s = Some (None, s)).
  { unfold lvmcache_vginfo_from_vgname, bind, gets, ret. now rewrite Hn, Hp. }
  rewrite (bind_eq _ _ _ _ _ E). rewrite decide_False by done.
  unfold gets at 1. unfold bind at 1. unfold bind at 1.
  assert (E0 : free_vginfo_unlink (size (vginfo_heap s)) vginfo None s = Some (tt, s))
    by (now destruct (size (vginfo_heap s))).
  rewrite E0.
  apply _free_vginfo_tail. eauto.
Qed.

Lemma _free_vginfo_mid_chain (vginfo primary : ptr) (l : list ptr)
    (v pv : lvmcache_vginfo) (s : cache) (names : gmap string ptr) :
  vginfo_heap s !! vginfo = Some v ->
  _vgname_hash s = Some names ->
  names !! vginfo_vgname v = Some primary ->
  linked (vginfo_heap s) primary l vginfo ->
  NoDup (primary :: l ++ [vginfo]) ->
  vginfo_heap s !! default primary (last l) = Some pv ->
  _free_vginfo vginfo s
  = Some (true, freed vginfo v
                  (set_vginfo_heap
                     (<[default primary (last l) := set_vginfo_next (vginfo_next v) pv]>
                        (vginfo_heap s)) s)).
Proof.
  intros Hv Hn Hp Hlink Hnd Hpv. unfold _free_vginfo.
  rewrite (bind_eq _ _ _ _ _ (read_vginfo_eq _ _ _ Hv)).
  assert (E : lvmcache_vginfo_from_vgname (Some (vginfo_vgname v)) None s
              = Some (Some primary, s)).
  { unfold lvmcache_vginfo_from_vgname, bind, gets, ret. now rewrite Hn, Hp. }
  rewrite (bind_eq _ _ _ _ _ E).
  assert (Hne : primary ≠ vginfo).
  { apply NoDup_cons in Hnd as [Hnd _]. intros ->. apply Hnd.
    apply elem_of_app. right. left. }
  rewrite decide_False by (intros [= ?]; done).
  unfold gets at 1. unfold bind at 1. unfold bind at 1.
  assert (Hnot : vginfo ∉ l).
  { apply NoDup_cons in Hnd as [_ Hnd]. apply NoDup_app in Hnd as (_ & Hnd & _).
    intros Hin. apply (Hnd _ Hin). left. }
  rewrite (free_vginfo_unlink_linked (size (vginfo_heap s)) vginfo primary l v pv s);
    try done.
  - apply _free_vginfo_tail. simpl.
    destruct (decide (vginfo = default primary (last l))) as [<-|Hd].
    + rewrite lookup_insert_eq. eauto.
    + rewrite lookup_insert_ne by done. eauto.
  - (* the chain fits in the heap *)
    assert (Hlen : (length (primary :: l ++ [vginfo]) <= size (vginfo_heap s))%nat).
    { apply length_le_size; [done|]. intros x Hx.
      rewrite app_comm_cons in Hx. apply elem_of_app in Hx as [Hx|Hx].
      - now apply (linked_live _ _ _ _ Hlink).
      - apply list_elem_of_singleton in Hx. subst x. eauto. }
    simpl in Hlen. rewrite length_app in Hlen. simpl in Hlen. lia.
Qed.

(** C8: _drop_vginfo(info, info->vginfo) takes info off the member list
    of its vginfo and sets info->vginfo to NULL.  The vginfo stays, and
    nothing else changes, when it is an orphan vginfo or still has members.
    Otherwise it is freed: it leaves the heap and _vginfos, the vgid index
    loses its entry if that points at it, and the name chain is rewired:
    if it is the primary, the name index takes its successor, or loses the
    name when there is none; if it is further down the chain, its
    predecessor takes over its next pointer; if the name index does not
    know the name, nothing is rewired.  The call returns 1 in all cases. *)
Theorem _drop_vginfo_detaches_and_frees (info vginfo : ptr) (i : lvmcache_info)
    (v : lvmcache_vginfo) (s : cache) (names : gmap string ptr) :
  info_heap s !! info = Some i ->
  info_vginfo i = Some vginfo ->
  vginfo_heap s !! vginfo = Some v ->
  _vgname_hash s = Some names ->
  let rest := filter (fun x => x ≠ info) (vginfo_infos v) in
  let v' := set_vginfo_infos rest v in
  let detached :=
    set_info_heap (<[info := set_info_vginfo None i]> (info_heap s))
      (set_vginfo_heap (<[vginfo := v']> (vginfo_heap s)) s) in
  (is_orphan_vg (Some (vginfo_vgname v)) = true \/ rest ≠ [] ->
   _drop_vginfo (Some info) (Some vginfo) s = Some (true, detached))
  /\ (is_orphan_vg (Some (vginfo_vgname v)) = false -> rest = [] ->
      (names !! vginfo_vgname v = Some vginfo ->
       _drop_vginfo (Some info) (Some vginfo) s
       = Some (true, freed vginfo v'
                       (set_vgname_hash
                          (Some (match vginfo_next v with
                                 | Some next => <[vginfo_vgname v := next]> names
                                 | None => delete (vginfo_vgname v) names
                                 end)) detached)))
      /\ (forall primary l pv,
            names !! vginfo_vgname v = Some primary ->
            linked (vginfo_heap s) primary l vginfo ->
            NoDup (primary :: l ++ [vginfo]) ->
            vginfo_heap s !! default primary (last l) = Some pv ->
            _drop_vginfo (Some info) (Some vginfo) s
            = Some (true, freed vginfo v'
                            (set_vginfo_heap
                               (<[default primary (last l) :=
                                    set_vginfo_next (vginfo_next v) pv]>
                                  (vginfo_heap detached)) detached)))
      /\ (names !! vginfo_vgname v = None ->
          _drop_vginfo (Some info) (Some vginfo) s
          = Some (true, freed vginfo v' detached))).
Proof.
  intros Hi Hvg Hv Hn rest v' detached.
  assert (Hdet : _vginfo_detach_info info s = Some (tt, detached))
    by (now apply _vginfo_detach_info_eq).
  assert (Hv' : vginfo_heap detached !! vginfo = Some v')
    by (simpl; now rewrite lookup_insert_eq).
  assert (Hrun : _drop_vginfo (Some info) (Some vginfo) s
                 = (if is_orphan_vg (Some (vginfo_vgname v))
                       || negb (bool_decide (rest = []))
                    then ret true
                    else _free_vginfo vginfo) detached).
  { unfold _drop_vginfo. rewrite (bind_eq _ _ _ _ _ Hdet).
    now rewrite (bind_eq _ _ _ _ _ (read_vginfo_eq _ _ _ Hv')). }
  rewrite Hrun. clear Hrun. split.
  - intros [Ho|Hr].
    + now rewrite Ho.
    + rewrite (bool_decide_eq_false_2 _ Hr). now rewrite orb_true_r.
  - intros Ho Hr. rewrite Ho, (bool_decide_eq_true_2 _ Hr). cbn [negb orb].
    split; [|split].
    + intros Hp. now apply (_free_vginfo_primary vginfo v' detached names).
    + intros primary l pv Hp Hlink Hnd Hpv.
      assert (Hnot : vginfo ∉ primary :: l).
      { rewrite app_comm_cons in Hnd. apply NoDup_app in Hnd as (_ & Hnd & _).
        intros Hin. apply (Hnd _ Hin). left. }
      assert (Hpred : default primary (last l) ≠ vginfo).
      { intros E. apply Hnot. rewrite <- E. apply last_elem_of. }
      apply (_free_vginfo_mid_chain vginfo primary l v' pv detached names); try done.
      * now apply linked_insert.
      * simpl. now rewrite lookup_insert_ne.
    + intros Hp. now apply (_free_vginfo_absent vginfo v' detached names).
Qed.

End Drop.

(** *** On the machine *)

(** Two VGs named vg0: G1 on sda (info 1, vginfo 2, the primary) and G2 on
    sdb (info 3, vginfo 4, next on the chain). *)
Definition two_vg0 : cache :=
  after (@lvmcache_add lvm2 text_labeller "P2" sdb (Some "vg0") (Some "G2") 0) vg0_on_sda.

Lemma _drop_vginfo_detaches_and_frees_witness :
  (* the orphan vginfo stays, empty *)
  (let s := vg0_seqno5_sdb_orphan in
   @_drop_vginfo lvm2 (Some 3%nat) (Some 0%nat) s
   = Some (true, after (@_drop_vginfo lvm2 (Some 3%nat) (Some 0%nat)) s)
   /\ (vginfo_infos <$> vginfo_heap (after (@_drop_vginfo lvm2 (Some 3%nat) (Some 0%nat)) s)
                          !! 0%nat) = Some [])
  (* the primary is freed *)
  /\ (let s := vg0_on_sda in
      @_drop_vginfo lvm2 (Some 1%nat) (Some 2%nat) s
      = Some (true, after (@_drop_vginfo lvm2 (Some 1%nat) (Some 2%nat)) s)
      /\ vginfo_heap (after (@_drop_vginfo lvm2 (Some 1%nat) (Some 2%nat)) s) !! 2%nat = None)
  (* the second of two is freed *)
  /\ (let s := two_vg0 in
      @_drop_vginfo lvm2 (Some 3%nat) (Some 4%nat) s
      = Some (true, after (@_drop_vginfo lvm2 (Some 3%nat) (Some 4%nat)) s)
      /\ (vginfo_next <$> vginfo_heap (after (@_drop_vginfo lvm2 (Some 3%nat) (Some 4%nat)) s)
                            !! 2%nat) = Some None).
Proof.
  split; [|split].
  - cbv zeta. set (s := vg0_seqno5_sdb_orphan).
    assert (H1 : info_heap s !! 3%nat = Some (info_at s 3%nat)) by (vm_compute; reflexivity).
    assert (H2 : info_vginfo (info_at s 3%nat) = Some 0%nat) by (vm_compute; reflexivity).
    assert (H3 : vginfo_heap s !! 0%nat = Some (vginfo_at s 0%nat))
      by (vm_compute; reflexivity).
    assert (H4 : _vgname_hash s = Some (default ∅ (_vgname_hash s)))
      by (vm_compute; reflexivity).
    assert (Ho : @is_orphan_vg lvm2 (Some (vginfo_vgname (vginfo_at s 0%nat))) = true)
      by (vm_compute; reflexivity).
    pose proof (proj1 (@_drop_vginfo_detaches_and_frees lvm2 3%nat 0%nat _ _ s _
                         H1 H2 H3 H4) (or_introl Ho)) as W.
    split; [|vm_compute; reflexivity].
    refine (eq_trans W _). vm_compute. reflexivity.
  - cbv zeta. set (s := vg0_on_sda).
    assert (H1 : info_heap s !! 1%nat = Some (info_at s 1%nat)) by (vm_compute; reflexivity).
    assert (H2 : info_vginfo (info_at s 1%nat) = Some 2%nat) by (vm_compute; reflexivity).
    assert (H3 : vginfo_heap s !! 2%nat = Some (vginfo_at s 2%nat))
      by (vm_compute; reflexivity).
    assert (H4 : _vgname_hash s = Some (default ∅ (_vgname_hash s)))
      by (vm_compute; reflexivity).
    assert (Ho : @is_orphan_vg lvm2 (Some (vginfo_vgname (vginfo_at s 2%nat))) = false)
      by (vm_compute; reflexivity).
    assert (Hr : filter (fun x => x ≠ 1%nat) (vginfo_infos (vginfo_at s 2%nat)) = [])
      by (vm_compute; reflexivity).
    assert (Hp : default ∅ (_vgname_hash s) !! vginfo_vgname (vginfo_at s 2%nat)
                 = Some 2%nat) by (vm_compute; reflexivity).
    pose proof (proj1 (proj2 (@_drop_vginfo_detaches_and_frees lvm2 1%nat 2%nat _ _ s _
                                H1 H2 H3 H4) Ho Hr) Hp) as W.
    split; [|vm_compute; reflexivity].
    refine (eq_trans W _). vm_compute. reflexivity.
  - cbv zeta. set (s := two_vg0).
    assert (H1 : info_heap s !! 3%nat = Some (info_at s 3%nat)) by (vm_compute; reflexivity).
    assert (H2 : info_vginfo (info_at s 3%nat) = Some 4%nat) by (vm_compute; reflexivity).
    assert (H3 : vginfo_heap s !! 4%nat = Some (vginfo_at s 4%nat))
      by (vm_compute; reflexivity).
    assert (H4 : _vgname_hash s = Some (default ∅ (_vgname_hash s)))
      by (vm_compute; reflexivity).
    assert (Ho : @is_orphan_vg lvm2 (Some (vginfo_vgname (vginfo_at s 4%nat))) = false)
      by (vm_compute; reflexivity).
    assert (Hr : filter (fun x => x ≠ 3%nat) (vginfo_infos (vginfo_at s 4%nat)) = [])
      by (vm_compute; reflexivity).
    assert (Hp : default ∅ (_vgname_hash s) !! vginfo_vgname (vginfo_at s 4%nat)
                 = Some 2%nat) by (vm_compute; reflexivity).
    assert (Hlink : linked (vginfo_heap s) 2%nat [] 4%nat) by (vm_compute; reflexivity).
    assert (Hnd : NoDup (2%nat :: [] ++ [4%nat])).
    { repeat constructor; intros Hin; inversion Hin as [|? ? ? Hin']; inversion Hin'. }
    assert (Hpv : vginfo_heap s !! default 2%nat (last []) = Some (vginfo_at s 2%nat))
      by (vm_compute; reflexivity).
    pose proof (proj1 (proj2 (proj2 (@_drop_vginfo_detaches_and_frees lvm2 3%nat 4%nat _ _ s _
                                       H1 H2 H3 H4) Ho Hr)) 2%nat [] _ Hp Hlink Hnd Hpv) as W.
    split; [|vm_compute; reflexivity].
    refine (eq_trans W _). vm_compute. reflexivity.
Defined.

(** * More of the cache *)

(** ** The lock registry *)

Section LockRegistryMore.
Context `{Host}.

(** X1.  _update_cache_info_lock_state touches one bit of info->status:
    bit 1 (CACHE_LOCKED) becomes the lock state asked for, every other bit
    is as before, and nothing else in the info or the cache changes. *)
Theorem lock_state_one_bit (info : ptr) (i : lvmcache_info) (locked : bool) (s : cache) :
  info_heap s !! info = Some i ->
  exists i',
    _update_cache_info_lock_state info locked s
    = Some (tt, set_info_heap (<[info := i']> (info_heap s)) s)
    /\ Z.testbit (info_status i') 1 = locked
    /\ (forall n, 0 <= n -> n ≠ 1 ->
        Z.testbit (info_status i') n = Z.testbit (info_status i) n)
    /\ set_info_status (info_status i) i' = i.
Proof.
  intros Hi. exists (lock_state locked i). split; [|split; [|split]].
  - unfold _update_cache_info_lock_state, update_info, read_info, bind, gets, deref, modify.
    simpl. now rewrite Hi.
  - unfold lock_state. destruct locked; unfold set_info_status; cbn [info_status].
    + rewrite Z.lor_spec. change (Z.testbit CACHE_LOCKED 1) with true. apply orb_true_r.
    + rewrite Z.land_spec. change (Z.testbit (Z.lnot CACHE_LOCKED) 1) with false.
      apply andb_false_r.
  - intros n Hn Hn1.
    assert (Hb : Z.testbit CACHE_LOCKED n = false).
    { change CACHE_LOCKED with (2 ^ 1). rewrite Z.pow2_bits_eqb by lia.
      apply Z.eqb_neq. lia. }
    unfold lock_state. destruct locked; unfold set_info_status; cbn [info_status].
    + rewrite Z.lor_spec, Hb. apply orb_false_r.
    + rewrite Z.land_spec, Z.lnot_spec, Hb by done. apply andb_true_r.
  - unfold lock_state. destruct i, locked; reflexivity.
Qed.

(** X2.  With the ordering checks switched off by
    lvmcache_lock_ordering(0), lvmcache_verify_lock_order accepts every
    name, whatever is held. *)
Theorem lock_ordering_off_accepts_all (vgname : string) (s : cache) :
  (lvmcache_lock_ordering false;; lvmcache_verify_lock_order vgname) s
  = Some (true, set_suppress_lock_ordering true s).
Proof. reflexivity. Qed.

(** X3.  lvmcache_lock_vgname on a name other than VG_GLOBAL, with the
    lock table there and the VG of that name, if the name index holds
    one, in place with its members: it returns, the name is in the lock
    table, _vgs_locked is one more, every member of the VG has
    CACHE_LOCKED set, and nothing else changes.  If the name is no orphan
    name, or is VG_ORPHANS itself, lvmcache_vgname_is_locked then
    answers 1. *)
Theorem lock_vgname_locks (vgname : string) (s : cache) (tbl : gmap string unit) :
  _lock_hash s = Some tbl ->
  strcmp vgname VG_GLOBAL ≠ 0 ->
  (forall info, info ∈ vg_members vgname s -> is_Some (info_heap s !! info)) ->
  (forall names vginfo,
     _vgname_hash s = Some names -> names !! vgname = Some vginfo ->
     is_Some (vginfo_heap s !! vginfo)) ->
  exists h,
    let s' := set_vgs_locked (_vgs_locked s + 1)
                (set_info_heap h (set_lock_hash (Some (<[vgname := tt]> tbl)) s)) in
    lvmcache_lock_vgname vgname s = Some (tt, s')
    /\ (forall info i,
          info ∈ vg_members vgname s -> info_heap s !! info = Some i ->
          h !! info = Some (set_info_status (Z.lor (info_status i) CACHE_LOCKED) i))
    /\ (forall info, info ∉ vg_members vgname s -> h !! info = info_heap s !! info)
    /\ (is_orphan_vg (Some vgname) = false \/ vgname = VG_ORPHANS ->
        lvmcache_vgname_is_locked vgname s' = Some (true, s')).
Proof.
  intros Hl Hng Hlive Hw.
  set (s1 := set_lock_hash (Some (<[vgname := tt]> tbl)) s).
  exists (foldl (fun h p => alter (lock_state true) p h) (info_heap s) (vg_members vgname s)).
  split; [|split; [|split]].
  - unfold lvmcache_lock_vgname.
    rewrite (bind_eq _ _ _ _ _ (dm_hash_lookup_eq LOCK_HASH vgname tbl s Hl)).
    rewrite (bind_eq _ _ _ _ _ (dm_hash_insert_eq LOCK_HASH vgname tt tbl s Hl)).
    rewrite decide_True by exact Hng.
    change (tbl_set LOCK_HASH (Some (<[vgname:=()]> tbl)) s) with s1.
    rewrite (bind_eq _ _ _ _ _ (update_cache_lock_state_eq vgname true s1 Hlive Hw)).
    reflexivity.
  - intros info i Hin Hi. rewrite lookup_foldl_alter by apply lock_state_idem.
    rewrite decide_True by exact Hin. now rewrite Hi.
  - intros info Hin. rewrite lookup_foldl_alter by apply lock_state_idem.
    now rewrite decide_False by exact Hin.
  - intros Hname. unfold lvmcache_vgname_is_locked, bind, gets, ret. simpl.
    do 2 f_equal. apply bool_decide_eq_true_2.
    destruct Hname as [Hreal| ->].
    + rewrite Hreal. rewrite lookup_insert_eq. eauto.
    + destruct (is_orphan_vg (Some VG_ORPHANS)); rewrite lookup_insert_eq; eauto.
Qed.

(** X4.  Orphan names share one lock: for an orphan name
    lvmcache_vgname_is_locked answers whether VG_ORPHANS is in the lock
    table, whatever the state of the name itself. *)
Theorem orphan_names_share_lock (vgname : string) (s : cache) (tbl : gmap string unit) :
  is_orphan_vg (Some vgname) = true ->
  _lock_hash s = Some tbl ->
  lvmcache_vgname_is_locked vgname s = Some (bool_decide (is_Some (tbl !! VG_ORPHANS)), s).
Proof.
  intros Ho Hl. unfold lvmcache_vgname_is_locked, bind, gets, ret. now rewrite Hl, Ho.
Qed.

End LockRegistryMore.

(** *** On the machine *)

Lemma lock_state_one_bit_witness :
  exists i',
    @_update_cache_info_lock_state 1%nat true vg0_on_sda
    = Some (tt, set_info_heap (<[1%nat := i']> (info_heap vg0_on_sda)) vg0_on_sda)
    /\ Z.testbit (info_status i') 1 = true
    /\ (forall n, 0 <= n -> n ≠ 1 ->
        Z.testbit (info_status i') n = Z.testbit (info_status (info_at vg0_on_sda 1%nat)) n)
    /\ set_info_status (info_status (info_at vg0_on_sda 1%nat)) i' = info_at vg0_on_sda 1%nat.
Proof.
  apply (lock_state_one_bit 1%nat (info_at vg0_on_sda 1%nat) true vg0_on_sda).
  vm_compute. reflexivity.
Defined.

Lemma lock_vgname_locks_witness :
  exists h,
    let s' := set_vgs_locked (_vgs_locked vg0_on_sda + 1)
                (set_info_heap h
                   (set_lock_hash (Some (<["vg0" := tt]> (default ∅ (_lock_hash vg0_on_sda))))
                      vg0_on_sda)) in
    @lvmcache_lock_vgname lvm2 "vg0" vg0_on_sda = Some (tt, s')
    /\ (forall info i,
          info ∈ vg_members "vg0" vg0_on_sda -> info_heap vg0_on_sda !! info = Some i ->
          h !! info = Some (set_info_status (Z.lor (info_status i) CACHE_LOCKED) i))
    /\ (forall info, info ∉ vg_members "vg0" vg0_on_sda ->
          h !! info = info_heap vg0_on_sda !! info)
    /\ (@is_orphan_vg lvm2 (Some "vg0") = false \/ "vg0" = @VG_ORPHANS lvm2 ->
        @lvmcache_vgname_is_locked lvm2 "vg0" s' = Some (true, s')).
Proof.
  assert (Hm : vg_members "vg0" vg0_on_sda = [1%nat]) by (vm_compute; reflexivity).
  apply (@lock_vgname_locks lvm2 "vg0" vg0_on_sda (default ∅ (_lock_hash vg0_on_sda))).
  - vm_compute. reflexivity.
  - vm_compute. discriminate.
  - rewrite Hm. intros info Hin. apply list_elem_of_singleton in Hin. subst info.
    vm_compute. eauto.
  - intros names vginfo Hn Hv.
    assert (E : vginfo = 2%nat).
    { assert (En : _vgname_hash vg0_on_sda = Some (default ∅ (_vgname_hash vg0_on_sda)))
        by (vm_compute; reflexivity).
      rewrite En in Hn. injection Hn as <-. vm_compute in Hv. congruence. }
    subst vginfo. vm_compute. eauto.
Defined.

(** sda holds P1 in the orphan VG of the text format, and VG_ORPHANS is
    locked. *)
Definition orphans_locked : cache :=
  after (@lvmcache_add lvm2 text_labeller "P1" sda (Some "#orphans_lvm2")
           (Some "#orphans_lvm2") 0;;
         @lvmcache_lock_vgname lvm2 "#orphans") started.

Lemma orphan_names_share_lock_witness :
  @lvmcache_vgname_is_locked lvm2 "#orphans_lvm2" orphans_locked
  = Some (bool_decide (is_Some (default ∅ (_lock_hash orphans_locked) !! @VG_ORPHANS lvm2)),
          orphans_locked).
Proof.
  apply (@orphan_names_share_lock lvm2 "#orphans_lvm2" orphans_locked).
  - vm_compute. reflexivity.
  - vm_compute. reflexivity.
Defined.

(** ** Unchosen duplicates *)

Section DuplicatesMore.
Context `{Host}.

Lemma _dev_in_device_list_elem_of (dev : ptr) (l : list ptr) :
  _dev_in_device_list dev l = true <-> dev ∈ l.
Proof.
  induction l as [|a l IH]; simpl.
  - split; [discriminate|]. intros Hin. inversion Hin.
  - destruct (decide (a = dev)) as [->|Hne].
    + split; [intros _; left|reflexivity].
    + rewrite IH. split; [now right|].
      intros Hin. apply elem_of_cons in Hin as [->|Hin]; [contradiction|exact Hin].
Qed.

(** X5.  lvmcache_remove_unchosen_duplicate takes the first entry for dev
    off _unused_duplicate_devs, and only that one: later entries for dev
    and the entries for other devices stay, in order; without an entry for
    dev nothing changes. *)
Theorem remove_unchosen_duplicate_first (dev : ptr) (s : cache) :
  exists l',
    lvmcache_remove_unchosen_duplicate dev s = Some (tt, set_unused_duplicate_devs l' s)
    /\ (((dev ∉ _unused_duplicate_devs s) /\ l' = _unused_duplicate_devs s)
        \/ exists l1 l2,
             _unused_duplicate_devs s = (l1 ++ dev :: l2)%list
             /\ (dev ∉ l1) /\ l' = (l1 ++ l2)%list).
Proof.
  exists (remove_unchosen dev (_unused_duplicate_devs s)). split; [reflexivity|].
  induction (_unused_duplicate_devs s) as [|a l IH]; simpl.
  - left. split; [|reflexivity]. intros Hin. inversion Hin.
  - destruct (decide (a = dev)) as [->|Hne].
    + right. exists [], l. split; [reflexivity|]. split; [|reflexivity].
      intros Hin. inversion Hin.
    + destruct IH as [[Hnot ->]|(l1 & l2 & -> & Hnot & ->)].
      * left. split; [|reflexivity]. intros Hin.
        apply elem_of_cons in Hin as [->|Hin]; [now apply Hne|contradiction].
      * right. exists (a :: l1), l2. split; [reflexivity|]. split; [|reflexivity].
        intros Hin. apply elem_of_cons in Hin as [->|Hin]; [now apply Hne|contradiction].
Qed.

(** X6.  lvmcache_pvid_in_unchosen_duplicates, with the devices on
    _unused_duplicate_devs in place: it answers 1 exactly when one of them
    carries a pvid that agrees with the given one on the first ID_LEN
    characters, and changes nothing. *)
Theorem pvid_in_unchosen_duplicates_iff (pvid : string) (s : cache) :
  (forall d, d ∈ _unused_duplicate_devs s -> is_Some (dev_heap s !! d)) ->
  exists b,
    lvmcache_pvid_in_unchosen_duplicates pvid s = Some (b, s)
    /\ (b = true <->
        exists d, d ∈ _unused_duplicate_devs s
                  /\ String.substring 0 ID_LEN (pvid_at s d) = String.substring 0 ID_LEN pvid).
Proof.
  intros Hlive. unfold lvmcache_pvid_in_unchosen_duplicates.
  unfold bind at 1. unfold gets at 1.
  induction (_unused_duplicate_devs s) as [|a l IH].
  - exists false. split; [reflexivity|]. split; [discriminate|].
    intros (d & Hd & _). inversion Hd.
  - destruct (Hlive a (list_elem_of_here _ _)) as [da Ha].
    assert (Ep : pvid_at s a = dev_pvid da) by (unfold pvid_at; now rewrite Ha).
    cbn [pvid_in_device_list].
    rewrite (bind_eq _ _ _ _ _ (read_dev_eq _ _ _ Ha)).
    destruct (decide (strncmp (dev_pvid da) pvid ID_LEN = 0)) as [E|E].
    + exists true. split; [reflexivity|]. split; [|reflexivity]. intros _.
      exists a. split; [left|]. rewrite Ep. now apply strcmp_eq.
    + destruct IH as (b & Hrun & Hb).
      { intros d Hd. apply Hlive. now right. }
      exists b. split; [exact Hrun|]. rewrite Hb. split.
      * intros (d & Hd & Hp). exists d. split; [now right|exact Hp].
      * intros (d & Hd & Hp). apply elem_of_cons in Hd as [->|Hd].
        -- exfalso. apply E. apply strcmp_eq. now rewrite <- Ep.
        -- exists d. now split.
Qed.

(** X7.  lvmcache_del_dev on a device that the cache does not hold:
    when the pvid index has no info for the pvid written on the device, or
    has one for another device (the device is a duplicate that was not
    chosen), nothing is deleted and the cache is as before. *)
Theorem lvmcache_del_dev_not_cached (dev : ptr) (d : device) (tbl : gmap string ptr)
    (s : cache) :
  dev_heap s !! dev = Some d ->
  _pvid_hash s = Some tbl ->
  (tbl !! dm_strncpy (dev_pvid d) (ID_LEN + 1) = None
   \/ exists info i,
        tbl !! dm_strncpy (dev_pvid d) (ID_LEN + 1) = Some info
        /\ info_heap s !! info = Some i /\ info_dev i ≠ dev) ->
  lvmcache_del_dev dev s = Some (tt, s).
Proof.
  intros Hd Hh Hcase. unfold lvmcache_del_dev.
  rewrite (bind_eq _ _ _ _ _ (read_dev_eq _ _ _ Hd)).
  unfold lvmcache_info_from_pvid. unfold bind at 1. unfold bind at 1. unfold gets at 1.
  rewrite Hh. destruct Hcase as [Hnone|(info & i & Hinfo & Hi & Hne)].
  - now rewrite Hnone.
  - rewrite Hinfo. rewrite (bind_eq _ _ _ _ _ (read_info_eq _ _ _ Hi)).
    now rewrite decide_True by exact Hne.
Qed.

End DuplicatesMore.

(** *** On the machine *)

Lemma pvid_in_unchosen_duplicates_iff_witness :
  exists b,
    @lvmcache_pvid_in_unchosen_duplicates lvm2 "P1" md0_with_component
    = Some (b, md0_with_component)
    /\ (b = true <->
        exists d, d ∈ _unused_duplicate_devs md0_with_component
                  /\ String.substring 0 (@ID_LEN lvm2) (pvid_at md0_with_component d)
                     = String.substring 0 (@ID_LEN lvm2) "P1").
Proof.
  apply (@pvid_in_unchosen_duplicates_iff lvm2 "P1" md0_with_component).
  assert (E : _unused_duplicate_devs md0_with_component = [sda]) by (vm_compute; reflexivity).
  rewrite E. intros d Hd. apply list_elem_of_singleton in Hd. subst d. vm_compute. eauto.
Defined.

Lemma lvmcache_del_dev_not_cached_witness :
  @lvmcache_del_dev lvm2 sda md0_with_component = Some (tt, md0_with_component).
Proof.
  assert (Hd : dev_heap md0_with_component !! sda
               = Some (default (blank_device 0) (dev_heap md0_with_component !! sda)))
    by (vm_compute; reflexivity).
  assert (Hh : _pvid_hash md0_with_component
               = Some (default ∅ (_pvid_hash md0_with_component)))
    by (vm_compute; reflexivity).
  apply (@lvmcache_del_dev_not_cached lvm2 sda _ _ md0_with_component Hd Hh).
  right. exists 1%nat, (info_at md0_with_component 1%nat).
  split; [vm_compute; reflexivity|]. split; [vm_compute; reflexivity|].
  vm_compute. discriminate.
Defined.

(** ** The saved VGs *)

Section SavedMore.
Context `{Host}.

(** X8.  Saving and getting back.  Nothing is saved yet for the vgid of
    vg, and export_import_vg makes the copy c.  Then lvmcache_save_vg puts
    c, marked saved_in_clvmd, into the slot asked for (new when
    precommitted, old otherwise) of a fresh entry under the vgid cut to
    ID_LEN characters, and the other slot stays empty:
    lvmcache_get_saved_vg gives c back for the same slot and NULL for the
    other, without changing anything. *)
Theorem save_vg_then_get (vg c : volume_group) (precommitted : bool)
    (tbl : gmap string saved_vg) (s : cache) :
  _saved_vg_hash s = Some tbl ->
  tbl !! dm_strncpy (vg_id vg) (ID_LEN + 1) = None ->
  export_import_vg vg = Some c ->
  let id := dm_strncpy (vg_id vg) (ID_LEN + 1) in
  let saved := set_vg_saved_in_clvmd true c in
  let s' := set_saved_vg_hash
              (Some (<[id := {| svg_vgid := id; saved_vg_committed := false;
                                saved_vg_old := if precommitted then None else Some saved;
                                saved_vg_new := if precommitted then Some saved else None;
                                saved_vg_to_free := [] |}]> tbl)) s in
  lvmcache_save_vg vg precommitted s = Some (tt, s')
  /\ lvmcache_get_saved_vg (vg_id vg) precommitted s' = Some (Some saved, s')
  /\ lvmcache_get_saved_vg (vg_id vg) (negb precommitted) s' = Some (None, s').
Proof.
  intros Hh Hnone Hc. cbv zeta. split; [|split].
  - unfold lvmcache_save_vg, _saved_vg_from_vgid, update_svg, read_svg, dm_hash_lookup,
      dm_hash_insert, bind, gets, deref, modify, ret. simpl.
    rewrite Hh. simpl. rewrite Hnone. simpl. rewrite Hh. simpl. rewrite Hc.
    destruct precommitted; simpl; rewrite lookup_insert_eq; simpl;
      now rewrite insert_insert_eq.
  - unfold lvmcache_get_saved_vg, _saved_vg_from_vgid, read_svg, dm_hash_lookup,
      bind, gets, deref, ret. simpl. rewrite lookup_insert_eq. simpl.
    rewrite lookup_insert_eq. simpl. now destruct precommitted.
  - unfold lvmcache_get_saved_vg, _saved_vg_from_vgid, read_svg, dm_hash_lookup,
      bind, gets, deref, ret. simpl. rewrite lookup_insert_eq. simpl.
    rewrite lookup_insert_eq. simpl. now destruct precommitted.
Qed.

(** X9.  Nothing to do if this seqno is saved already: when the slot
    asked for holds a copy with the seqno of vg, lvmcache_save_vg changes
    nothing; export_import_vg is not even called. *)
Theorem save_vg_same_seqno (vg saved : volume_group) (precommitted : bool)
    (tbl : gmap string saved_vg) (g : saved_vg) (s : cache) :
  _saved_vg_hash s = Some tbl ->
  tbl !! dm_strncpy (vg_id vg) (ID_LEN + 1) = Some g ->
  (if precommitted then saved_vg_new g else saved_vg_old g) = Some saved ->
  vg_seqno saved = vg_seqno vg ->
  lvmcache_save_vg vg precommitted s = Some (tt, s).
Proof.
  intros Hh Hg Hslot Hseq.
  unfold lvmcache_save_vg, _saved_vg_from_vgid, read_svg, dm_hash_lookup,
    bind, gets, deref, ret. simpl.
  rewrite Hh. simpl. rewrite Hg. simpl. rewrite Hh. simpl. rewrite Hg. simpl.
  destruct precommitted; simpl; rewrite Hslot; simpl; rewrite Hseq;
    now rewrite bool_decide_eq_true_2.
Qed.

(** X10.  lvmcache_drop_saved_vgid empties both slots of the entry for
    the vgid and keeps what they held on the to-free list, old before new,
    after what was there; the committed flag stays.  After it
    lvmcache_get_saved_vg returns NULL for either slot. *)
Theorem drop_saved_vgid_invalidates (vgid : string) (tbl : gmap string saved_vg)
    (g : saved_vg) (s : cache) :
  _saved_vg_hash s = Some tbl ->
  tbl !! dm_strncpy vgid (ID_LEN + 1) = Some g ->
  let g' := {| svg_vgid := svg_vgid g; saved_vg_committed := saved_vg_committed g;
               saved_vg_old := None; saved_vg_new := None;
               saved_vg_to_free :=
                 (saved_vg_to_free g ++ option_list (saved_vg_old g)
                    ++ option_list (saved_vg_new g))%list |} in
  let s' := set_saved_vg_hash (Some (<[dm_strncpy vgid (ID_LEN + 1) := g']> tbl)) s in
  lvmcache_drop_saved_vgid vgid s = Some (tt, s')
  /\ (forall precommitted, lvmcache_get_saved_vg vgid precommitted s' = Some (None, s')).
Proof.
  intros Hh Hg. cbv zeta. split.
  - assert (Eid : forall x : saved_vg,
              x = g -> set_saved_vg_hash (Some (<[dm_strncpy vgid (ID_LEN + 1) := x]> tbl)) s
                       = s).
    { intros x ->. rewrite insert_id by exact Hg. destruct s; simpl in *. now rewrite Hh. }
    unfold lvmcache_drop_saved_vgid, _saved_vg_from_vgid, _saved_vg_inval, update_svg,
      read_svg, dm_hash_lookup, dm_hash_insert, bind, gets, deref, modify, ret. simpl.
    rewrite Hh. simpl. rewrite Hg. simpl. rewrite Hh. simpl. rewrite Hg. simpl.
    destruct g as [id committed old new to_free]. simpl.
    destruct old as [o|], new as [n|];
      repeat (progress (rewrite ?Hh, ?Hg, ?lookup_insert_eq; simpl));
      rewrite ?insert_insert_eq, <- ?app_assoc, ?app_nil_r; try reflexivity.
    rewrite Eid; reflexivity.
  - intros precommitted.
    unfold lvmcache_get_saved_vg, _saved_vg_from_vgid, read_svg, dm_hash_lookup,
      bind, gets, deref, ret. simpl. rewrite lookup_insert_eq. simpl.
    rewrite lookup_insert_eq. simpl. now destruct precommitted.
Qed.

End SavedMore.

(** *** On the machine *)

Lemma save_vg_then_get_witness :
  let saved := saved_seqno5 in
  let s' := set_saved_vg_hash
              (Some (<["G1" := {| svg_vgid := "G1"; saved_vg_committed := false;
                                  saved_vg_old := Some saved; saved_vg_new := None;
                                  saved_vg_to_free := [] |}]> ∅)) vg0_on_sda in
  @lvmcache_save_vg lvm2 vg0_seqno5 false vg0_on_sda = Some (tt, s')
  /\ @lvmcache_get_saved_vg lvm2 "G1" false s' = Some (Some saved, s')
  /\ @lvmcache_get_saved_vg lvm2 "G1" true s' = Some (None, s').
Proof.
  apply (@save_vg_then_get lvm2 vg0_seqno5
           {| vg_addr := 2; vg_name := "vg0"; vg_id := "G1"; vg_seqno := 5;
              vg_saved_in_clvmd := false |} false ∅ vg0_on_sda);
    vm_compute; reflexivity.
Defined.

Lemma save_vg_same_seqno_witness :
  @lvmcache_save_vg lvm2 vg0_seqno5 false suspended = Some (tt, suspended).
Proof.
  apply (@save_vg_same_seqno lvm2 vg0_seqno5 saved_seqno5 false {["G1" := svg_G1]} svg_G1
           suspended); vm_compute; reflexivity.
Defined.

Lemma drop_saved_vgid_invalidates_witness :
  let g' := {| svg_vgid := "G1"; saved_vg_committed := true;
               saved_vg_old := None; saved_vg_new := None;
               saved_vg_to_free := [saved_seqno5; saved_seqno6] |} in
  let s' := set_saved_vg_hash (Some (<["G1" := g']> {["G1" := svg_G1]})) suspended in
  @lvmcache_drop_saved_vgid lvm2 "G1" suspended = Some (tt, s')
  /\ (forall precommitted,
        @lvmcache_get_saved_vg lvm2 "G1" precommitted s' = Some (None, s')).
Proof.
  apply (@drop_saved_vgid_invalidates lvm2 "G1" {["G1" := svg_G1]} svg_G1 suspended);
    vm_compute; reflexivity.
Defined.

(** ** Lookups, scanning and membership *)

(** The recorded mda of a vginfo is that of the summary, and the vginfo is
    no orphan vginfo: the test of lvmcache_lookup_mda. *)
Definition mda_matches `{Host} (vgsummary : lvmcache_vgsummary) (v : lvmcache_vginfo)
  : Prop :=
  vgs_mda_checksum vgsummary = vginfo_mda_checksum v
  /\ vgs_mda_size vgsummary = vginfo_mda_size v
  /\ is_orphan_vg (Some (vginfo_vgname v)) = false.

Section QueriesMore.
Context `{Host}.

(** X11.  lvmcache_lookup_mda, with the vginfos of _vginfos in place,
    returns without changing the cache.  It answers 0 when the summary has
    no mda_size or no vginfo on _vginfos matches; otherwise it answers 1
    and fills in name, vgid, status, creation host and seqno from the
    first vginfo on _vginfos that matches, leaving the other fields of the
    summary as they were. *)
Theorem lvmcache_lookup_mda_first_match (vgsummary : lvmcache_vgsummary) (s : cache) :
  (forall p, p ∈ _vginfos s -> is_Some (vginfo_heap s !! p)) ->
  exists r,
    lvmcache_lookup_mda vgsummary s = Some (r, s)
    /\ match r with
       | None =>
           vgs_mda_size vgsummary = 0
           \/ forall p v, p ∈ _vginfos s -> vginfo_heap s !! p = Some v ->
                ~ mda_matches vgsummary v
       | Some found =>
           vgs_mda_size vgsummary ≠ 0
           /\ exists pre p post v,
                _vginfos s = (pre ++ p :: post)%list
                /\ vginfo_heap s !! p = Some v
                /\ mda_matches vgsummary v
                /\ (forall q w, q ∈ pre -> vginfo_heap s !! q = Some w ->
                      ~ mda_matches vgsummary w)
                /\ found = {| vgs_vgname := Some (vginfo_vgname v);
                              vgs_vgid := strncpy (vginfo_vgid v) ID_LEN;
                              vgs_vgstatus := vginfo_status v;
                              vgs_creation_host := vginfo_creation_host v;
                              vgs_lock_type := vgs_lock_type vgsummary;
                              vgs_system_id := vgs_system_id vgsummary;
                              vgs_seqno := vginfo_seqno v;
                              vgs_mda_checksum := vgs_mda_checksum vgsummary;
                              vgs_mda_size := vgs_mda_size vgsummary |}
       end.
Proof.
  intros Hlive. unfold lvmcache_lookup_mda.
  destruct (decide (vgs_mda_size vgsummary = 0)) as [Hz|Hnz].
  { exists None. split; [reflexivity|now left]. }
  unfold bind at 1. unfold gets at 1.
  induction (_vginfos s) as [|p l IH].
  - exists None. split; [reflexivity|]. right. intros p v Hin. inversion Hin.
  - destruct (Hlive p (list_elem_of_here _ _)) as [v Hv].
    cbn [lookup_mda_loop]. rewrite (bind_eq _ _ _ _ _ (read_vginfo_eq _ _ _ Hv)).
    destruct (bool_decide (vgs_mda_checksum vgsummary = vginfo_mda_checksum v)
              && bool_decide (vgs_mda_size vgsummary = vginfo_mda_size v)
              && negb (is_orphan_vg (Some (vginfo_vgname v)))) eqn:Htest.
    + apply andb_true_iff in Htest as [Htest Ho].
      apply andb_true_iff in Htest as [Hc Hs].
      apply bool_decide_eq_true in Hc, Hs. apply negb_true_iff in Ho.
      eexists (Some _). split; [reflexivity|]. split; [exact Hnz|].
      exists [], p, l, v. split; [reflexivity|]. split; [exact Hv|].
      split; [now repeat split|]. split; [|reflexivity].
      intros q w Hq. inversion Hq.
    + assert (Hno : ~ mda_matches vgsummary v).
      { intros (Hc & Hs & Ho). rewrite (bool_decide_eq_true_2 _ Hc) in Htest.
        rewrite (bool_decide_eq_true_2 _ Hs) in Htest. rewrite Ho in Htest. discriminate. }
      destruct IH as (r & Hrun & Hr).
      { intros q Hq. apply Hlive. now right. }
      exists r. split; [exact Hrun|]. destruct r as [found|].
      * destruct Hr as (_ & pre & p' & post & v' & -> & Hv' & Hm & Hpre & ->).
        split; [exact Hnz|]. exists (p :: pre), p', post, v'.
        split; [reflexivity|]. split; [exact Hv'|]. split; [exact Hm|].
        split; [|reflexivity].
        intros q w Hq Hw. apply elem_of_cons in Hq as [->|Hq].
        -- assert (w = v) by congruence. now subst w.
        -- now apply (Hpre q w).
      * right. destruct Hr as [?|Hr]; [contradiction|].
        intros q w Hq Hw. apply elem_of_cons in Hq as [->|Hq].
        -- assert (w = v) by congruence. now subst w.
        -- now apply (Hr q w).
Qed.

(** X12.  Avoid recursion when a PVID can't be found: while a scan is in
    progress (and lvmetad is not used) lvmcache_label_scan returns 0 at
    once; it calls none of the scanning functions and leaves the cache,
    the flag included, as it is. *)
Theorem label_scan_no_recursion (label_scan_setup_bcache : M bool)
    (refresh_filters : cmd_context -> M bool) (label_scan : cmd_context -> M unit)
    (label_read : ptr -> M unit) (scan_formats : cmd_context -> M bool)
    (cmd : cmd_context) (s : cache) :
  lvmetad_used = false ->
  _scanning_in_progress s = true ->
  lvmcache_label_scan label_scan_setup_bcache refresh_filters label_scan label_read
    scan_formats cmd s = Some (false, s).
Proof.
  intros Hl Hs. unfold lvmcache_label_scan. rewrite Hl.
  unfold bind at 1. unfold gets at 1. now rewrite Hs.
Qed.

(** X13.  _vginfo_attach_info puts the info at the end of the members of
    the vginfo and makes it point there; _vginfo_detach_info undoes it:
    for an info that is in no vginfo and not among the members, attaching
    and then detaching gives back the cache as it was. *)
Theorem attach_detach_round_trip (vginfo info : ptr) (i : lvmcache_info)
    (v : lvmcache_vginfo) (s : cache) :
  info_heap s !! info = Some i ->
  info_vginfo i = None ->
  vginfo_heap s !! vginfo = Some v ->
  info ∉ vginfo_infos v ->
  let s1 := set_vginfo_heap
              (<[vginfo := set_vginfo_infos (vginfo_infos v ++ [info]) v]> (vginfo_heap s))
              (set_info_heap (<[info := set_info_vginfo (Some vginfo) i]> (info_heap s)) s) in
  _vginfo_attach_info (Some vginfo) info s = Some (tt, s1)
  /\ _vginfo_detach_info info s1 = Some (tt, s).
Proof.
  intros Hi Hnone Hv Hnot. cbv zeta. split.
  - unfold _vginfo_attach_info, update_info, update_vginfo, read_info, read_vginfo,
      bind, gets, deref, modify, ret. simpl. rewrite Hi. simpl. now rewrite Hv.
  - unfold _vginfo_detach_info, update_info, update_vginfo, read_info, read_vginfo,
      bind, gets, deref, modify, ret. simpl.
    repeat (progress (rewrite ?lookup_insert_eq; simpl)).
    rewrite !insert_insert_eq.
    assert (Ef : filter (fun x => x ≠ info) (vginfo_infos v ++ [info])%list
                 = vginfo_infos v).
    { rewrite filter_app. rewrite filter_cons, filter_nil.
      rewrite decide_False by (intros E; now apply E). rewrite app_nil_r.
      clear Hv. induction (vginfo_infos v) as [|a l IH]; [reflexivity|].
      rewrite filter_cons. rewrite decide_True.
      - rewrite IH; [reflexivity|]. intros Hin. apply Hnot. now right.
      - intros ->. apply Hnot. left. }
    rewrite Ef.
    assert (Ev : set_vginfo_infos (vginfo_infos v)
                   (set_vginfo_infos (vginfo_infos v ++ [info]) v) = v) by (now destruct v).
    assert (Ei : set_info_vginfo None (set_info_vginfo (Some vginfo) i) = i)
      by (destruct i; simpl in *; now subst).
    rewrite Ev, Ei. rewrite (insert_id _ _ _ Hv), (insert_id _ _ _ Hi).
    now destruct s.
Qed.

(** X14.  _lvmcache_update_vgid on a vginfo whose vgid differs from the
    given one in the first ID_LEN characters, with the vgid index there:
    it returns 1; the vginfo carries the given vgid cut to ID_LEN
    characters; the index loses the key of the old vgid, if that was not
    empty, and maps the new one to the vginfo, so that
    lvmcache_vginfo_from_vgid finds the vginfo; and a second call with the
    same vgid changes nothing. *)
Theorem _lvmcache_update_vgid_reindexes (info : option ptr) (vginfo : ptr) (vgid : string)
    (v : lvmcache_vginfo) (ids : gmap string ptr) (s : cache) :
  vginfo_heap s !! vginfo = Some v ->
  _vgid_hash s = Some ids ->
  strncmp (vginfo_vgid v) vgid ID_LEN ≠ 0 ->
  let id := dm_strncpy vgid (ID_LEN + 1) in
  let ids' :=
    <[id := vginfo]> (if bool_decide (vginfo_vgid v ≠ EmptyString)
                      then delete (vginfo_vgid v) ids else ids) in
  let s' := set_vgid_hash (Some ids')
              (set_vginfo_heap (<[vginfo := set_vginfo_vgid id v]> (vginfo_heap s)) s) in
  _lvmcache_update_vgid info (Some vginfo) (Some vgid) s = Some (true, s')
  /\ lvmcache_vginfo_from_vgid (Some vgid) s' = Some (Some vginfo, s')
  /\ (vginfo_vgid v ≠ EmptyString -> ids' !! vginfo_vgid v = None)
  /\ _lvmcache_update_vgid info (Some vginfo) (Some vgid) s' = Some (true, s').
Proof.
  intros Hv Hids Hne. cbv zeta.
  assert (Eid : dm_strncpy vgid (ID_LEN + 1) = String.substring 0 ID_LEN vgid)
    by (unfold dm_strncpy; now rewrite Nat.add_sub).
  split; [|split; [|split]].
  - unfold _lvmcache_update_vgid.
    rewrite (bind_eq _ _ _ _ _ (read_vginfo_eq _ _ _ Hv)).
    rewrite decide_False by exact Hne.
    unfold dm_hash_remove, dm_hash_insert, update_vginfo, read_vginfo,
      bind, gets, deref, modify, ret.
    destruct (bool_decide (vginfo_vgid v ≠ EmptyString));
      repeat (progress (rewrite ?Hids, ?Hv; simpl)); reflexivity.
  - unfold lvmcache_vginfo_from_vgid, bind, gets, ret. simpl.
    now rewrite lookup_insert_eq.
  - intros Hnonempty. rewrite (bool_decide_eq_true_2 _ Hnonempty).
    rewrite lookup_insert_ne; [apply lookup_delete_eq|].
    intros E. apply Hne. unfold strncmp. apply strcmp_eq.
    rewrite <- E. rewrite Eid. apply substring_idem.
  - unfold _lvmcache_update_vgid.
    assert (Hv' : vginfo_heap
                    (set_vgid_hash
                       (Some (<[dm_strncpy vgid (ID_LEN + 1) := vginfo]>
                                (if bool_decide (vginfo_vgid v ≠ EmptyString)
                                 then delete (vginfo_vgid v) ids else ids)))
                       (set_vginfo_heap
                          (<[vginfo := set_vginfo_vgid (dm_strncpy vgid (ID_LEN + 1)) v]>
                             (vginfo_heap s)) s)) !! vginfo
                  = Some (set_vginfo_vgid (dm_strncpy vgid (ID_LEN + 1)) v))
      by (simpl; now rewrite lookup_insert_eq).
    rewrite (bind_eq _ _ _ _ _ (read_vginfo_eq _ _ _ Hv')).
    rewrite decide_True; [reflexivity|].
    cbn [vginfo_vgid set_vginfo_vgid]. unfold strncmp. apply strcmp_eq.
    rewrite Eid. apply substring_idem.
Qed.

(** X15.  lvmcache_init returns 1 and leaves the five tables created and
    empty, the three lists empty and _vgs_locked at 0, except that a
    global lock held across the re-initialisation is restored: with
    _vg_global_lock_held set, VG_GLOBAL is in the lock table afterwards
    and the flag is cleared.  The table of saved VGs is created for clvmd
    only. *)
Theorem lvmcache_init_restores_global_lock (cmd : cmd_context) (s : cache) :
  exists s',
    lvmcache_init cmd s = Some (true, s')
    /\ _lock_hash s'
       = Some (if _vg_global_lock_held s then <[VG_GLOBAL := tt]> ∅ else ∅)
    /\ _vg_global_lock_held s' = false
    /\ _vgs_locked s' = 0
    /\ _pvid_hash s' = Some ∅ /\ _vgid_hash s' = Some ∅ /\ _vgname_hash s' = Some ∅
    /\ _saved_vg_hash s' = (if cmd_is_clvmd cmd then Some ∅ else _saved_vg_hash s)
    /\ _vginfos s' = [] /\ _found_duplicate_devs s' = [] /\ _unused_duplicate_devs s' = []
    /\ info_heap s' = info_heap s /\ vginfo_heap s' = vginfo_heap s
    /\ dev_heap s' = dev_heap s.
Proof.
  assert (E0 : strcmp VG_GLOBAL VG_GLOBAL = 0) by (now apply strcmp_eq).
  unfold lvmcache_init, lvmcache_lock_vgname, dm_hash_lookup, dm_hash_insert,
    bind, gets, deref, modify, ret.
  destruct (cmd_is_clvmd cmd), (_vg_global_lock_held s) eqn:Hheld; simpl;
    rewrite ?Hheld; simpl; rewrite ?decide_False by (intros E; now apply E);
    simpl; eexists; (split; [reflexivity|]); simpl; rewrite ?Hheld; repeat split.
Qed.

End QueriesMore.

(** *** On the machine *)

(** The summary that a second device of vg0 brings: the mda of seqno 5. *)
Definition mda_query : lvmcache_vgsummary :=
  {| vgs_vgname := None; vgs_vgid := ""; vgs_vgstatus := 0; vgs_creation_host := None;
     vgs_lock_type := None; vgs_system_id := None; vgs_seqno := 0;
     vgs_mda_checksum := 0xAAAA; vgs_mda_size := 1024 |}.

Lemma lvmcache_lookup_mda_first_match_witness :
  exists r,
    @lvmcache_lookup_mda lvm2 mda_query vg0_seqno5_sdb_orphan
    = Some (r, vg0_seqno5_sdb_orphan)
    /\ match r with
       | None =>
           vgs_mda_size mda_query = 0
           \/ forall p v,
                p ∈ _vginfos vg0_seqno5_sdb_orphan ->
                vginfo_heap vg0_seqno5_sdb_orphan !! p = Some v ->
                ~ @mda_matches lvm2 mda_query v
       | Some found =>
           vgs_mda_size mda_query ≠ 0
           /\ exists pre p post v,
                _vginfos vg0_seqno5_sdb_orphan = (pre ++ p :: post)%list
                /\ vginfo_heap vg0_seqno5_sdb_orphan !! p = Some v
                /\ @mda_matches lvm2 mda_query v
                /\ (forall q w, q ∈ pre -> vginfo_heap vg0_seqno5_sdb_orphan !! q = Some w ->
                      ~ @mda_matches lvm2 mda_query w)
                /\ found = {| vgs_vgname := Some (vginfo_vgname v);
                              vgs_vgid := strncpy (vginfo_vgid v) (@ID_LEN lvm2);
                              vgs_vgstatus := vginfo_status v;
                              vgs_creation_host := vginfo_creation_host v;
                              vgs_lock_type := vgs_lock_type mda_query;
                              vgs_system_id := vgs_system_id mda_query;
                              vgs_seqno := vginfo_seqno v;
                              vgs_mda_checksum := vgs_mda_checksum mda_query;
                              vgs_mda_size := vgs_mda_size mda_query |}
       end.
Proof.
  apply (@lvmcache_lookup_mda_first_match lvm2 mda_query vg0_seqno5_sdb_orphan).
  assert (E : _vginfos vg0_seqno5_sdb_orphan = [2%nat; 0%nat]) by (vm_compute; reflexivity).
  rewrite E. intros p Hp.
  apply elem_of_cons in Hp as [->|Hp]; [vm_compute; eauto|].
  apply list_elem_of_singleton in Hp. subst p. vm_compute. eauto.
Defined.

(** What it finds there: vg0, with its id and seqno. *)
Lemma lvmcache_lookup_mda_finds_vg0 :
  @lvmcache_lookup_mda lvm2 mda_query vg0_seqno5_sdb_orphan
  = Some (Some (summary "vg0" "G1" 5 0xAAAA 1024), vg0_seqno5_sdb_orphan).
Proof. vm_compute. reflexivity. Qed.

Lemma label_scan_no_recursion_witness :
  @lvmcache_label_scan lvm2 undefined (fun _ => undefined) (fun _ => undefined)
    (fun _ => undefined) (fun _ => undefined) clvmd_cmd
    (set_scanning_in_progress true started)
  = Some (false, set_scanning_in_progress true started).
Proof. apply (@label_scan_no_recursion lvm2); reflexivity. Defined.

(** The state in which lvmcache_add finds a new info before it places it:
    here the info of sda, taken out of vg0. *)
Definition sda_detached : cache := after (_vginfo_detach_info 1%nat) vg0_on_sda.

Lemma attach_detach_round_trip_witness :
  let s1 := set_vginfo_heap
              (<[2%nat := set_vginfo_infos [1%nat] (vginfo_at sda_detached 2%nat)]>
                 (vginfo_heap sda_detached))
              (set_info_heap
                 (<[1%nat := set_info_vginfo (Some 2%nat) (info_at sda_detached 1%nat)]>
                    (info_heap sda_detached)) sda_detached) in
  _vginfo_attach_info (Some 2%nat) 1%nat sda_detached = Some (tt, s1)
  /\ _vginfo_detach_info 1%nat s1 = Some (tt, sda_detached).
Proof.
  assert (Hi : info_heap sda_detached !! 1%nat = Some (info_at sda_detached 1%nat))
    by (vm_compute; reflexivity).
  assert (Hv : vginfo_heap sda_detached !! 2%nat = Some (vginfo_at sda_detached 2%nat))
    by (vm_compute; reflexivity).
  refine (attach_detach_round_trip 2%nat 1%nat _ _ sda_detached Hi _ Hv _).
  - vm_compute. reflexivity.
  - assert (E : vginfo_infos (vginfo_at sda_detached 2%nat) = []) by (vm_compute; reflexivity).
    rewrite E. intros Hin. inversion Hin.
Defined.

Lemma _lvmcache_update_vgid_reindexes_witness :
  let ids' := <["G2" := 2%nat]> (delete "G1" (default ∅ (_vgid_hash vg0_on_sda))) in
  let s' := set_vgid_hash (Some ids')
              (set_vginfo_heap
                 (<[2%nat := set_vginfo_vgid "G2" (vginfo_at vg0_on_sda 2%nat)]>
                    (vginfo_heap vg0_on_sda)) vg0_on_sda) in
  @_lvmcache_update_vgid lvm2 (Some 1%nat) (Some 2%nat) (Some "G2") vg0_on_sda
  = Some (true, s')
  /\ @lvmcache_vginfo_from_vgid lvm2 (Some "G2") s' = Some (Some 2%nat, s')
  /\ (vginfo_vgid (vginfo_at vg0_on_sda 2%nat) ≠ EmptyString ->
      ids' !! vginfo_vgid (vginfo_at vg0_on_sda 2%nat) = None)
  /\ @_lvmcache_update_vgid lvm2 (Some 1%nat) (Some 2%nat) (Some "G2") s' = Some (true, s').
Proof.
  assert (Hv : vginfo_heap vg0_on_sda !! 2%nat = Some (vginfo_at vg0_on_sda 2%nat))
    by (vm_compute; reflexivity).
  assert (Hids : _vgid_hash vg0_on_sda = Some (default ∅ (_vgid_hash vg0_on_sda)))
    by (vm_compute; reflexivity).
  refine (@_lvmcache_update_vgid_reindexes lvm2 (Some 1%nat) 2%nat "G2" _ _ vg0_on_sda
            Hv Hids _).
  vm_compute. discriminate.
Defined.

(** ** Adding a device *)

Section AddMore.
Context `{Host}.

(** X16.  lvmcache_add of a device whose pvid is new to the cache, for a
    VG that the cache holds.  Neither the pvid nor the pvid written on the
    device so far is in the pvid index; the name index holds, for the
    name, a vginfo with that vgid whose members are in place.  Then
    lvmcache_add returns a new info; after it the pvid index gives that
    info for the pvid, the info carries the device and points at the
    vginfo, it is the last member of the vginfo, whose other members stay,
    and the pvid, cut to ID_LEN characters, is written on the device. *)
Theorem lvmcache_add_joins_vg (labeller : labeller) (pvid : string) (dev vginfo : ptr)
    (vgname vgid : string) (vgstatus : Z) (d : device) (v : lvmcache_vginfo)
    (tbl names : gmap string ptr) (s : cache) :
  _pvid_hash s = Some tbl ->
  tbl !! dm_strncpy pvid (ID_LEN + 1) = None ->
  dev_heap s !! dev = Some d ->
  tbl !! dm_strncpy (dev_pvid d) (ID_LEN + 1) = None ->
  info_heap s !! next_ptr s = None ->
  is_orphan_vg (Some vgname) = false ->
  _vgname_hash s = Some names ->
  names !! vgname = Some vginfo ->
  vginfo_heap s !! vginfo = Some v ->
  vginfo_vgname v = vgname ->
  strncmp (vginfo_vgid v) vgid ID_LEN = 0 ->
  (forall m, m ∈ vginfo_infos v -> is_Some (info_heap s !! m)) ->
  let info := next_ptr s in
  exists s' i',
    lvmcache_add labeller pvid dev (Some vgname) (Some vgid) vgstatus s
    = Some (Some info, s')
    /\ lvmcache_info_from_pvid (Some pvid) None s' = Some (Some info, s')
    /\ info_heap s' !! info = Some i'
    /\ info_dev i' = dev
    /\ info_vginfo i' = Some vginfo
    /\ vginfo_heap s' !! vginfo
       = Some (set_vginfo_fmt (Some (labeller_fmt labeller))
                 (set_vginfo_infos (vginfo_infos v ++ [info]) v))
    /\ dev_heap s' !! dev
       = Some (set_dev_pvid (strncpy (dm_strncpy pvid (ID_LEN + 1)) (ID_LEN + 1)) d).
Proof.
  intros Hh Hnew Hd Hold Hfresh Hreal Hnames Hname Hv Hvn Hvid Hlive info.
  set (pvid_s := dm_strncpy pvid (ID_LEN + 1)) in *.
  set (i0 := {| info_mdas := []; info_vginfo := None;
                info_label := {| label_labeller := labeller |};
                info_fmt := labeller_fmt labeller; info_dev := dev; info_device_size := 0;
                info_ext_version := 0; info_ext_flags := 0; info_status := 0 |}).
  set (tbl' := if bool_decide (dev_pvid d ≠ EmptyString) then delete (dev_pvid d) tbl
               else tbl).
  set (sa := set_pvid_hash (Some (<[pvid_s := info]> tbl'))
               (set_dev_heap (<[dev := set_dev_pvid (strncpy pvid_s (ID_LEN + 1)) d]>
                                (dev_heap s))
                  (set_next_ptr (S info)
                     (set_info_heap (<[info := i0]> (info_heap s)) s)))).
  assert (Hia : info_heap sa !! info = Some i0) by (simpl; now rewrite lookup_insert_eq).
  assert (Hvid' : strncmp (vginfo_vgid v) (strncpy vgid ID_LEN) ID_LEN = 0).
  { unfold strncmp, strncpy in *. apply strcmp_eq. apply strcmp_eq in Hvid.
    now rewrite substring_idem. }
  destruct (_lvmcache_update_vgname_joins info vginfo vgname (strncpy vgid ID_LEN) vgstatus
              None i0 v names sa Hia (or_introl eq_refl) Hnames Hname Hv Hvn Hvid')
    as (s1 & i1 & Hstep1 & Hi1 & Hvg1 & Hv1 & Hids & Hdev1 & Hp1 & Hd1).
  { intros m Hm. simpl. destruct (decide (m = info)) as [->|Hne].
    - rewrite lookup_insert_eq. eauto.
    - rewrite lookup_insert_ne by done. now apply Hlive. }
  assert (Hupdate : lvmcache_update_vgname_and_id info
                      (add_vgsummary (Some vgname) (Some vgid) vgstatus) sa
                    = Some (true, s1)).
  { unfold lvmcache_update_vgname_and_id.
    rewrite (bind_eq _ _ _ _ _ (read_info_eq _ _ _ Hia)).
    cbn [add_vgsummary vgs_vgname vgs_vgid vgs_vgstatus vgs_creation_host vgs_seqno
           vgs_mda_size vgs_mda_checksum info_vginfo i0 info_fmt].
    unfold move_to_orphan_suppressed. rewrite Hreal. unfold ret at 1. unfold bind at 1.
    rewrite (bind_eq _ _ _ _ _ Hstep1). cbn [negb].
    rewrite (bind_eq _ _ _ _ _ (read_info_eq _ _ _ Hi1)). rewrite Hvg1.
    assert (Hstep2 : _lvmcache_update_vgid (Some info) (Some vginfo)
                       (Some (strncpy vgid ID_LEN)) s1 = Some (true, s1)).
    { unfold _lvmcache_update_vgid.
      rewrite (bind_eq _ _ _ _ _ (read_vginfo_eq _ _ _ Hv1)).
      now rewrite decide_True by exact Hvid'. }
    rewrite (bind_eq _ _ _ _ _ Hstep2). reflexivity. }
  exists s1, i1. split; [|split; [|split; [|split; [|split; [|split]]]]].
  - unfold lvmcache_add. fold pvid_s.
    assert (Hnone : forall p, tbl !! dm_strncpy p (ID_LEN + 1) = None ->
                      lvmcache_info_from_pvid (Some p) None s = Some (None, s)).
    { intros p Hp. unfold lvmcache_info_from_pvid, bind, gets, ret. simpl.
      now rewrite Hh, Hp. }
    assert (Hnew' : tbl !! dm_strncpy pvid_s (ID_LEN + 1) = None)
      by (unfold pvid_s; rewrite dm_strncpy_idem; exact Hnew).
    rewrite (bind_eq _ _ _ _ _ (Hnone pvid_s Hnew')).
    unfold bind at 1. rewrite (bind_eq _ _ _ _ _ (read_dev_eq _ _ _ Hd)).
    rewrite (Hnone (dev_pvid d) Hold).
    unfold _create_info, alloc_info.
    unfold bind at 1. unfold bind at 1. unfold bind at 1. unfold gets at 1.
    unfold bind at 1. unfold modify at 1. unfold ret at 1. unfold ret at 1.
    fold info. fold i0.
    set (s0 := set_next_ptr (S info) (set_info_heap (<[info := i0]> (info_heap s)) s)).
    assert (Hi0 : info_heap s0 !! info = Some i0) by (simpl; now rewrite lookup_insert_eq).
    rewrite (bind_eq _ _ _ _ _ (read_info_eq _ _ _ Hi0)).
    cbn [negb andb]. unfold ret at 1. unfold bind at 1.
    assert (Hlookup : dm_hash_lookup PVID_HASH pvid_s s0 = Some (None, s0)).
    { rewrite (dm_hash_lookup_eq PVID_HASH pvid_s tbl s0 Hh).
      now rewrite Hnew. }
    rewrite (bind_eq _ _ _ _ _ Hlookup).
    change (info_dev i0) with dev.
    assert (Hd0 : dev_heap s0 !! dev = Some d) by exact Hd.
    rewrite (bind_eq _ _ _ _ _ (read_dev_eq _ _ _ Hd0)).
    rewrite bool_decide_eq_false_2 by discriminate. cbn [andb].
    assert (Hindex : ((if bool_decide (dev_pvid d ≠ EmptyString)
                       then dm_hash_remove PVID_HASH (dev_pvid d) else ret tt);;
                      update_dev dev (set_dev_pvid (strncpy pvid_s (ID_LEN + 1)));;
                      dm_hash_insert PVID_HASH pvid_s info) s0 = Some (tt, sa)).
    { unfold dm_hash_remove, dm_hash_insert, update_dev, read_dev, bind, gets, deref,
        modify, ret. unfold sa, tbl', s0.
      destruct (bool_decide (dev_pvid d ≠ EmptyString));
        repeat (progress (rewrite ?Hh, ?Hd; simpl)); reflexivity. }
    rewrite (bind_eq _ _ _ _ _ Hindex).
    rewrite (bind_eq _ _ _ _ _ Hupdate). reflexivity.
  - unfold lvmcache_info_from_pvid, bind, gets, ret. rewrite Hp1. simpl.
    fold pvid_s. now rewrite lookup_insert_eq.
  - exact Hi1.
  - exact Hdev1.
  - exact Hvg1.
  - exact Hv1.
  - rewrite Hd1. simpl. now rewrite lookup_insert_eq.
Qed.

End AddMore.

(** *** On the machine *)

Lemma lvmcache_add_joins_vg_witness :
  let info := next_ptr vg0_on_sda in
  exists s' i',
    @lvmcache_add lvm2 text_labeller "P2" sdb (Some "vg0") (Some "G1") 0 vg0_on_sda
    = Some (Some info, s')
    /\ @lvmcache_info_from_pvid lvm2 (Some "P2") None s' = Some (Some info, s')
    /\ info_heap s' !! info = Some i'
    /\ info_dev i' = sdb
    /\ info_vginfo i' = Some 2%nat
    /\ vginfo_heap s' !! 2%nat
       = Some (set_vginfo_fmt (Some (labeller_fmt text_labeller))
                 (set_vginfo_infos (vginfo_infos (vginfo_at vg0_on_sda 2%nat) ++ [info])
                    (vginfo_at vg0_on_sda 2%nat)))
    /\ dev_heap s' !! sdb
       = Some (set_dev_pvid (strncpy (dm_strncpy "P2" (@ID_LEN lvm2 + 1)) (@ID_LEN lvm2 + 1))
                 (blank_device 0x810)).
Proof.
  assert (Hm : vginfo_infos (vginfo_at vg0_on_sda 2%nat) = [1%nat])
    by (vm_compute; reflexivity).
  refine (@lvmcache_add_joins_vg lvm2 text_labeller "P2" sdb 2%nat "vg0" "G1" 0
            (blank_device 0x810) (vginfo_at vg0_on_sda 2%nat)
            (default ∅ (_pvid_hash vg0_on_sda)) (default ∅ (_vgname_hash vg0_on_sda))
            vg0_on_sda _ _ _ _ _ _ _ _ _ _ _ _); try (vm_compute; reflexivity).
  rewrite Hm. intros m Hin. apply list_elem_of_singleton in Hin. subst m.
  vm_compute. eauto.
Defined.

(** The VG then has both PVs: P1 on sda and P2 on sdb. *)
Lemma lvmcache_add_second_pv :
  let s' := after (@lvmcache_add lvm2 text_labeller "P2" sdb (Some "vg0") (Some "G1") 0)
              vg0_on_sda in
  vg_members "vg0" s' = [1%nat; 3%nat]
  /\ (info_dev <$> info_heap s' !! 3%nat) = Some sdb.
Proof. vm_compute. split; reflexivity. Qed.

(** ** VGs that share a name, commit, and deleting *)

(** [chain h p rest]: in the heap h the vginfos of one name, from p
    through rest, each pointing at the next with vginfo->next, the last
    one at NULL. *)
Fixpoint chain (h : gmap ptr lvmcache_vginfo) (p : ptr) (rest : list ptr) : Prop :=
  match rest with
  | [] => (vginfo_next <$> h !! p) = Some None
  | q :: rest' => (vginfo_next <$> h !! p) = Some (Some q) /\ chain h q rest'
  end.

(** The vgid recorded at an address agrees with vgid on the first ID_LEN
    characters. *)
Definition vgid_matches `{Host} (h : gmap ptr lvmcache_vginfo) (vgid : string) (p : ptr)
  : Prop :=
  exists v, h !! p = Some v /\ strncmp vgid (vginfo_vgid v) ID_LEN = 0.

Lemma chain_live (h : gmap ptr lvmcache_vginfo) (p : ptr) (rest : list ptr) :
  chain h p rest -> forall x, x ∈ p :: rest -> is_Some (h !! x).
Proof.
  revert p. induction rest as [|q rest IH]; intros p Hc x Hx.
  - apply list_elem_of_singleton in Hx. subst x. simpl in Hc.
    destruct (h !! p); [eauto|discriminate].
  - destruct Hc as [Hp Hc]. apply elem_of_cons in Hx as [->|Hx].
    + destruct (h !! p); [eauto|discriminate].
    + now apply (IH q).
Qed.

Section ChainMore.
Context `{Host}.

Lemma vginfo_from_vgname_loop_first (vgid : string) (s : cache) (rest : list ptr)
    (p : ptr) (fuel : nat) :
  chain (vginfo_heap s) p rest ->
  (length rest < fuel)%nat ->
  exists r,
    vginfo_from_vgname_loop fuel vgid p s = Some (r, s)
    /\ match r with
       | Some q =>
           exists pre post,
             p :: rest = (pre ++ q :: post)%list
             /\ vgid_matches (vginfo_heap s) vgid q
             /\ forall x, x ∈ pre -> ~ vgid_matches (vginfo_heap s) vgid x
       | None => forall x, x ∈ p :: rest -> ~ vgid_matches (vginfo_heap s) vgid x
       end.
Proof.
  revert p fuel. induction rest as [|q rest IH]; intros p fuel Hc Hfuel.
  - destruct fuel as [|fuel]; [simpl in Hfuel; lia|].
    simpl in Hc. destruct (vginfo_heap s !! p) as [v|] eqn:Hv; [|discriminate].
    injection Hc as Hnext.
    cbn [vginfo_from_vgname_loop]. rewrite (bind_eq _ _ _ _ _ (read_vginfo_eq _ _ _ Hv)).
    destruct (decide (strncmp vgid (vginfo_vgid v) ID_LEN = 0)) as [E|E].
    + exists (Some p). split; [reflexivity|]. exists [], []. split; [reflexivity|].
      split; [now exists v|]. intros x Hx. inversion Hx.
    + rewrite Hnext. exists None. split; [reflexivity|]. intros x Hx.
      apply list_elem_of_singleton in Hx. subst x. intros (w & Hw & Hm). congruence.
  - destruct fuel as [|fuel]; [simpl in Hfuel; lia|].
    destruct Hc as [Hp Hc].
    destruct (vginfo_heap s !! p) as [v|] eqn:Hv; [|discriminate].
    injection Hp as Hnext.
    cbn [vginfo_from_vgname_loop]. rewrite (bind_eq _ _ _ _ _ (read_vginfo_eq _ _ _ Hv)).
    destruct (decide (strncmp vgid (vginfo_vgid v) ID_LEN = 0)) as [E|E].
    + exists (Some p). split; [reflexivity|]. exists [], (q :: rest).
      split; [reflexivity|]. split; [now exists v|]. intros x Hx. inversion Hx.
    + rewrite Hnext. destruct (IH q fuel Hc) as (r & Hrun & Hr); [simpl in Hfuel; lia|].
      assert (Hno : ~ vgid_matches (vginfo_heap s) vgid p)
        by (intros (w & Hw & Hm); congruence).
      exists r. split; [exact Hrun|]. destruct r as [q'|].
      * destruct Hr as (pre & post & E' & Hm & Hpre).
        exists (p :: pre), post. split; [simpl; now rewrite E'|]. split; [exact Hm|].
        intros x Hx. apply elem_of_cons in Hx as [->|Hx]; [exact Hno|now apply Hpre].
      * intros x Hx. apply elem_of_cons in Hx as [->|Hx]; [exact Hno|now apply Hr].
Qed.

(** X17.  VG names are not unique: the name index holds the first vginfo
    of a name, and the others follow it by vginfo->next.  On such a chain
    that ends and visits no vginfo twice, lvmcache_vginfo_from_vgname with
    a vgid returns, without changing the cache, the first vginfo of the
    chain whose vgid agrees on the first ID_LEN characters, and NULL when
    there is none. *)
Theorem vginfo_from_vgname_first_on_chain (vgname vgid : string) (names : gmap string ptr)
    (p : ptr) (rest : list ptr) (s : cache) :
  _vgname_hash s = Some names ->
  names !! vgname = Some p ->
  chain (vginfo_heap s) p rest ->
  NoDup (p :: rest) ->
  exists r,
    lvmcache_vginfo_from_vgname (Some vgname) (Some vgid) s = Some (r, s)
    /\ match r with
       | Some q =>
           exists pre post,
             p :: rest = (pre ++ q :: post)%list
             /\ vgid_matches (vginfo_heap s) vgid q
             /\ forall x, x ∈ pre -> ~ vgid_matches (vginfo_heap s) vgid x
       | None => forall x, x ∈ p :: rest -> ~ vgid_matches (vginfo_heap s) vgid x
       end.
Proof.
  intros Hnames Hp Hc Hnd. unfold lvmcache_vginfo_from_vgname.
  unfold bind at 1. unfold gets at 1. rewrite Hnames, Hp.
  unfold bind at 1. unfold gets at 1.
  apply vginfo_from_vgname_loop_first; [exact Hc|].
  pose proof (length_le_size (vginfo_heap s) (p :: rest) Hnd (chain_live _ _ _ Hc)) as L.
  simpl in L. lia.
Qed.

End ChainMore.

Section CommitMore.
Context `{Host}.

(** X18.  lvmcache_commit_metadata on the name of a cached VG for which
    something is saved sets saved_vg_committed on the entry and changes
    nothing else.  It decides which copy lvmcache_get_saved_vg_latest
    hands out: the old one before, the precommitted one after. *)
Theorem commit_metadata_switches_latest (vgname : string) (names : gmap string ptr)
    (vginfo : ptr) (v : lvmcache_vginfo) (tbl : gmap string saved_vg) (g : saved_vg)
    (s : cache) :
  _vgname_hash s = Some names ->
  names !! vgname = Some vginfo ->
  vginfo_heap s !! vginfo = Some v ->
  _saved_vg_hash s = Some tbl ->
  tbl !! dm_strncpy (vginfo_vgid v) (ID_LEN + 1) = Some g ->
  saved_vg_committed g = false ->
  let id := dm_strncpy (vginfo_vgid v) (ID_LEN + 1) in
  let s' := set_saved_vg_hash (Some (<[id := set_saved_vg_committed true g]> tbl)) s in
  lvmcache_commit_metadata vgname s = Some (tt, s')
  /\ lvmcache_get_saved_vg_latest (vginfo_vgid v) s = Some (saved_vg_old g, s)
  /\ exists s'', lvmcache_get_saved_vg_latest (vginfo_vgid v) s' = Some (saved_vg_new g, s'').
Proof.
  intros Hnames Hname Hv Hh Hg Hc. cbv zeta. split; [|split].
  - unfold lvmcache_commit_metadata, lvmcache_vginfo_from_vgname, _saved_vg_from_vgid,
      update_svg, read_svg, read_vginfo, dm_hash_lookup, dm_hash_insert,
      bind, gets, deref, modify, ret. simpl.
    repeat (progress (rewrite ?Hnames, ?Hname, ?Hv, ?Hh, ?Hg; simpl)). reflexivity.
  - unfold lvmcache_get_saved_vg_latest, _saved_vg_from_vgid, read_svg, dm_hash_lookup,
      bind, gets, deref, ret. simpl.
    repeat (progress (rewrite ?Hh, ?Hg, ?Hc; simpl)).
    now destruct (saved_vg_old g).
  - unfold lvmcache_get_saved_vg_latest, _saved_vg_from_vgid, _saved_vg_inval, update_svg,
      read_svg, dm_hash_lookup, dm_hash_insert, bind, gets, deref, modify, ret. simpl.
    repeat (progress (rewrite ?lookup_insert_eq; simpl)).
    destruct (saved_vg_new g) as [n|], (saved_vg_old g) as [o|] eqn:Ho; simpl; eauto.
    destruct (bool_decide (vg_seqno o < vg_seqno n)); simpl; eauto.
    repeat (progress (rewrite ?lookup_insert_eq, ?Ho; simpl)). eauto.
Qed.

(** X19.  lvmcache_drop_metadata when it does drop: the table of saved
    VGs is there, VG_GLOBAL is not locked, the name is not VG_ORPHANS and
    belongs to a cached VG with a saved entry.  With drop_precommitted only
    the new slot is emptied; otherwise both slots and the to-free list
    are.  Nothing else changes: the VG stays in the cache. *)
Theorem drop_metadata_empties_slots (vgname : string) (drop_precommitted : bool)
    (names : gmap string ptr) (vginfo : ptr) (v : lvmcache_vginfo)
    (tbl : gmap string saved_vg) (g : saved_vg) (s : cache) :
  _saved_vg_hash s = Some tbl ->
  lvmcache_vgname_is_locked VG_GLOBAL s = Some (false, s) ->
  strcmp vgname VG_ORPHANS ≠ 0 ->
  _vgname_hash s = Some names ->
  names !! vgname = Some vginfo ->
  vginfo_heap s !! vginfo = Some v ->
  tbl !! dm_strncpy (vginfo_vgid v) (ID_LEN + 1) = Some g ->
  let g' := if drop_precommitted then set_saved_vg_new None g
            else set_saved_vg_new None
                   (set_saved_vg_old None (set_saved_vg_to_free [] g)) in
  lvmcache_drop_metadata vgname drop_precommitted s
  = Some (tt, set_saved_vg_hash
                (Some (<[dm_strncpy (vginfo_vgid v) (ID_LEN + 1) := g']> tbl)) s).
Proof.
  intros Hh Hlock Hno Hnames Hname Hv Hg. cbv zeta.
  unfold lvmcache_drop_metadata. unfold bind at 1. unfold gets at 1. rewrite Hh.
  rewrite (bind_eq _ _ _ _ _ Hlock). rewrite decide_False by exact Hno.
  unfold _drop_metadata, lvmcache_vginfo_from_vgname, _saved_vg_from_vgid, _saved_vg_free,
    update_svg, read_svg, read_vginfo, dm_hash_lookup, dm_hash_insert,
    bind, gets, deref, modify, ret. simpl.
  destruct drop_precommitted;
    repeat (progress (rewrite ?Hnames, ?Hname, ?Hv, ?Hh, ?Hg, ?lookup_insert_eq; simpl));
    rewrite ?insert_insert_eq; reflexivity.
Qed.

(** X20.  lvmcache_del of an info whose vginfo, if it has one, is kept
    (an orphan vginfo, or one with another member): the pvid written on
    the device leaves the pvid index, the info leaves the members of its
    vginfo and is freed; the name and vgid indexes and the other vginfos
    are as before. *)
Theorem lvmcache_del_keeps_vg (info : ptr) (i : lvmcache_info) (d : device)
    (tbl : gmap string ptr) (s : cache) :
  info_heap s !! info = Some i ->
  dev_heap s !! info_dev i = Some d ->
  _pvid_hash s = Some tbl ->
  (info_vginfo i = None
   \/ exists o ov, info_vginfo i = Some o /\ vginfo_heap s !! o = Some ov
                   /\ (is_orphan_vg (Some (vginfo_vgname ov)) = true
                       \/ filter (fun x => x ≠ info) (vginfo_infos ov) ≠ [])) ->
  exists s',
    lvmcache_del info s = Some (tt, s')
    /\ info_heap s' = delete info (info_heap s)
    /\ _pvid_hash s'
       = Some (if bool_decide (dev_pvid d ≠ EmptyString) then delete (dev_pvid d) tbl
               else tbl)
    /\ (forall o ov, info_vginfo i = Some o -> vginfo_heap s !! o = Some ov ->
          vginfo_heap s' !! o
          = Some (set_vginfo_infos (filter (fun x => x ≠ info) (vginfo_infos ov)) ov))
    /\ (forall p, info_vginfo i ≠ Some p -> vginfo_heap s' !! p = vginfo_heap s !! p)
    /\ _vgname_hash s' = _vgname_hash s
    /\ _vgid_hash s' = _vgid_hash s.
Proof.
  intros Hi Hd Hh Hplace.
  set (tbl' := if bool_decide (dev_pvid d ≠ EmptyString) then delete (dev_pvid d) tbl
               else tbl).
  set (s0 := set_pvid_hash (Some tbl') s).
  assert (Hremove : (if bool_decide (dev_pvid d ≠ EmptyString) && bool_decide (is_Some (Some tbl))
                     then dm_hash_remove PVID_HASH (dev_pvid d) else ret tt) s
                    = Some (tt, s0)).
  { unfold s0, tbl'. rewrite (bool_decide_eq_true_2 (is_Some (Some tbl))) by eauto.
    rewrite andb_true_r. destruct (bool_decide (dev_pvid d ≠ EmptyString)).
    - now rewrite (dm_hash_remove_eq PVID_HASH _ tbl s Hh).
    - unfold ret. destruct s; simpl in *. now rewrite Hh. }
  destruct (_drop_vginfo_kept info i s0 Hi Hplace)
    as (sd & Hdrop & Hih & Hvh & Hvo & Hnh & Hidh & Hlh & Hph & Hdh).
  assert (Hid : info_heap sd !! info = Some (set_info_vginfo None i))
    by (rewrite Hih; apply lookup_insert_eq).
  exists (set_info_heap (delete info (info_heap sd)) sd).
  split; [|split; [|split; [|split; [|split; [|split]]]]].
  - unfold lvmcache_del.
    rewrite (bind_eq _ _ _ _ _ (read_info_eq _ _ _ Hi)).
    rewrite (bind_eq _ _ _ _ _ (read_dev_eq _ _ _ Hd)).
    unfold bind at 1. unfold gets at 1. rewrite Hh.
    rewrite (bind_eq _ _ _ _ _ Hremove).
    rewrite (bind_eq _ _ _ _ _ Hdrop).
    unfold free_info. rewrite (bind_eq _ _ _ _ _ (read_info_eq _ _ _ Hid)). reflexivity.
  - simpl. rewrite Hih. apply delete_insert_eq.
  - simpl. now rewrite Hph.
  - intros o ov Ho Hov. simpl. now apply Hvo.
  - intros p Hp. simpl. now apply Hvh.
  - simpl. now rewrite Hnh.
  - simpl. now rewrite Hidh.
Qed.

End CommitMore.

(** *** On the machine *)

Lemma vginfo_from_vgname_first_on_chain_witness :
  exists r,
    @lvmcache_vginfo_from_vgname lvm2 (Some "vg0") (Some "G2") two_vg0 = Some (r, two_vg0)
    /\ match r with
       | Some q =>
           exists pre post,
             [2%nat; 4%nat] = (pre ++ q :: post)%list
             /\ @vgid_matches lvm2 (vginfo_heap two_vg0) "G2" q
             /\ forall x, x ∈ pre -> ~ @vgid_matches lvm2 (vginfo_heap two_vg0) "G2" x
       | None =>
           forall x, x ∈ [2%nat; 4%nat] -> ~ @vgid_matches lvm2 (vginfo_heap two_vg0) "G2" x
       end.
Proof.
  apply (@vginfo_from_vgname_first_on_chain lvm2 "vg0" "G2"
           (default ∅ (_vgname_hash two_vg0)) 2%nat [4%nat] two_vg0).
  - vm_compute. reflexivity.
  - vm_compute. reflexivity.
  - vm_compute. split; reflexivity.
  - apply NoDup_cons. split; [|apply NoDup_singleton].
    intros Hin. apply list_elem_of_singleton in Hin. discriminate.
Defined.

(** It is the second VG of the name that carries G2. *)
Lemma vginfo_from_vgname_finds_second :
  @lvmcache_vginfo_from_vgname lvm2 (Some "vg0") (Some "G2") two_vg0
  = Some (Some 4%nat, two_vg0).
Proof. vm_compute. reflexivity. Qed.

(** vg0 on sda with the old copy (seqno 5) and the precommitted one
    (seqno 6) saved, before the commit. *)
Definition precommitted : cache :=
  after (@lvmcache_add lvm2 text_labeller "P1" sda (Some "vg0") (Some "G1") 0;;
         @lvmcache_save_vg lvm2 vg0_seqno5 false;;
         @lvmcache_save_vg lvm2 vg0_seqno6 true) started.

Lemma commit_metadata_switches_latest_witness :
  let g := set_saved_vg_committed false svg_G1 in
  let s' := set_saved_vg_hash (Some (<["G1" := set_saved_vg_committed true g]> {["G1" := g]}))
              precommitted in
  @lvmcache_commit_metadata lvm2 "vg0" precommitted = Some (tt, s')
  /\ @lvmcache_get_saved_vg_latest lvm2 "G1" precommitted
     = Some (Some saved_seqno5, precommitted)
  /\ exists s'', @lvmcache_get_saved_vg_latest lvm2 "G1" s' = Some (Some saved_seqno6, s'').
Proof.
  apply (@commit_metadata_switches_latest lvm2 "vg0" (default ∅ (_vgname_hash precommitted))
           2%nat (vginfo_at precommitted 2%nat) {["G1" := set_saved_vg_committed false svg_G1]}
           (set_saved_vg_committed false svg_G1) precommitted);
    vm_compute; reflexivity.
Defined.

Lemma drop_metadata_empties_slots_witness :
  @lvmcache_drop_metadata lvm2 "vg0" true suspended
  = Some (tt, set_saved_vg_hash
                (Some (<["G1" := set_saved_vg_new None svg_G1]> {["G1" := svg_G1]}))
                suspended).
Proof.
  apply (@drop_metadata_empties_slots lvm2 "vg0" true (default ∅ (_vgname_hash suspended))
           2%nat (vginfo_at suspended 2%nat) {["G1" := svg_G1]} svg_G1 suspended);
    try (vm_compute; reflexivity).
  vm_compute. discriminate.
Defined.

Lemma lvmcache_del_keeps_vg_witness :
  exists s',
    @lvmcache_del lvm2 3%nat vg0_seqno5_sdb_orphan = Some (tt, s')
    /\ info_heap s' = delete 3%nat (info_heap vg0_seqno5_sdb_orphan)
    /\ _pvid_hash s' = Some (delete "P2" (default ∅ (_pvid_hash vg0_seqno5_sdb_orphan)))
    /\ (forall o ov,
          Some 0%nat = Some o -> vginfo_heap vg0_seqno5_sdb_orphan !! o = Some ov ->
          vginfo_heap s' !! o
          = Some (set_vginfo_infos (filter (fun x => x ≠ 3%nat) (vginfo_infos ov)) ov))
    /\ (forall p, Some 0%nat ≠ Some p ->
          vginfo_heap s' !! p = vginfo_heap vg0_seqno5_sdb_orphan !! p)
    /\ _vgname_hash s' = _vgname_hash vg0_seqno5_sdb_orphan
    /\ _vgid_hash s' = _vgid_hash vg0_seqno5_sdb_orphan.
Proof.
  assert (Hi : info_heap vg0_seqno5_sdb_orphan !! 3%nat
               = Some (info_at vg0_seqno5_sdb_orphan 3%nat)) by (vm_compute; reflexivity).
  assert (Hd : dev_heap vg0_seqno5_sdb_orphan !! sdb
               = Some (set_dev_pvid "P2" (blank_device 0x810))) by (vm_compute; reflexivity).
  assert (Hh : _pvid_hash vg0_seqno5_sdb_orphan
               = Some (default ∅ (_pvid_hash vg0_seqno5_sdb_orphan)))
    by (vm_compute; reflexivity).
  refine (@lvmcache_del_keeps_vg lvm2 3%nat _ _ _ vg0_seqno5_sdb_orphan Hi Hd Hh _).
  right. exists 0%nat, (vginfo_at vg0_seqno5_sdb_orphan 0%nat).
  split; [vm_compute; reflexivity|]. split; [vm_compute; reflexivity|].
  left. vm_compute. reflexivity.
Defined.
